(** * MLBStandings: standings normalizer and ranking engine

    A shallow embedding of the Swift sources
      MLBStandings/Models/StandingsModels.swift
      MLBStandings/Services/StandingsService.swift
      MLBStandings/ViewModels/StandingsViewModel.swift
      MLBStandings/Utilities/Color+Extensions.swift
    followed by the properties proved about them.

    Modelling conventions.
    - Swift [Int] is [Z]; the only integer arithmetic of the sources
      ([leagueId * 100 + 1]) traps on overflow, which is modelled by an
      [option] result.
    - Swift [Double] is [Double.t]: the finite binary64 values, given by the
      rational each one represents, negative zero, the two infinities and
      NaN.  Parsing and arithmetic round to nearest, ties to even, overflow
      to an infinity and underflow to a zero; comparisons are the IEEE ones,
      so every comparison with NaN is false.  The color components of
      [Color] alone are kept as exact quotients in [Q].
    - Swift [String] is a [string] of bytes (UTF-8); case mapping acts on
      ASCII letters only.
    - [Set<Int>] is [gset Z]; [Array] is [list]; [Optional] is [option].
    - A property observer ([didSet]) is inlined in the setter of its
      property. *)

From Stdlib Require Import ZArith QArith Qpower Qround String Ascii List Lia
  Lqa Bool.
From stdpp Require Import base option list gmap strings pretty.

Open Scope string_scope.
Open Scope Z_scope.

(* ===================================================================== *)
(** ** Strings *)
(* ===================================================================== *)

Module Str.

Definition code (c : ascii) : Z := Z.of_N (N_of_ascii c).

Definition is_digit (c : ascii) : bool := (48 <=? code c) && (code c <=? 57).

Definition lower_char (c : ascii) : ascii :=
  if (65 <=? code c) && (code c <=? 90)
  then ascii_of_N (Z.to_N (code c + 32)) else c.

Definition upper_char (c : ascii) : ascii :=
  if (97 <=? code c) && (code c <=? 122)
  then ascii_of_N (Z.to_N (code c - 32)) else c.

Fixpoint map_chars (f : ascii -> ascii) (s : string) : string :=
  match s with
  | EmptyString => EmptyString
  | String c r => String (f c) (map_chars f r)
  end.

(** [String.lowercased()] and [String.uppercased()]. *)
Definition lowercased : string -> string := map_chars lower_char.
Definition uppercased : string -> string := map_chars upper_char.

(** [String.isEmpty]. *)
Definition isEmpty (s : string) : bool :=
  match s with EmptyString => true | _ => false end.

Definition eqb (a b : string) : bool := String.eqb a b.

(** [String.hasPrefix(_:)]. *)
Fixpoint hasPrefix (p s : string) : bool :=
  match p, s with
  | EmptyString, _ => true
  | String a p', String b s' => Ascii.eqb a b && hasPrefix p' s'
  | String _ _, EmptyString => false
  end.

(** [String.contains(_:)] with a string argument: substring test. *)
Fixpoint contains (s q : string) : bool :=
  hasPrefix q s ||
  match s with
  | EmptyString => false
  | String _ r => contains r q
  end.

(** [String.localizedCaseInsensitiveContains(_:)]. *)
Definition localizedCaseInsensitiveContains (s q : string) : bool :=
  contains (lowercased s) (lowercased q).

(** [String.prefix(_:)] and [String.dropFirst()]. *)
Fixpoint prefix (n : nat) (s : string) : string :=
  match n, s with
  | S n', String c r => String c (prefix n' r)
  | _, _ => EmptyString
  end.

Definition dropFirst (s : string) : string :=
  match s with EmptyString => EmptyString | String _ r => r end.

Fixpoint mem_char (c : ascii) (set : string) : bool :=
  match set with
  | EmptyString => false
  | String d r => Ascii.eqb c d || mem_char c r
  end.

Fixpoint drop_while_in (set : string) (s : string) : string :=
  match s with
  | EmptyString => EmptyString
  | String c r => if mem_char c set then drop_while_in set r else s
  end.

Fixpoint rev_onto (s acc : string) : string :=
  match s with
  | EmptyString => acc
  | String c r => rev_onto r (String c acc)
  end.

Definition reversed (s : string) : string := rev_onto s EmptyString.

(** [String.trimmingCharacters(in: CharacterSet(charactersIn: set))]. *)
Definition trimmingCharacters (set : string) (s : string) : string :=
  reversed (drop_while_in set (reversed (drop_while_in set s))).

(** [String.split(separator:)]: empty subsequences are omitted. *)
Fixpoint split_go (sep : ascii) (cur : string) (s : string) : list string :=
  match s with
  | EmptyString => if isEmpty cur then [] else [reversed cur]
  | String c r =>
      if Ascii.eqb c sep
      then (if isEmpty cur then split_go sep EmptyString r
            else reversed cur :: split_go sep EmptyString r)
      else split_go sep (String c cur) r
  end.

Definition split (sep : ascii) (s : string) : list string :=
  split_go sep EmptyString s.

(** [Array<String>.joined(separator:)]. *)
Fixpoint joined (sep : string) (l : list string) : string :=
  match l with
  | [] => EmptyString
  | [x] => x
  | x :: r => x ++ sep ++ joined sep r
  end.

(** The em-dash U+2014, in UTF-8. *)
Definition emDash : string := "—".

End Str.

(* ===================================================================== *)
(** ** Numbers: the standard parsers and formatters the sources call *)
(* ===================================================================== *)

Module Num.

Definition Int_min : Z := - 2 ^ 63.
Definition Int_max : Z := 2 ^ 63 - 1.

Definition in_Int (z : Z) : bool := (Int_min <=? z) && (z <=? Int_max).

(** Checked [Int] arithmetic: [None] is the overflow trap. *)
Definition checked (z : Z) : option Z := if in_Int z then Some z else None.

Definition digit_of (c : ascii) : option Z :=
  if Str.is_digit c then Some (Str.code c - 48) else None.

(** The longest prefix of decimal digits, and what follows it. *)
Fixpoint span_digits (s : string) : list Z * string :=
  match s with
  | EmptyString => ([], EmptyString)
  | String c r =>
      match digit_of c with
      | Some d => let '(ds, rest) := span_digits r in (d :: ds, rest)
      | None => ([], s)
      end
  end.

Definition digits_value (ds : list Z) : Z :=
  fold_left (fun acc d => acc * 10 + d) ds 0.

(** A non-empty string of digits only. *)
Definition parse_digits (s : string) : option Z :=
  match span_digits s with
  | (d :: ds, EmptyString) => Some (digits_value (d :: ds))
  | _ => None
  end.

Definition parse_signed (s : string) : option Z :=
  match s with
  | String "-"%char r => Z.opp <$> parse_digits r
  | String "+"%char r => parse_digits r
  | _ => parse_digits s
  end.

(** The standard library's [Int.init?(_: some StringProtocol)]: an optional
    sign and at least one decimal digit, [nil] outside the [Int] range. *)
Definition stdInt (s : string) : option Z :=
  z ← parse_signed s; checked z.

(** [m * 10^k] as a rational. *)
Definition scale10 (m k : Z) : Q :=
  if 0 <=? k then Qmake (m * 10 ^ k) 1
  else Qmake m (Z.to_pos (10 ^ (- k))).

(** [2^k] as a rational, for any integer [k]. *)
Definition pow2 (k : Z) : Q :=
  if 0 <=? k then inject_Z (2 ^ k) else Qmake 1 (Z.to_pos (2 ^ (- k))).

Definition parse_exponent (marker : ascii -> bool) (s : string) : option Z :=
  match s with
  | EmptyString => Some 0
  | String c r => if marker c then parse_signed r else None
  end.

(** The magnitude of a decimal literal: digits with an optional fraction (a
    leading or a trailing dot is accepted) and an optional exponent of 10
    after "e" or "E". *)
Definition parse_unsigned_decimal (s : string) : option Q :=
  let '(ip, r1) := span_digits s in
  let '(fp, r2) :=
    match r1 with
    | String "."%char r => span_digits r
    | _ => ([], r1)
    end in
  match (ip ++ fp)%list with
  | [] => None
  | ds =>
      e ← parse_exponent
             (fun c => Ascii.eqb c "e"%char || Ascii.eqb c "E"%char) r2;
      Some (scale10 (digits_value ds) (e - Z.of_nat (length fp)))
  end.

Definition hex_digit_of (c : ascii) : option Z :=
  let n := Str.code c in
  if (48 <=? n) && (n <=? 57) then Some (n - 48)
  else if (65 <=? n) && (n <=? 70) then Some (n - 55)
  else if (97 <=? n) && (n <=? 102) then Some (n - 87)
  else None.

Fixpoint span_hex (s : string) : list Z * string :=
  match s with
  | EmptyString => ([], EmptyString)
  | String c r =>
      match hex_digit_of c with
      | Some d => let '(ds, rest) := span_hex r in (d :: ds, rest)
      | None => ([], s)
      end
  end.

Definition hex_digits_value (ds : list Z) : Z :=
  fold_left (fun acc d => acc * 16 + d) ds 0.

(** The magnitude of a hexadecimal literal, after its "0x": hexadecimal
    digits with an optional fraction and an optional exponent of 2, in
    decimal digits, after "p" or "P". *)
Definition parse_unsigned_hex (s : string) : option Q :=
  let '(ip, r1) := span_hex s in
  let '(fp, r2) :=
    match r1 with
    | String "."%char r => span_hex r
    | _ => ([], r1)
    end in
  match (ip ++ fp)%list with
  | [] => None
  | ds =>
      e ← parse_exponent
             (fun c => Ascii.eqb c "p"%char || Ascii.eqb c "P"%char) r2;
      Some (inject_Z (hex_digits_value ds) * pow2 (e - 4 * Z.of_nat (length fp)))%Q
  end.

Definition Qltb (a b : Q) : bool := negb (Qle_bool b a).

(** Nearest integer to [q], ties to even. *)
Definition round_half_even (q : Q) : Z :=
  let n := Qnum q in
  let d := Zpos (Qden q) in
  let fl := n / d in
  let r2 := 2 * (n mod d) in
  if r2 <? d then fl
  else if d <? r2 then fl + 1
  else if Z.even fl then fl else fl + 1.

Fixpoint zeros (n : nat) : string :=
  match n with
  | O => ""
  | S n' => "0" ++ zeros n'
  end.

(** [s] padded with zeros on the left up to [n] characters. *)
Definition pad_zeros (n : nat) (s : string) : string :=
  zeros (n - String.length s) ++ s.

(** A rational in fixed notation with [d] fraction digits, rounded to
    nearest, ties to even: what the conversion "%.<d>f" prints for a finite
    value. *)
Definition formatFixed (d : nat) (q : Q) : string :=
  let p := 10 ^ Z.of_nat d in
  let n := round_half_even (Qmult q (Qmake p 1)) in
  let a := Z.abs n in
  let sign := if Qltb q 0 then "-" else "" in
  let frac := pad_zeros d (pretty (a mod p)) in
  match d with
  | O => sign ++ pretty a
  | _ => sign ++ pretty (a / p) ++ "." ++ frac
  end.

End Num.

(* ===================================================================== *)
(** ** Floating-point numbers: Swift's [Double] *)
(* ===================================================================== *)

Module Double.

(** A binary64 value: a finite number, given by the rational it represents
    (the rational 0 is positive zero), negative zero, an infinity, or NaN.
    The sign and the payload of a NaN are not kept: nothing in the sources
    observes them. *)
Inductive t :=
| Fin (q : Q)
| NegZero
| Inf (negative : bool)
| NaN.

Definition zero : t := Fin 0.

(** The binary exponent of a positive rational: the [e] with
    [2^e <= q < 2^(e+1)]. *)
Definition flog2 (q : Q) : Z :=
  let e := Z.log2 (Qnum q) - Z.log2 (Zpos (Qden q)) in
  if Qle_bool (Num.pow2 e) q then e else e - 1.

(** A positive rational rounded to the binary64 grid, to nearest, ties to
    even: 53 significant bits, and below [2^-1022] the subnormal grid of
    step [2^-1074].  The result can be [2^1024], which is the overflow. *)
Definition round_pos (a : Q) : Q :=
  let e := Z.max (flog2 a) (-1022) in
  let k := e - 52 in
  (inject_Z (Num.round_half_even (a * Num.pow2 (- k))) * Num.pow2 k)%Q.

(** The binary64 value nearest to a rational: the value of a floating-point
    literal and the rounding of every arithmetic result. *)
Definition of_Q (q : Q) : t :=
  if Qeq_bool q 0 then Fin 0
  else
    let negative := Num.Qltb q 0 in
    let v := round_pos (if negative then - q else q)%Q in
    if Qle_bool (Num.pow2 1024) v then Inf negative
    else if Qeq_bool v 0 then (if negative then NegZero else Fin 0)
    else Fin (Qred (if negative then - v else v)%Q).

Definition isNaN (x : t) : bool :=
  match x with NaN => true | _ => false end.

(** The sign bit and, for a finite value, the rational it represents. *)
Definition signbit (x : t) : bool :=
  match x with
  | Fin q => Num.Qltb q 0
  | NegZero => true
  | Inf negative => negative
  | NaN => false
  end.

Definition value (x : t) : Q :=
  match x with Fin q => q | _ => 0%Q end.

Definition signedZero (negative : bool) : t :=
  if negative then NegZero else Fin 0.

(** [==], [<] and [<=] on [Double]: false whenever an operand is NaN; the
    two zeros are equal. *)
Definition eqb (x y : t) : bool :=
  match x, y with
  | NaN, _ | _, NaN => false
  | Inf s, Inf s' => Bool.eqb s s'
  | Inf _, _ | _, Inf _ => false
  | _, _ => Qeq_bool (value x) (value y)
  end.

Definition ltb (x y : t) : bool :=
  match x, y with
  | NaN, _ | _, NaN => false
  | Inf s, Inf s' => s && negb s'
  | Inf s, _ => s
  | _, Inf s' => negb s'
  | _, _ => Num.Qltb (value x) (value y)
  end.

Definition leb (x y : t) : bool :=
  match x, y with
  | NaN, _ | _, NaN => false
  | Inf s, Inf s' => s || negb s'
  | Inf s, _ => s
  | _, Inf s' => negb s'
  | _, _ => Qle_bool (value x) (value y)
  end.

(** [+] on [Double]. *)
Definition add (x y : t) : t :=
  match x, y with
  | NaN, _ | _, NaN => NaN
  | Inf s, Inf s' => if Bool.eqb s s' then Inf s else NaN
  | Inf s, _ => Inf s
  | _, Inf s' => Inf s'
  | NegZero, NegZero => NegZero
  | _, _ => of_Q (value x + value y)
  end.

(** [/] on [Double]. *)
Definition div (x y : t) : t :=
  match x, y with
  | NaN, _ | _, NaN => NaN
  | Inf _, Inf _ => NaN
  | Inf s, _ => Inf (xorb s (signbit y))
  | _, Inf s' => signedZero (xorb (signbit x) s')
  | _, _ =>
      if Qeq_bool (value y) 0
      then (if Qeq_bool (value x) 0 then NaN
            else Inf (xorb (signbit x) (signbit y)))
      else if Qeq_bool (value x) 0
           then signedZero (xorb (signbit x) (signbit y))
           else of_Q (value x / value y)
  end.

(** [String(format: "%.<d>f", x)]. *)
Definition formatFixed (d : nat) (x : t) : string :=
  match x with
  | Fin q => Num.formatFixed d q
  | NegZero => "-" ++ Num.formatFixed d 0
  | Inf negative => if negative then "-inf" else "inf"
  | NaN => "nan"
  end.

Definition is_payload_char (c : ascii) : bool :=
  let n := Str.code c in
  ((48 <=? n) && (n <=? 57)) || ((65 <=? n) && (n <=? 90))
  || ((97 <=? n) && (n <=? 122)) || (n =? 95).

(** The rest of a NaN payload and its closing parenthesis. *)
Fixpoint payload_and_close (s : string) : bool :=
  match s with
  | EmptyString => false
  | String c r =>
      if Ascii.eqb c ")"%char then Str.isEmpty r
      else is_payload_char c && payload_and_close r
  end.

(** A NaN text, in lower case: "nan", with an optional payload of letters,
    digits and underscores in parentheses, or "snan". *)
Definition is_nan_text (s : string) : bool :=
  String.eqb s "nan" || String.eqb s "snan"
  || match s with
     | String "n" (String "a" (String "n" (String "(" r))) => payload_and_close r
     | _ => false
     end.

(** The standard library's [Double.init?(_: some StringProtocol)]: an
    optional sign, then a decimal literal, a hexadecimal literal after "0x"
    or "0X", "inf" or "infinity", or a NaN text, letters in either case; no
    surrounding white space.  The value a literal denotes is rounded to
    binary64. *)
Definition parse (text : string) : option t :=
  let '(negative, body) :=
    match text with
    | String "-"%char r => (true, r)
    | String "+"%char r => (false, r)
    | _ => (false, text)
    end in
  let lower := Str.lowercased body in
  if String.eqb lower "inf" || String.eqb lower "infinity"
  then Some (Inf negative)
  else if is_nan_text lower then Some NaN
  else
    magnitude ←
      match body with
      | String "0"%char (String x r) =>
          if Ascii.eqb x "x"%char || Ascii.eqb x "X"%char
          then Num.parse_unsigned_hex r
          else Num.parse_unsigned_decimal body
      | _ => Num.parse_unsigned_decimal body
      end;
    Some (if Qeq_bool magnitude 0 then signedZero negative
          else of_Q (if negative then - magnitude else magnitude)%Q).

End Double.

(* ===================================================================== *)
(** ** Raw entities (StandingsModels.swift, the [Decodable] structs) *)
(* ===================================================================== *)

Module TeamInfo.
Record t := mk {
  id : Z;
  name : string;
  teamName : option string;
  shortName : option string;
  clubName : option string;
  locationName : option string;
  abbreviation : option string;
  fileCode : option string
}.
End TeamInfo.

Module Streak.
Record t := mk {
  streakCode : option string;
  streakNumber : option Z;
  streakType : option string
}.
End Streak.

Module Split.
Record t := mk {
  wins : option Z;
  losses : option Z;
  pct : option string
}.
End Split.

Module TeamRecord.
Record t := mk {
  team : TeamInfo.t;
  streak : option Streak.t;
  divisionRank : option string;
  leagueRank : option string;
  wildCardRank : option string;
  clinched : option bool;
  wins : Z;
  losses : Z;
  winningPercentage : string;
  gamesBack : option string;
  runsScored : option Z;
  runsAllowed : option Z;
  runDifferential : option Z;
  lastTen : option string;
  home : option Split.t;
  away : option Split.t;
  extraInnings : option Split.t;
  oneRun : option Split.t
}.
End TeamRecord.

Module DivisionInfo.
Record t := mk {
  id : Z;
  name : string;
  nameShort : option string;
  abbreviation : option string;
  shortName : option string
}.
End DivisionInfo.

Module LeagueInfo.
Record t := mk {
  id : Z;
  name : string;
  abbreviation : option string
}.
End LeagueInfo.

Module DivisionRecord.
Record t := mk {
  teamRecords : list TeamRecord.t;
  division : option DivisionInfo.t;
  league : option LeagueInfo.t;
  season : option string
}.
End DivisionRecord.

Module StandingsResponse.
Record t := mk { records : list DivisionRecord.t }.
End StandingsResponse.

(* ===================================================================== *)
(** ** JSON values and the synthesized [Decodable] conformances *)
(* ===================================================================== *)

(** A parsed JSON document.  The keys of an object are the keys as the
    decoder sees them, after its key decoding strategy
    ([convertFromSnakeCase], the identity on the camel-case keys of the
    API). *)
#[local] Set Warnings "-register-all".
Inductive json :=
| JNull
| JBool (b : bool)
| JNumber (q : Q)
| JString (s : string)
| JArray (l : list json)
| JObject (o : list (string * json)).

(** [JSONDecoder] on the synthesized conformances: [None] is a thrown
    [DecodingError] (key not found, value not found, type mismatch). *)
Module Decoder.

Definition object := list (string * json).

Definition lookup (k : string) (o : object) : option json :=
  snd <$> List.find (fun p => String.eqb (fst p) k) o.

Definition asObject (j : json) : option object :=
  match j with JObject o => Some o | _ => None end.

(** An [Int] is decoded from a number with an integral value in range. *)
Definition decodeInt (j : json) : option Z :=
  match j with
  | JNumber q =>
      let r := Qred q in
      if Zpos (Qden r) =? 1 then Num.checked (Qnum r) else None
  | _ => None
  end.

Definition decodeString (j : json) : option string :=
  match j with JString s => Some s | _ => None end.

Definition decodeBool (j : json) : option bool :=
  match j with JBool b => Some b | _ => None end.

Definition decodeArray {A} (d : json -> option A) (j : json) : option (list A) :=
  match j with JArray l => mapM d l | _ => None end.

(** [container.decode(T.self, forKey:)]: the key must be present and its
    value must decode. *)
Definition decode {A} (d : json -> option A) (k : string) (o : object)
  : option A :=
  j ← lookup k o; d j.

(** [container.decodeIfPresent(T.self, forKey:)]: an absent key and a null
    give [nil]; a present value must still decode. *)
Definition decodeIfPresent {A} (d : json -> option A) (k : string) (o : object)
  : option (option A) :=
  match lookup k o with
  | None | Some JNull => Some None
  | Some j => Some <$> d j
  end.

Definition teamInfo (j : json) : option TeamInfo.t :=
  o ← asObject j;
  id ← decode decodeInt "id" o;
  name ← decode decodeString "name" o;
  teamName ← decodeIfPresent decodeString "teamName" o;
  shortName ← decodeIfPresent decodeString "shortName" o;
  clubName ← decodeIfPresent decodeString "clubName" o;
  locationName ← decodeIfPresent decodeString "locationName" o;
  abbreviation ← decodeIfPresent decodeString "abbreviation" o;
  fileCode ← decodeIfPresent decodeString "fileCode" o;
  Some (TeamInfo.mk id name teamName shortName clubName locationName
          abbreviation fileCode).

Definition streak (j : json) : option Streak.t :=
  o ← asObject j;
  streakCode ← decodeIfPresent decodeString "streakCode" o;
  streakNumber ← decodeIfPresent decodeInt "streakNumber" o;
  streakType ← decodeIfPresent decodeString "streakType" o;
  Some (Streak.mk streakCode streakNumber streakType).

Definition split (j : json) : option Split.t :=
  o ← asObject j;
  wins ← decodeIfPresent decodeInt "wins" o;
  losses ← decodeIfPresent decodeInt "losses" o;
  pct ← decodeIfPresent decodeString "pct" o;
  Some (Split.mk wins losses pct).

Definition teamRecord (j : json) : option TeamRecord.t :=
  o ← asObject j;
  team ← decode teamInfo "team" o;
  streak ← decodeIfPresent streak "streak" o;
  divisionRank ← decodeIfPresent decodeString "divisionRank" o;
  leagueRank ← decodeIfPresent decodeString "leagueRank" o;
  wildCardRank ← decodeIfPresent decodeString "wildCardRank" o;
  clinched ← decodeIfPresent decodeBool "clinched" o;
  wins ← decode decodeInt "wins" o;
  losses ← decode decodeInt "losses" o;
  winningPercentage ← decode decodeString "winningPercentage" o;
  gamesBack ← decodeIfPresent decodeString "gamesBack" o;
  runsScored ← decodeIfPresent decodeInt "runsScored" o;
  runsAllowed ← decodeIfPresent decodeInt "runsAllowed" o;
  runDifferential ← decodeIfPresent decodeInt "runDifferential" o;
  lastTen ← decodeIfPresent decodeString "lastTen" o;
  home ← decodeIfPresent split "home" o;
  away ← decodeIfPresent split "away" o;
  extraInnings ← decodeIfPresent split "extraInnings" o;
  oneRun ← decodeIfPresent split "oneRun" o;
  Some (TeamRecord.mk team streak divisionRank leagueRank wildCardRank
          clinched wins losses winningPercentage gamesBack runsScored
          runsAllowed runDifferential lastTen home away extraInnings oneRun).

Definition divisionInfo (j : json) : option DivisionInfo.t :=
  o ← asObject j;
  id ← decode decodeInt "id" o;
  name ← decode decodeString "name" o;
  nameShort ← decodeIfPresent decodeString "nameShort" o;
  abbreviation ← decodeIfPresent decodeString "abbreviation" o;
  shortName ← decodeIfPresent decodeString "shortName" o;
  Some (DivisionInfo.mk id name nameShort abbreviation shortName).

Definition leagueInfo (j : json) : option LeagueInfo.t :=
  o ← asObject j;
  id ← decode decodeInt "id" o;
  name ← decode decodeString "name" o;
  abbreviation ← decodeIfPresent decodeString "abbreviation" o;
  Some (LeagueInfo.mk id name abbreviation).

Definition divisionRecord (j : json) : option DivisionRecord.t :=
  o ← asObject j;
  teamRecords ← decode (decodeArray teamRecord) "teamRecords" o;
  division ← decodeIfPresent divisionInfo "division" o;
  league ← decodeIfPresent leagueInfo "league" o;
  season ← decodeIfPresent decodeString "season" o;
  Some (DivisionRecord.mk teamRecords division league season).

Definition standingsResponse (j : json) : option StandingsResponse.t :=
  o ← asObject j;
  records ← decode (decodeArray divisionRecord) "records" o;
  Some (StandingsResponse.mk records).

End Decoder.

(* ===================================================================== *)
(** ** Domain entities (StandingsModels.swift) *)
(* ===================================================================== *)

(** [private extension Double { init?(_ string: String?) }]: the tolerant
    parser.  Inside it, and wherever the argument is a non-optional [String]
    or a [Substring], [Double(...)] is the standard library's initializer
    [Double.parse]. *)
Definition Double_init (string : option string) : option Double.t :=
  match string with
  | None => None
  | Some string =>
      let trimmed := Str.trimmingCharacters " %" string in
      if Str.isEmpty trimmed then None
      else if String.eqb trimmed Str.emDash || String.eqb trimmed "-" then None
      else match Double.parse trimmed with
           | Some value => Some value
           | None =>
               match Double.parse ("0" ++ trimmed) with
               | Some fractional => Some fractional
               | None => None
               end
           end
  end.

(** [private extension Int { init?(_ string: String?) }]. *)
Definition Int_init (string : option string) : option Z :=
  match string with
  | None => None
  | Some string => Num.stdInt string
  end.

Module TeamBranding.

Record t := mk {
  abbreviation : string;
  primaryHex : string;
  secondaryHex : string;
  accentHex : string
}.

Definition defaultPalette : t := mk "MLB" "#13274F" "#0C2340" "#FF6F61".

Definition palettes : list (string * t) :=
  [ ("ARI", mk "ARI" "#A71930" "#000000" "#E3D4AD");
    ("ATL", mk "ATL" "#13274F" "#CE1141" "#EAAA00");
    ("BAL", mk "BAL" "#DF4601" "#000000" "#333333");
    ("BOS", mk "BOS" "#BD3039" "#0D2B56" "#FFFFFF");
    ("CHC", mk "CHC" "#0E3386" "#CC3433" "#FFFFFF");
    ("CHW", mk "CHW" "#27251F" "#C4CED4" "#000000");
    ("CIN", mk "CIN" "#C6011F" "#000000" "#FFFFFF");
    ("CLE", mk "CLE" "#0C2340" "#E31937" "#A4A9AD");
    ("COL", mk "COL" "#33006F" "#C4CED4" "#000000");
    ("DET", mk "DET" "#0C2340" "#FA4616" "#FFFFFF");
    ("HOU", mk "HOU" "#002D62" "#EB6E1F" "#F4911E");
    ("KC", mk "KC" "#004687" "#C09A5B" "#FFFFFF");
    ("KCR", mk "KCR" "#004687" "#C09A5B" "#FFFFFF");
    ("LAA", mk "LAA" "#BA0021" "#003263" "#862633");
    ("LAD", mk "LAD" "#005A9C" "#EF3E42" "#FFFFFF");
    ("MIA", mk "MIA" "#00A3E0" "#EF3340" "#000000");
    ("MIL", mk "MIL" "#0A2351" "#B6922E" "#FFFFFF");
    ("MIN", mk "MIN" "#002B5C" "#D31145" "#B9975B");
    ("NYM", mk "NYM" "#002D72" "#FF5910" "#FFB81C");
    ("NYN", mk "NYN" "#002D72" "#FF5910" "#FFB81C");
    ("NYY", mk "NYY" "#0C2340" "#C4CED4" "#A2AAAD");
    ("OAK", mk "OAK" "#003831" "#EFB21E" "#A2AAAD");
    ("PHI", mk "PHI" "#E81828" "#002D72" "#A7A9AC");
    ("PIT", mk "PIT" "#27251F" "#FDB827" "#C4CED4");
    ("SD", mk "SD" "#2F241D" "#FFC425" "#0055A5");
    ("SDP", mk "SDP" "#2F241D" "#FFC425" "#0055A5");
    ("SEA", mk "SEA" "#0C2C56" "#005C5C" "#C4CED4");
    ("SF", mk "SF" "#FD5A1E" "#27251F" "#8B6F4E");
    ("STL", mk "STL" "#C41E3A" "#0C2340" "#FEDB00");
    ("TB", mk "TB" "#092C5C" "#8FBCE6" "#F5D130");
    ("TBR", mk "TBR" "#092C5C" "#8FBCE6" "#F5D130");
    ("TEX", mk "TEX" "#003278" "#C0111F" "#FFFFFF");
    ("TOR", mk "TOR" "#134A8E" "#1D2D5C" "#E8291C");
    ("WSH", mk "WSH" "#AB0003" "#11225B" "#FFFFFF");
    ("WSN", mk "WSN" "#AB0003" "#11225B" "#FFFFFF");
    ("CWS", mk "CWS" "#27251F" "#C4CED4" "#000000") ].

Definition palette (abbreviation : string) : t :=
  match List.find (fun p => String.eqb (fst p) (Str.uppercased abbreviation))
          palettes with
  | Some p => snd p
  | None => defaultPalette
  end.

End TeamBranding.

Module RecordSplit.

Record t := mk {
  wins : Z;
  losses : Z;
  percentage : Double.t
}.

Definition formatted (r : t) : string :=
  pretty (wins r) ++ "-" ++ pretty (losses r).

(** [init?(split: TeamRecord.Split?)]. *)
Definition init (split : option Split.t) : option t :=
  match split ≫= Split.wins, split ≫= Split.losses with
  | Some wins, Some losses =>
      Some (mk wins losses
              (default Double.zero (Double_init (split ≫= Split.pct))))
  | _, _ => None
  end.

End RecordSplit.

Module TeamStanding.

Record t := mk {
  id : Z;
  name : string;
  shortName : string;
  location : string;
  abbreviation : string;
  wins : Z;
  losses : Z;
  winningPercentage : Double.t;
  winningPercentageText : string;
  gamesBack : option Double.t;
  gamesBackText : string;
  runDifferential : option Z;
  runsScored : option Z;
  runsAllowed : option Z;
  divisionRank : option Z;
  leagueRank : option Z;
  wildCardRank : option Z;
  streakCode : string;
  streakCount : Z;
  streakIsWin : bool;
  lastTenRecord : string;
  lastTenWinRate : Double.t;
  clinched : bool;
  homeRecord : option RecordSplit.t;
  awayRecord : option RecordSplit.t;
  extraInningsRecord : option RecordSplit.t;
  oneRunRecord : option RecordSplit.t;
  branding : TeamBranding.t;
  season : Z;
  leagueID : Z;
  divisionID : Z
}.

Definition defaultStreakCode (streak : option Streak.t) : string :=
  match streak with
  | None => ""
  | Some streak =>
      let number := default 0 (Streak.streakNumber streak) in
      let prefix :=
        if String.eqb (Str.lowercased (default "" (Streak.streakType streak)))
             "wins"
        then "W" else "L" in
      prefix ++ pretty number
  end.

Definition winRate (record : string) : Double.t :=
  match Str.split "-" record with
  | [c0; c1] =>
      match Double.parse c0, Double.parse c1 with
      | Some wins, Some losses =>
          let total := Double.add wins losses in
          if Double.ltb Double.zero total then Double.div wins total
          else Double.zero
      | _, _ => Double.zero
      end
  | _ => Double.zero
  end.

(** [init(record:league:division:season:)]. *)
Definition init (record : TeamRecord.t) (league : option LeagueInfo.t)
    (division : option DivisionInfo.t) (season : Z) : t :=
  let team := TeamRecord.team record in
  let abbreviation :=
    default (Str.uppercased (Str.prefix 3 (TeamInfo.name team)))
            (TeamInfo.abbreviation team) in
  let percentageValue :=
    default Double.zero (Double.parse (TeamRecord.winningPercentage record)) in
  let gamesBackValue := Double_init (TeamRecord.gamesBack record) in
  let gamesBackText :=
    match gamesBackValue with
    | Some gamesBackValue =>
        if Double.eqb gamesBackValue Double.zero then Str.emDash
        else Double.formatFixed 1 gamesBackValue ++ " GB"
    | None => default Str.emDash (TeamRecord.gamesBack record)
    end in
  let streakCode :=
    default "" (TeamRecord.streak record ≫= Streak.streakCode) in
  let streakCount :=
    match TeamRecord.streak record ≫= Streak.streakNumber with
    | Some n => n
    | None => default 0 (Num.stdInt (Str.dropFirst streakCode))
    end in
  let isWin :=
    match TeamRecord.streak record ≫= Streak.streakType with
    | Some ty => String.eqb (Str.lowercased ty) "wins"
    | None => false
    end
    || Str.hasPrefix "W" (Str.uppercased streakCode) in
  let lastTen := default "0-0" (TeamRecord.lastTen record) in
  {| id := TeamInfo.id team;
     name := TeamInfo.name team;
     shortName :=
       match TeamInfo.shortName team with
       | Some s => s
       | None => default (TeamInfo.name team) (TeamInfo.teamName team)
       end;
     location := default (TeamInfo.name team) (TeamInfo.locationName team);
     abbreviation := abbreviation;
     wins := TeamRecord.wins record;
     losses := TeamRecord.losses record;
     winningPercentage := percentageValue;
     winningPercentageText := Double.formatFixed 3 percentageValue;
     gamesBack := gamesBackValue;
     gamesBackText := gamesBackText;
     runDifferential := TeamRecord.runDifferential record;
     runsScored := TeamRecord.runsScored record;
     runsAllowed := TeamRecord.runsAllowed record;
     divisionRank := Num.stdInt (default "" (TeamRecord.divisionRank record));
     leagueRank := Num.stdInt (default "" (TeamRecord.leagueRank record));
     wildCardRank := Num.stdInt (default "" (TeamRecord.wildCardRank record));
     streakCode :=
       if Str.isEmpty streakCode
       then defaultStreakCode (TeamRecord.streak record) else streakCode;
     streakCount := streakCount;
     streakIsWin := isWin;
     lastTenRecord := lastTen;
     lastTenWinRate := winRate lastTen;
     clinched := default false (TeamRecord.clinched record);
     homeRecord := RecordSplit.init (TeamRecord.home record);
     awayRecord := RecordSplit.init (TeamRecord.away record);
     extraInningsRecord := RecordSplit.init (TeamRecord.extraInnings record);
     oneRunRecord := RecordSplit.init (TeamRecord.oneRun record);
     branding := TeamBranding.palette abbreviation;
     season := season;
     leagueID := default 0 (LeagueInfo.id <$> league);
     divisionID := default 0 (DivisionInfo.id <$> division) |}.

Definition searchableText (t0 : t) : string :=
  Str.lowercased
    (Str.joined " " [name t0; shortName t0; location t0; abbreviation t0]).

Definition sample : t :=
  {| id := 147; name := "New York Yankees"; shortName := "Yankees"; location := "New York";
     abbreviation := "NYY"; wins := 62; losses := 30;
     winningPercentage := Double.of_Q 0.674; winningPercentageText := "0.674";
     gamesBack := Some (Double.of_Q 0); gamesBackText := Str.emDash;
     runDifferential := (Some (126)); runsScored := (Some (432)); runsAllowed := (Some (306));
     divisionRank := (Some (1)); leagueRank := (Some (1)); wildCardRank := None;
     streakCode := "W4"; streakCount := 4; streakIsWin := true;
     lastTenRecord := "8-2"; lastTenWinRate := Double.of_Q 0.8; clinched := false;
     homeRecord := (Some (RecordSplit.mk 35 14 (Double.of_Q 0.714)));
     awayRecord := (Some (RecordSplit.mk 27 16 (Double.of_Q 0.628)));
     extraInningsRecord := (Some (RecordSplit.mk 5 2 (Double.of_Q 0.714)));
     oneRunRecord := (Some (RecordSplit.mk 12 8 (Double.of_Q 0.600)));
     branding := TeamBranding.palette "NYY";
     season := 2024; leagueID := 103; divisionID := 201 |}.

Definition orioles : t :=
  {| id := 110; name := "Baltimore Orioles"; shortName := "Orioles"; location := "Baltimore";
     abbreviation := "BAL"; wins := 58; losses := 35;
     winningPercentage := Double.of_Q 0.624; winningPercentageText := "0.624";
     gamesBack := Some (Double.of_Q 4); gamesBackText := "4.0 GB";
     runDifferential := (Some (94)); runsScored := (Some (421)); runsAllowed := (Some (327));
     divisionRank := (Some (2)); leagueRank := (Some (3)); wildCardRank := (Some (1));
     streakCode := "W2"; streakCount := 2; streakIsWin := true;
     lastTenRecord := "7-3"; lastTenWinRate := Double.of_Q 0.7; clinched := false;
     homeRecord := (Some (RecordSplit.mk 30 18 (Double.of_Q 0.625)));
     awayRecord := (Some (RecordSplit.mk 28 17 (Double.of_Q 0.622)));
     extraInningsRecord := (Some (RecordSplit.mk 4 1 (Double.of_Q 0.800)));
     oneRunRecord := (Some (RecordSplit.mk 13 9 (Double.of_Q 0.591)));
     branding := TeamBranding.palette "BAL";
     season := 2024; leagueID := 103; divisionID := 201 |}.

Definition rays : t :=
  {| id := 139; name := "Tampa Bay Rays"; shortName := "Rays"; location := "Tampa Bay";
     abbreviation := "TB"; wins := 53; losses := 40;
     winningPercentage := Double.of_Q 0.570; winningPercentageText := "0.570";
     gamesBack := Some (Double.of_Q 9); gamesBackText := "9.0 GB";
     runDifferential := (Some (61)); runsScored := (Some (398)); runsAllowed := (Some (337));
     divisionRank := (Some (3)); leagueRank := (Some (6)); wildCardRank := (Some (2));
     streakCode := "L1"; streakCount := 1; streakIsWin := false;
     lastTenRecord := "6-4"; lastTenWinRate := Double.of_Q 0.6; clinched := false;
     homeRecord := (Some (RecordSplit.mk 29 18 (Double.of_Q 0.617)));
     awayRecord := (Some (RecordSplit.mk 24 22 (Double.of_Q 0.522)));
     extraInningsRecord := (Some (RecordSplit.mk 3 2 (Double.of_Q 0.600)));
     oneRunRecord := (Some (RecordSplit.mk 11 10 (Double.of_Q 0.524)));
     branding := TeamBranding.palette "TB";
     season := 2024; leagueID := 103; divisionID := 201 |}.

Definition blueJays : t :=
  {| id := 141; name := "Toronto Blue Jays"; shortName := "Blue Jays"; location := "Toronto";
     abbreviation := "TOR"; wins := 47; losses := 46;
     winningPercentage := Double.of_Q 0.505; winningPercentageText := "0.505";
     gamesBack := Some (Double.of_Q 15); gamesBackText := "15.0 GB";
     runDifferential := (Some (12)); runsScored := (Some (372)); runsAllowed := (Some (360));
     divisionRank := (Some (4)); leagueRank := (Some (8)); wildCardRank := (Some (5));
     streakCode := "W1"; streakCount := 1; streakIsWin := true;
     lastTenRecord := "5-5"; lastTenWinRate := Double.of_Q 0.5; clinched := false;
     homeRecord := (Some (RecordSplit.mk 25 21 (Double.of_Q 0.543)));
     awayRecord := (Some (RecordSplit.mk 22 25 (Double.of_Q 0.468)));
     extraInningsRecord := (Some (RecordSplit.mk 2 3 (Double.of_Q 0.400)));
     oneRunRecord := (Some (RecordSplit.mk 15 12 (Double.of_Q 0.556)));
     branding := TeamBranding.palette "TOR";
     season := 2024; leagueID := 103; divisionID := 201 |}.

Definition redSox : t :=
  {| id := 111; name := "Boston Red Sox"; shortName := "Red Sox"; location := "Boston";
     abbreviation := "BOS"; wins := 43; losses := 52;
     winningPercentage := Double.of_Q 0.453; winningPercentageText := "0.453";
     gamesBack := Some (Double.of_Q 19); gamesBackText := "19.0 GB";
     runDifferential := (Some (-18)); runsScored := (Some (360)); runsAllowed := (Some (378));
     divisionRank := (Some (5)); leagueRank := (Some (11)); wildCardRank := (Some (7));
     streakCode := "L2"; streakCount := 2; streakIsWin := false;
     lastTenRecord := "4-6"; lastTenWinRate := Double.of_Q 0.4; clinched := false;
     homeRecord := (Some (RecordSplit.mk 19 27 (Double.of_Q 0.413)));
     awayRecord := (Some (RecordSplit.mk 24 25 (Double.of_Q 0.490)));
     extraInningsRecord := (Some (RecordSplit.mk 1 4 (Double.of_Q 0.200)));
     oneRunRecord := (Some (RecordSplit.mk 10 16 (Double.of_Q 0.385)));
     branding := TeamBranding.palette "BOS";
     season := 2024; leagueID := 103; divisionID := 201 |}.

Definition dodgers : t :=
  {| id := 119; name := "Los Angeles Dodgers"; shortName := "Dodgers"; location := "Los Angeles";
     abbreviation := "LAD"; wins := 65; losses := 28;
     winningPercentage := Double.of_Q 0.699; winningPercentageText := "0.699";
     gamesBack := Some (Double.of_Q 0); gamesBackText := Str.emDash;
     runDifferential := (Some (154)); runsScored := (Some (468)); runsAllowed := (Some (314));
     divisionRank := (Some (1)); leagueRank := (Some (1)); wildCardRank := None;
     streakCode := "W6"; streakCount := 6; streakIsWin := true;
     lastTenRecord := "9-1"; lastTenWinRate := Double.of_Q 0.9; clinched := false;
     homeRecord := (Some (RecordSplit.mk 35 12 (Double.of_Q 0.745)));
     awayRecord := (Some (RecordSplit.mk 30 16 (Double.of_Q 0.652)));
     extraInningsRecord := (Some (RecordSplit.mk 6 1 (Double.of_Q 0.857)));
     oneRunRecord := (Some (RecordSplit.mk 18 9 (Double.of_Q 0.667)));
     branding := TeamBranding.palette "LAD";
     season := 2024; leagueID := 104; divisionID := 203 |}.

Definition padres : t :=
  {| id := 135; name := "San Diego Padres"; shortName := "Padres"; location := "San Diego";
     abbreviation := "SD"; wins := 57; losses := 37;
     winningPercentage := Double.of_Q 0.606; winningPercentageText := "0.606";
     gamesBack := Some (Double.of_Q 8); gamesBackText := "8.0 GB";
     runDifferential := (Some (72)); runsScored := (Some (420)); runsAllowed := (Some (348));
     divisionRank := (Some (2)); leagueRank := (Some (3)); wildCardRank := (Some (1));
     streakCode := "W3"; streakCount := 3; streakIsWin := true;
     lastTenRecord := "7-3"; lastTenWinRate := Double.of_Q 0.7; clinched := false;
     homeRecord := (Some (RecordSplit.mk 29 18 (Double.of_Q 0.617)));
     awayRecord := (Some (RecordSplit.mk 28 19 (Double.of_Q 0.596)));
     extraInningsRecord := (Some (RecordSplit.mk 4 2 (Double.of_Q 0.667)));
     oneRunRecord := (Some (RecordSplit.mk 16 11 (Double.of_Q 0.593)));
     branding := TeamBranding.palette "SD";
     season := 2024; leagueID := 104; divisionID := 203 |}.

Definition giants : t :=
  {| id := 137; name := "San Francisco Giants"; shortName := "Giants"; location := "San Francisco";
     abbreviation := "SF"; wins := 49; losses := 45;
     winningPercentage := Double.of_Q 0.521; winningPercentageText := "0.521";
     gamesBack := Some (Double.of_Q 16); gamesBackText := "16.0 GB";
     runDifferential := (Some (24)); runsScored := (Some (390)); runsAllowed := (Some (366));
     divisionRank := (Some (3)); leagueRank := (Some (6)); wildCardRank := (Some (2));
     streakCode := "L1"; streakCount := 1; streakIsWin := false;
     lastTenRecord := "6-4"; lastTenWinRate := Double.of_Q 0.6; clinched := false;
     homeRecord := (Some (RecordSplit.mk 27 22 (Double.of_Q 0.551)));
     awayRecord := (Some (RecordSplit.mk 22 23 (Double.of_Q 0.489)));
     extraInningsRecord := (Some (RecordSplit.mk 3 3 (Double.of_Q 0.500)));
     oneRunRecord := (Some (RecordSplit.mk 14 13 (Double.of_Q 0.519)));
     branding := TeamBranding.palette "SF";
     season := 2024; leagueID := 104; divisionID := 203 |}.

Definition diamondbacks : t :=
  {| id := 109; name := "Arizona Diamondbacks"; shortName := "D-backs"; location := "Arizona";
     abbreviation := "ARI"; wins := 46; losses := 49;
     winningPercentage := Double.of_Q 0.484; winningPercentageText := "0.484";
     gamesBack := Some (Double.of_Q 19); gamesBackText := "19.0 GB";
     runDifferential := (Some (-12)); runsScored := (Some (364)); runsAllowed := (Some (376));
     divisionRank := (Some (4)); leagueRank := (Some (8)); wildCardRank := (Some (5));
     streakCode := "W1"; streakCount := 1; streakIsWin := true;
     lastTenRecord := "5-5"; lastTenWinRate := Double.of_Q 0.5; clinched := false;
     homeRecord := (Some (RecordSplit.mk 24 23 (Double.of_Q 0.511)));
     awayRecord := (Some (RecordSplit.mk 22 26 (Double.of_Q 0.458)));
     extraInningsRecord := (Some (RecordSplit.mk 2 4 (Double.of_Q 0.333)));
     oneRunRecord := (Some (RecordSplit.mk 12 17 (Double.of_Q 0.414)));
     branding := TeamBranding.palette "ARI";
     season := 2024; leagueID := 104; divisionID := 203 |}.

Definition rockies : t :=
  {| id := 115; name := "Colorado Rockies"; shortName := "Rockies"; location := "Colorado";
     abbreviation := "COL"; wins := 38; losses := 57;
     winningPercentage := Double.of_Q 0.400; winningPercentageText := "0.400";
     gamesBack := Some (Double.of_Q 27); gamesBackText := "27.0 GB";
     runDifferential := (Some (-92)); runsScored := (Some (330)); runsAllowed := (Some (422));
     divisionRank := (Some (5)); leagueRank := (Some (13)); wildCardRank := (Some (8));
     streakCode := "L4"; streakCount := 4; streakIsWin := false;
     lastTenRecord := "3-7"; lastTenWinRate := Double.of_Q 0.3; clinched := false;
     homeRecord := (Some (RecordSplit.mk 22 27 (Double.of_Q 0.449)));
     awayRecord := (Some (RecordSplit.mk 16 30 (Double.of_Q 0.348)));
     extraInningsRecord := (Some (RecordSplit.mk 1 6 (Double.of_Q 0.143)));
     oneRunRecord := (Some (RecordSplit.mk 9 21 (Double.of_Q 0.300)));
     branding := TeamBranding.palette "COL";
     season := 2024; leagueID := 104; divisionID := 203 |}.

Definition yankees : t := sample.

(** [recordText]. *)
Definition recordText (t0 : t) : string :=
  pretty (wins t0) ++ "-" ++ pretty (losses t0).

(** [runDifferentialText]. *)
Definition runDifferentialText (t0 : t) : string :=
  match runDifferential t0 with
  | None => Str.emDash
  | Some runDifferential =>
      (if 0 <=? runDifferential then "+" else "") ++ pretty runDifferential
  end.

(** [streakDescription]. *)
Definition streakDescription (t0 : t) : string :=
  if 0 <? streakCount t0
  then (if streakIsWin t0 then "W" else "L") ++ pretty (streakCount t0)
  else Str.emDash.

End TeamStanding.

Module StandingsSection.

Record t := mk {
  id : Z;
  divisionID : Z;
  leagueID : Z;
  leagueName : string;
  leagueAbbreviation : string;
  title : string;
  subtitle : string;
  teams : list TeamStanding.t;
  season : Z
}.

(** [var filteredSection = section; filteredSection.teams = teams]. *)
Definition with_teams (s : t) (ts : list TeamStanding.t) : t :=
  {| id := id s; divisionID := divisionID s; leagueID := leagueID s;
     leagueName := leagueName s; leagueAbbreviation := leagueAbbreviation s;
     title := title s; subtitle := subtitle s; teams := ts;
     season := season s |}.

(** [init(from record: DivisionRecord)].  [currentSeason] is the value of
    [StandingsViewModel.currentSeason], the calendar year of the run.  The
    result is [None] when [leagueId * 100 + 1] overflows, where the program
    traps. *)
Definition init (currentSeason : Z) (record : DivisionRecord.t) : option t :=
  let league := DivisionRecord.league record in
  let division := DivisionRecord.division record in
  let leagueId := default 0 (LeagueInfo.id <$> league) in
  let leagueName := default "Major League Baseball" (LeagueInfo.name <$> league) in
  let derivedAbbreviation :=
    match league ≫= LeagueInfo.abbreviation with
    | Some explicit => explicit
    | None =>
        if Str.localizedCaseInsensitiveContains leagueName "American" then "AL"
        else if Str.localizedCaseInsensitiveContains leagueName "National" then "NL"
        else "MLB"
    end in
  divisionId ←
    match division with
    | Some d => Some (DivisionInfo.id d)
    | None => m ← Num.checked (leagueId * 100); Num.checked (m + 1)
    end;
  let title := default leagueName (DivisionInfo.name <$> division) in
  let subtitle :=
    match division ≫= DivisionInfo.shortName with
    | Some s => s
    | None =>
        match division ≫= DivisionInfo.nameShort with
        | Some s => s
        | None => default "" (LeagueInfo.name <$> league)
        end
    end in
  let mappedSeason :=
    default currentSeason (Num.stdInt (default "" (DivisionRecord.season record))) in
  Some {| id := divisionId;
          divisionID := divisionId;
          leagueID := leagueId;
          leagueName := leagueName;
          leagueAbbreviation := derivedAbbreviation;
          title := title;
          subtitle := subtitle;
          teams :=
            List.map (fun r => TeamStanding.init r league division mappedSeason)
                     (DivisionRecord.teamRecords record);
          season := mappedSeason |}.

Definition alEast : t :=
  {| id := 201; divisionID := 201; leagueID := 103;
     leagueName := "American League"; leagueAbbreviation := "AL";
     title := "American League East"; subtitle := "AL East";
     teams := [TeamStanding.yankees; TeamStanding.orioles; TeamStanding.rays;
               TeamStanding.blueJays; TeamStanding.redSox];
     season := 2024 |}.

Definition nlWest : t :=
  {| id := 203; divisionID := 203; leagueID := 104;
     leagueName := "National League"; leagueAbbreviation := "NL";
     title := "National League West"; subtitle := "NL West";
     teams := [TeamStanding.dodgers; TeamStanding.padres; TeamStanding.giants;
               TeamStanding.diamondbacks; TeamStanding.rockies];
     season := 2024 |}.

(** [static let sample: [StandingsSection]]. *)
Definition sample : list t := [alEast; nlWest].

End StandingsSection.

(* ===================================================================== *)
(** ** Fetch client (StandingsService.swift) *)
(* ===================================================================== *)

Module StandingsService.

Inductive ServiceError := invalidResponse | decodingFailed.

Definition errorDescription (e : ServiceError) : string :=
  match e with
  | invalidResponse => "The server returned an unexpected response."
  | decodingFailed => "We couldn't parse the latest standings data."
  end.

(** What [fetchStandings] can throw: its own errors, or whatever
    [URLSession.data(from:)] threw, kept as its localized description. *)
Inductive Error :=
| Service (e : ServiceError)
| Session (localizedDescription : string).

(** What [URLSession.data(from:)] delivers for a request: it throws, or it
    returns a response (its HTTP status code, [None] when the response is
    not an [HTTPURLResponse]) with a body ([None] when the data is not a
    JSON text). *)
Inductive Delivery :=
| Throws (localizedDescription : string)
| Response (statusCode : option Z) (body : option json).

Definition fieldsQuery : string :=
  Str.joined ","
    [ "records"; "records.teamRecords"; "records.teamRecords.team";
      "records.teamRecords.streak"; "records.teamRecords.divisionRank";
      "records.teamRecords.leagueRank"; "records.teamRecords.wildCardRank";
      "records.teamRecords.wins"; "records.teamRecords.losses";
      "records.teamRecords.winningPercentage"; "records.teamRecords.gamesBack";
      "records.teamRecords.runsScored"; "records.teamRecords.runsAllowed";
      "records.teamRecords.runDifferential"; "records.teamRecords.lastTen";
      "records.teamRecords.home"; "records.teamRecords.away";
      "records.teamRecords.extraInnings"; "records.teamRecords.oneRun";
      "records.teamRecords.clinched"; "records.league"; "records.division";
      "records.season" ].

Definition queryItems (season : Z) (leagueIds : list Z) : list (string * string) :=
  [ ("leagueId", Str.joined "," (List.map pretty leagueIds));
    ("season", pretty season);
    ("standingsTypes", "regularSeason");
    ("hydrate", "team,league,division");
    ("fields", fieldsQuery) ].

(** The session is a function from the query of a request to its delivery. *)
Definition URLSession := list (string * string) -> Delivery.

(** [fetchStandings(season:leagueIds:)]. *)
Definition fetchStandings (session : URLSession) (season : Z)
    (leagueIds : list Z) : Error + StandingsResponse.t :=
  match session (queryItems season leagueIds) with
  | Throws d => inl (Session d)
  | Response statusCode body =>
      match statusCode with
      | Some code =>
          if code =? 200
          then match body ≫= Decoder.standingsResponse with
               | Some r => inr r
               | None => inl (Service decodingFailed)
               end
          else inl (Service invalidResponse)
      | None => inl (Service invalidResponse)
      end
  end.

Definition defaultLeagueIds : list Z := [103; 104].

End StandingsService.

(* ===================================================================== *)
(** ** Library algorithms on sequences *)
(* ===================================================================== *)

(** [Sequence.sorted(by:)], modelled by the stable insertion sort: an element
    is placed before the first element that is not strictly before it. *)
Fixpoint insert_by {A} (lt : A -> A -> bool) (x : A) (l : list A) : list A :=
  match l with
  | [] => [x]
  | y :: r => if lt y x then y :: insert_by lt x r else x :: y :: r
  end.

Fixpoint sorted_by {A} (lt : A -> A -> bool) (l : list A) : list A :=
  match l with
  | [] => []
  | x :: r => insert_by lt x (sorted_by lt r)
  end.

(** [Sequence.max(by:)]: the running maximum is replaced by a later element
    only when it is strictly before that element. *)
Fixpoint max_from {A} (lt : A -> A -> bool) (result : A) (l : list A) : A :=
  match l with
  | [] => result
  | e :: r => max_from lt (if lt result e then e else result) r
  end.

Definition max_by {A} (lt : A -> A -> bool) (l : list A) : option A :=
  match l with
  | [] => None
  | x :: r => Some (max_from lt x r)
  end.

(* ===================================================================== *)
(** ** Ranking engine (StandingsViewModel.swift) *)
(* ===================================================================== *)

Module StandingsViewModel.

Inductive LeagueFilter := all | american | national.

Inductive SortOption :=
| divisionRank | winningPercentage | runDifferential | streak | lastTen
| runsScored.

(** The stored properties of the view model, and [loadTasks]: the
    [Task { await loadStandings(force:) }] spawned so far, by their [force]
    argument. *)
Record State := mk {
  sections : list StandingsSection.t;
  filteredSections : list StandingsSection.t;
  isLoading : bool;
  errorMessage : option string;
  searchText : string;
  selectedLeague : LeagueFilter;
  selectedDivisionID : option Z;
  sortOption : SortOption;
  showFavoritesOnly : bool;
  favorites : gset Z;
  season : Z;
  loadTasks : list bool
}.

Definition with_sections v st :=
  mk v (filteredSections st) (isLoading st) (errorMessage st) (searchText st)
     (selectedLeague st) (selectedDivisionID st) (sortOption st)
     (showFavoritesOnly st) (favorites st) (season st) (loadTasks st).
Definition with_filteredSections v st :=
  mk (sections st) v (isLoading st) (errorMessage st) (searchText st)
     (selectedLeague st) (selectedDivisionID st) (sortOption st)
     (showFavoritesOnly st) (favorites st) (season st) (loadTasks st).
Definition with_isLoading v st :=
  mk (sections st) (filteredSections st) v (errorMessage st) (searchText st)
     (selectedLeague st) (selectedDivisionID st) (sortOption st)
     (showFavoritesOnly st) (favorites st) (season st) (loadTasks st).
Definition with_errorMessage v st :=
  mk (sections st) (filteredSections st) (isLoading st) v (searchText st)
     (selectedLeague st) (selectedDivisionID st) (sortOption st)
     (showFavoritesOnly st) (favorites st) (season st) (loadTasks st).
Definition with_searchText v st :=
  mk (sections st) (filteredSections st) (isLoading st) (errorMessage st) v
     (selectedLeague st) (selectedDivisionID st) (sortOption st)
     (showFavoritesOnly st) (favorites st) (season st) (loadTasks st).
Definition with_selectedLeague v st :=
  mk (sections st) (filteredSections st) (isLoading st) (errorMessage st)
     (searchText st) v (selectedDivisionID st) (sortOption st)
     (showFavoritesOnly st) (favorites st) (season st) (loadTasks st).
Definition with_selectedDivisionID v st :=
  mk (sections st) (filteredSections st) (isLoading st) (errorMessage st)
     (searchText st) (selectedLeague st) v (sortOption st)
     (showFavoritesOnly st) (favorites st) (season st) (loadTasks st).
Definition with_sortOption v st :=
  mk (sections st) (filteredSections st) (isLoading st) (errorMessage st)
     (searchText st) (selectedLeague st) (selectedDivisionID st) v
     (showFavoritesOnly st) (favorites st) (season st) (loadTasks st).
Definition with_showFavoritesOnly v st :=
  mk (sections st) (filteredSections st) (isLoading st) (errorMessage st)
     (searchText st) (selectedLeague st) (selectedDivisionID st)
     (sortOption st) v (favorites st) (season st) (loadTasks st).
Definition with_favorites v st :=
  mk (sections st) (filteredSections st) (isLoading st) (errorMessage st)
     (searchText st) (selectedLeague st) (selectedDivisionID st)
     (sortOption st) (showFavoritesOnly st) v (season st) (loadTasks st).
Definition with_season v st :=
  mk (sections st) (filteredSections st) (isLoading st) (errorMessage st)
     (searchText st) (selectedLeague st) (selectedDivisionID st)
     (sortOption st) (showFavoritesOnly st) (favorites st) v (loadTasks st).
Definition with_loadTasks v st :=
  mk (sections st) (filteredSections st) (isLoading st) (errorMessage st)
     (searchText st) (selectedLeague st) (selectedDivisionID st)
     (sortOption st) (showFavoritesOnly st) (favorites st) (season st) v.

(** [favorites.contains(_:)]. *)
Definition isFavorite (favs : gset Z) (team : TeamStanding.t) : bool :=
  bool_decide (TeamStanding.id team ∈ favs).

(** [lhs.divisionRank ?? 0]. *)
Definition rankOrZero (t : TeamStanding.t) : Z :=
  default 0 (TeamStanding.divisionRank t).

(** The comparator [sort(teams:)] selects for a sort option. *)
Definition comparator (opt : SortOption) (lhs rhs : TeamStanding.t) : bool :=
  match opt with
  | divisionRank => rankOrZero lhs <? rankOrZero rhs
  | winningPercentage =>
      if Double.eqb (TeamStanding.winningPercentage lhs)
                    (TeamStanding.winningPercentage rhs)
      then rankOrZero lhs <? rankOrZero rhs
      else Double.ltb (TeamStanding.winningPercentage rhs)
                      (TeamStanding.winningPercentage lhs)
  | runDifferential =>
      if default Num.Int_min (TeamStanding.runDifferential lhs)
         =? default Num.Int_min (TeamStanding.runDifferential rhs)
      then rankOrZero lhs <? rankOrZero rhs
      else default Num.Int_min (TeamStanding.runDifferential rhs)
           <? default Num.Int_min (TeamStanding.runDifferential lhs)
  | streak =>
      if TeamStanding.streakCount lhs =? TeamStanding.streakCount rhs
      then rankOrZero lhs <? rankOrZero rhs
      else TeamStanding.streakCount rhs <? TeamStanding.streakCount lhs
  | lastTen =>
      if Double.eqb (TeamStanding.lastTenWinRate lhs)
                    (TeamStanding.lastTenWinRate rhs)
      then rankOrZero lhs <? rankOrZero rhs
      else Double.ltb (TeamStanding.lastTenWinRate rhs)
                      (TeamStanding.lastTenWinRate lhs)
  | runsScored =>
      if default Num.Int_min (TeamStanding.runsScored lhs)
         =? default Num.Int_min (TeamStanding.runsScored rhs)
      then rankOrZero lhs <? rankOrZero rhs
      else default Num.Int_min (TeamStanding.runsScored rhs)
           <? default Num.Int_min (TeamStanding.runsScored lhs)
  end.

(** The closure passed to [teams.sorted(by:)]: favorites first, the
    comparator within each group. *)
Definition prioritized (favs : gset Z) (cmp : TeamStanding.t -> TeamStanding.t -> bool)
    (lhs rhs : TeamStanding.t) : bool :=
  let lhsFavorite := isFavorite favs lhs in
  let rhsFavorite := isFavorite favs rhs in
  if Bool.eqb lhsFavorite rhsFavorite then cmp lhs rhs
  else lhsFavorite && negb rhsFavorite.

(** [sort(teams:)]. *)
Definition sort (st : State) (teams : list TeamStanding.t) : list TeamStanding.t :=
  sorted_by (prioritized (favorites st) (comparator (sortOption st))) teams.

Definition leagueSections (league : LeagueFilter)
    (secs : list StandingsSection.t) : list StandingsSection.t :=
  match league with
  | all => secs
  | american =>
      List.filter (fun s => String.eqb (StandingsSection.leagueAbbreviation s) "AL") secs
  | national =>
      List.filter (fun s => String.eqb (StandingsSection.leagueAbbreviation s) "NL") secs
  end.

(** [availableDivisionIDs(for:)]. *)
Definition availableDivisionIDs (st : State) (league : LeagueFilter) : gset Z :=
  list_to_set (List.map StandingsSection.divisionID
                 (leagueSections league (sections st))).

(** The favorites-only and search filters of [applyFilters], on the teams of
    one section. *)
Definition filterTeams (st : State) (teams : list TeamStanding.t)
  : list TeamStanding.t :=
  let teams :=
    if showFavoritesOnly st
    then List.filter (isFavorite (favorites st)) teams else teams in
  if negb (Str.isEmpty (searchText st))
  then let query := Str.lowercased (searchText st) in
       List.filter (fun team => Str.contains (TeamStanding.searchableText team) query)
                   teams
  else teams.

(** The closure of [compactMap] in [applyFilters]. *)
Definition filterSection (st : State) (section : StandingsSection.t)
  : option StandingsSection.t :=
  let teams := sort st (filterTeams st (StandingsSection.teams section)) in
  match teams with
  | [] => None
  | _ => Some (StandingsSection.with_teams section teams)
  end.

Definition divisionSections (sel : option Z) (secs : list StandingsSection.t)
  : list StandingsSection.t :=
  match sel with
  | Some d => List.filter (fun s => StandingsSection.divisionID s =? d) secs
  | None => secs
  end.

(** [applyFilters()]. *)
Definition applyFilters (st : State) : State :=
  let workingSections := sections st in
  let workingSections := leagueSections (selectedLeague st) workingSections in
  let workingSections := divisionSections (selectedDivisionID st) workingSections in
  let workingSections := omap (filterSection st) workingSections in
  with_filteredSections workingSections st.

(** Setters: the assignment, then the property's [didSet]. *)
Definition set_searchText (v : string) (st : State) : State :=
  applyFilters (with_searchText v st).

Definition set_selectedDivisionID (v : option Z) (st : State) : State :=
  applyFilters (with_selectedDivisionID v st).

Definition set_selectedLeague (v : LeagueFilter) (st : State) : State :=
  let st := with_selectedLeague v st in
  let st :=
    match selectedDivisionID st with
    | Some d =>
        if negb (bool_decide (d ∈ availableDivisionIDs st (selectedLeague st)))
        then set_selectedDivisionID None st
        else st
    | None => st
    end in
  applyFilters st.

Definition set_sortOption (v : SortOption) (st : State) : State :=
  applyFilters (with_sortOption v st).

Definition set_showFavoritesOnly (v : bool) (st : State) : State :=
  applyFilters (with_showFavoritesOnly v st).

Definition set_favorites (v : gset Z) (st : State) : State :=
  applyFilters (with_favorites v st).

Definition set_season (v : Z) (st : State) : State :=
  let st := with_season v st in
  with_loadTasks (loadTasks st ++ [true])%list st.

Definition userFriendlyDescription (e : StandingsService.Error) : string :=
  match e with
  | StandingsService.Service e => StandingsService.errorDescription e
  | StandingsService.Session d => d
  end.

(** [loadStandings(force:)], run to completion against a session.  [None]
    is the overflow trap of [StandingsSection.init]. *)
Definition loadStandings (currentSeason : Z)
    (session : StandingsService.URLSession) (force : bool) (st : State)
  : option State :=
  if isLoading st then Some st
  else if negb force && negb (bool_decide (sections st = [])) then Some st
  else
    let st := with_errorMessage None (with_isLoading true st) in
    match StandingsService.fetchStandings session (season st)
            StandingsService.defaultLeagueIds with
    | inr response =>
        mappedSections ←
          mapM (StandingsSection.init currentSeason)
               (StandingsResponse.records response);
        let st := with_sections mappedSections st in
        let st := applyFilters st in
        Some (with_isLoading false st)
    | inl error =>
        let st := with_sections StandingsSection.sample st in
        let st := applyFilters st in
        let st := with_errorMessage (Some (userFriendlyDescription error)) st in
        Some (with_isLoading false st)
    end.

(** [refresh()]. *)
Definition refresh (currentSeason : Z) (session : StandingsService.URLSession)
    (st : State) : option State :=
  loadStandings currentSeason session true st.

(** [toggleFavorite(for:)]. *)
Definition toggleFavorite (team : TeamStanding.t) (st : State) : State :=
  if bool_decide (TeamStanding.id team ∈ favorites st)
  then set_favorites (favorites st ∖ {[TeamStanding.id team]}) st
  else set_favorites (favorites st ∪ {[TeamStanding.id team]}) st.

(** [clearFilters()]. *)
Definition clearFilters (st : State) : State :=
  let st := set_searchText "" st in
  let st := set_selectedLeague all st in
  let st := set_selectedDivisionID None st in
  let st := set_sortOption divisionRank st in
  set_showFavoritesOnly false st.

(** [aggregatedTeams]. *)
Definition aggregatedTeams (st : State) : list TeamStanding.t :=
  List.flat_map StandingsSection.teams (sections st).


(** [hottestStreakTeam]. *)
Definition hottestStreakTeam (st : State) : option TeamStanding.t :=
  max_by (fun a b => TeamStanding.streakCount a <? TeamStanding.streakCount b)
         (aggregatedTeams st).

(** [bestRunDifferentialTeam]. *)
Definition bestRunDifferentialTeam (st : State) : option TeamStanding.t :=
  max_by (fun a b => default Num.Int_min (TeamStanding.runDifferential a)
                     <? default Num.Int_min (TeamStanding.runDifferential b))
         (aggregatedTeams st).

(** The state of a freshly initialized view model: the defaults of the
    stored properties, and the load task [init] spawns. *)
Definition initial (currentSeason : Z) : State :=
  mk [] [] false None "" all None divisionRank false ∅ currentSeason [false].

(** [struct DivisionDescriptor]. *)
Record DivisionDescriptor := mkDivisionDescriptor {
  descriptorID : Z;
  descriptorName : string;
  descriptorLeagueAbbreviation : string
}.

(** The dictionary [unique] that [availableDivisionFilters] builds: a later
    section replaces the descriptor of an earlier one with the same division
    identifier. *)
Definition uniqueDivisions (secs : list StandingsSection.t)
  : gmap Z DivisionDescriptor :=
  foldl (fun unique section =>
           <[StandingsSection.divisionID section :=
               mkDivisionDescriptor (StandingsSection.divisionID section)
                 (StandingsSection.title section)
                 (StandingsSection.leagueAbbreviation section)]> unique)
        ∅ secs.

(** [availableDivisionFilters].  The order in which a Swift dictionary yields
    its values is unspecified; the model takes the order of the finite map. *)
Definition availableDivisionFilters (st : State) : list DivisionDescriptor :=
  let leagueFilteredSections := leagueSections (selectedLeague st) (sections st) in
  sorted_by (fun a b => String.ltb (descriptorName a) (descriptorName b))
    (List.map snd (map_to_list (uniqueDivisions leagueFilteredSections))).

(** [LeagueFilter.title]. *)
Definition leagueTitle (f : LeagueFilter) : string :=
  match f with
  | all => "All"
  | american => "AL"
  | national => "NL"
  end.

End StandingsViewModel.

(* ===================================================================== *)
(** ** Colors (Color+Extensions.swift) and view helpers *)
(* ===================================================================== *)

Module Color.

(** An sRGB color, as [Color(.sRGB, red:green:blue:opacity:)] receives it. *)
Record t := mk {
  red : Q;
  green : Q;
  blue : Q;
  opacity : Q
}.

Definition UInt64_max : Z := 2 ^ 64 - 1.

(** Membership in [CharacterSet.alphanumerics], on ASCII characters. *)
Definition is_alnum (c : ascii) : bool :=
  let n := Str.code c in
  ((48 <=? n) && (n <=? 57)) || ((65 <=? n) && (n <=? 90))
  || ((97 <=? n) && (n <=? 122)).

Fixpoint drop_while (p : ascii -> bool) (s : string) : string :=
  match s with
  | EmptyString => EmptyString
  | String c r => if p c then drop_while p r else s
  end.

(** [hex.trimmingCharacters(in: CharacterSet.alphanumerics.inverted)]. *)
Definition sanitize (hex : string) : string :=
  let notAlnum c := negb (is_alnum c) in
  Str.reversed (drop_while notAlnum (Str.reversed (drop_while notAlnum hex))).

Definition hex_value (c : ascii) : option Z :=
  let n := Str.code c in
  if (48 <=? n) && (n <=? 57) then Some (n - 48)
  else if (65 <=? n) && (n <=? 70) then Some (n - 55)
  else if (97 <=? n) && (n <=? 102) then Some (n - 87)
  else None.

(** The digit loop of the scanner: digits are accumulated while they are
    hexadecimal; on overflow the value stays at the maximum. *)
Fixpoint scan_digits (acc : Z) (s : string) : Z :=
  match s with
  | EmptyString => acc
  | String c r =>
      match hex_value c with
      | Some d => scan_digits (Z.min (acc * 16 + d) UInt64_max) r
      | None => acc
      end
  end.

Definition starts_with_hex (s : string) : bool :=
  match s with
  | String c _ => bool_decide (is_Some (hex_value c))
  | EmptyString => false
  end.

(** [Scanner(string:).scanHexInt64(&int)] with [int] initially 0: the value
    of the hexadecimal digits at the start of the string, after an optional
    "0x" or "0X"; 0 when there is none. *)
Definition scanHexInt64 (s : string) : Z :=
  match s with
  | EmptyString => 0
  | String c r =>
      if Ascii.eqb c "0"%char
      then (if starts_with_hex r then scan_digits 0 r
            else match r with
                 | String x r' =>
                     if (Ascii.eqb x "x"%char || Ascii.eqb x "X"%char)
                        && starts_with_hex r'
                     then scan_digits 0 r'
                     else 0
                 | EmptyString => 0
                 end)
      else if starts_with_hex s then scan_digits 0 s else 0
  end.

(** The three components [init(hex:alpha:)] computes, each over 255. *)
Definition components (hex : string) : Z * Z * Z :=
  let sanitized := sanitize hex in
  let int := scanHexInt64 sanitized in
  match String.length sanitized with
  | 3%nat =>
      (Z.shiftr int 8 * 17, Z.land (Z.shiftr int 4) 15 * 17, Z.land int 15 * 17)
  | 6%nat =>
      (Z.shiftr int 16, Z.land (Z.shiftr int 8) 255, Z.land int 255)
  | _ => (26, 66, 142)
  end.

(** [init(hex:alpha:)]. *)
Definition init (hex : string) (alpha : Q) : t :=
  let '(r, g, b) := components hex in
  mk (inject_Z r / 255)%Q (inject_Z g / 255)%Q (inject_Z b / 255)%Q alpha.

(** [TeamBranding.primary], [secondary] and [accent]. *)
Definition primary (b : TeamBranding.t) : t := init (TeamBranding.primaryHex b) 1%Q.
Definition secondary (b : TeamBranding.t) : t := init (TeamBranding.secondaryHex b) 1%Q.
Definition accent (b : TeamBranding.t) : t := init (TeamBranding.accentHex b) 1%Q.

End Color.

Module Views.
Import StandingsViewModel.

(** [StandingsDashboardView.filtersActive]. *)
Definition filtersActive (viewModel : State) : bool :=
  negb (Str.isEmpty (searchText viewModel))
  || match selectedLeague viewModel with all => false | _ => true end
  || match selectedDivisionID viewModel with None => false | Some _ => true end
  || showFavoritesOnly viewModel
  || match sortOption viewModel with divisionRank => false | _ => true end.

(** [TeamDetailView.formattedRank(_:)]; [%] is the truncating remainder. *)
Definition formattedRank (rank : option Z) : string :=
  match rank with
  | None => Str.emDash
  | Some rank =>
      let m := Z.rem rank 10 in
      if (m =? 1) && negb (rank =? 11) then pretty rank ++ "st"
      else if (m =? 2) && negb (rank =? 12) then pretty rank ++ "nd"
      else if (m =? 3) && negb (rank =? 13) then pretty rank ++ "rd"
      else pretty rank ++ "th"
  end.

End Views.

(* ===================================================================== *)
(** ** Vocabulary of the statements *)
(* ===================================================================== *)

(** A list is in order for [lt] when no element is strictly before an
    earlier one. *)
Fixpoint in_order {A} (lt : A -> A -> bool) (l : list A) : Prop :=
  match l with
  | [] => True
  | y :: r => Forall (fun z => lt z y = false) r /\ in_order lt r
  end.

(** Favorites first, over any key: the shape of [prioritized]. *)
Definition pinned {A} (fav : A -> bool) (lt : A -> A -> bool) (a b : A) : bool :=
  if Bool.eqb (fav a) (fav b) then lt a b else fav a && negb (fav b).


Module Spec.
Import StandingsViewModel.

(** Equality of two teams on the primary metric of a sort option, as the
    comparator of that option tests it. *)
Definition primaryEqual (opt : SortOption) (a b : TeamStanding.t) : bool :=
  match opt with
  | divisionRank => rankOrZero a =? rankOrZero b
  | winningPercentage =>
      Double.eqb (TeamStanding.winningPercentage a)
                 (TeamStanding.winningPercentage b)
  | runDifferential =>
      default Num.Int_min (TeamStanding.runDifferential a)
      =? default Num.Int_min (TeamStanding.runDifferential b)
  | streak => TeamStanding.streakCount a =? TeamStanding.streakCount b
  | lastTen =>
      Double.eqb (TeamStanding.lastTenWinRate a) (TeamStanding.lastTenWinRate b)
  | runsScored =>
      default Num.Int_min (TeamStanding.runsScored a)
      =? default Num.Int_min (TeamStanding.runsScored b)
  end.


(** The primary metric of a team under a sort option is a number: the
    winning percentage and the last-ten win rate are doubles and must not be
    NaN; the other metrics are integers. *)
Definition comparable (opt : SortOption) (t : TeamStanding.t) : bool :=
  match opt with
  | winningPercentage => negb (Double.isNaN (TeamStanding.winningPercentage t))
  | lastTen => negb (Double.isNaN (TeamStanding.lastTenWinRate t))
  | _ => true
  end.

(** A text of ASCII characters only. *)
Fixpoint isASCII (s : string) : bool :=
  match s with
  | EmptyString => true
  | String c r => (Str.code c <? 128) && isASCII r
  end.

(** The keys of a team record that hold text. *)
Definition textKeys : list string :=
  [ "divisionRank"; "leagueRank"; "wildCardRank"; "winningPercentage";
    "gamesBack"; "lastTen" ].

(** A JSON team record carries its required fields, each of its type. *)
Definition requiredTeamFields (j : json) : Prop :=
  exists o ot,
    j = JObject o
    /\ Decoder.lookup "team" o = Some (JObject ot)
    /\ is_Some (Decoder.decode Decoder.decodeInt "id" ot)
    /\ is_Some (Decoder.decode Decoder.decodeString "name" ot)
    /\ is_Some (Decoder.decode Decoder.decodeInt "wins" o)
    /\ is_Some (Decoder.decode Decoder.decodeInt "losses" o)
    /\ is_Some (Decoder.decode Decoder.decodeString "winningPercentage" o).

(** A JSON division block carries a list of team records, each with its
    required fields. *)
Definition requiredDivisionFields (j : json) : Prop :=
  exists o ts,
    j = JObject o
    /\ Decoder.lookup "teamRecords" o = Some (JArray ts)
    /\ Forall requiredTeamFields ts.

(** Each field of a JSON team descriptor decodes: the identifier and the
    name are present with their types, the optional fields are absent, null
    or of their type. *)
Definition teamInfoFieldsDecode (o : Decoder.object) : Prop :=
  is_Some (Decoder.decode Decoder.decodeInt "id" o)
  /\ is_Some (Decoder.decode Decoder.decodeString "name" o)
  /\ is_Some (Decoder.decodeIfPresent Decoder.decodeString "teamName" o)
  /\ is_Some (Decoder.decodeIfPresent Decoder.decodeString "shortName" o)
  /\ is_Some (Decoder.decodeIfPresent Decoder.decodeString "clubName" o)
  /\ is_Some (Decoder.decodeIfPresent Decoder.decodeString "locationName" o)
  /\ is_Some (Decoder.decodeIfPresent Decoder.decodeString "abbreviation" o)
  /\ is_Some (Decoder.decodeIfPresent Decoder.decodeString "fileCode" o).

(** Each field of a JSON team record decodes. *)
Definition teamFieldsDecode (o : Decoder.object) : Prop :=
  is_Some (Decoder.decode Decoder.teamInfo "team" o)
  /\ is_Some (Decoder.decodeIfPresent Decoder.streak "streak" o)
  /\ is_Some (Decoder.decodeIfPresent Decoder.decodeString "divisionRank" o)
  /\ is_Some (Decoder.decodeIfPresent Decoder.decodeString "leagueRank" o)
  /\ is_Some (Decoder.decodeIfPresent Decoder.decodeString "wildCardRank" o)
  /\ is_Some (Decoder.decodeIfPresent Decoder.decodeBool "clinched" o)
  /\ is_Some (Decoder.decode Decoder.decodeInt "wins" o)
  /\ is_Some (Decoder.decode Decoder.decodeInt "losses" o)
  /\ is_Some (Decoder.decode Decoder.decodeString "winningPercentage" o)
  /\ is_Some (Decoder.decodeIfPresent Decoder.decodeString "gamesBack" o)
  /\ is_Some (Decoder.decodeIfPresent Decoder.decodeInt "runsScored" o)
  /\ is_Some (Decoder.decodeIfPresent Decoder.decodeInt "runsAllowed" o)
  /\ is_Some (Decoder.decodeIfPresent Decoder.decodeInt "runDifferential" o)
  /\ is_Some (Decoder.decodeIfPresent Decoder.decodeString "lastTen" o)
  /\ is_Some (Decoder.decodeIfPresent Decoder.split "home" o)
  /\ is_Some (Decoder.decodeIfPresent Decoder.split "away" o)
  /\ is_Some (Decoder.decodeIfPresent Decoder.split "extraInnings" o)
  /\ is_Some (Decoder.decodeIfPresent Decoder.split "oneRun" o).

(** Each field of a JSON division block decodes: its team records are a
    list of team records that decode, and its optional fields decode. *)
Definition divisionFieldsDecode (o : Decoder.object) : Prop :=
  (exists ts,
     Decoder.lookup "teamRecords" o = Some (JArray ts)
     /\ Forall (fun tj => is_Some (Decoder.teamRecord tj)) ts)
  /\ is_Some (Decoder.decodeIfPresent Decoder.divisionInfo "division" o)
  /\ is_Some (Decoder.decodeIfPresent Decoder.leagueInfo "league" o)
  /\ is_Some (Decoder.decodeIfPresent Decoder.decodeString "season" o).

(** A JSON team record lacks a required field: it is no object, or its
    team, wins, losses or winning percentage is absent or does not decode. *)
Definition lacksRequiredField (j : json) : Prop :=
  match j with
  | JObject o =>
      Decoder.decode Decoder.teamInfo "team" o = None
      \/ Decoder.decode Decoder.decodeInt "wins" o = None
      \/ Decoder.decode Decoder.decodeInt "losses" o = None
      \/ Decoder.decode Decoder.decodeString "winningPercentage" o = None
  | _ => True
  end.

(** The keys the decoder reads in a team record, in a division block and
    in the response. *)
Definition teamRecordKeys : list string :=
  [ "team"; "streak"; "divisionRank"; "leagueRank"; "wildCardRank"; "clinched";
    "wins"; "losses"; "winningPercentage"; "gamesBack"; "runsScored";
    "runsAllowed"; "runDifferential"; "lastTen"; "home"; "away";
    "extraInnings"; "oneRun" ].

Definition divisionRecordKeys : list string :=
  [ "teamRecords"; "division"; "league"; "season" ].

(** The three bytes a color text of the form "#RRGGBB" denotes. *)
Definition rgbOfHex6 (hex : string) : option (Z * Z * Z) :=
  match hex with
  | String "#"%char
      (String c1 (String c2 (String c3 (String c4 (String c5 (String c6
         EmptyString)))))) =>
      d1 ← Color.hex_value c1; d2 ← Color.hex_value c2;
      d3 ← Color.hex_value c3; d4 ← Color.hex_value c4;
      d5 ← Color.hex_value c5; d6 ← Color.hex_value c6;
      Some (16 * d1 + d2, 16 * d3 + d4, 16 * d5 + d6)
  | _ => None
  end.

(** All the characters of a string are in a set of characters. *)
Fixpoint all_in (set s : string) : bool :=
  match s with
  | EmptyString => true
  | String c r => Str.mem_char c set && all_in set r
  end.

(** The English ordinal suffix of a natural number. *)
Definition englishOrdinalSuffix (n : Z) : string :=
  if (11 <=? n mod 100) && (n mod 100 <=? 13) then "th"
  else if n mod 10 =? 1 then "st"
  else if n mod 10 =? 2 then "nd"
  else if n mod 10 =? 3 then "rd"
  else "th".

(** The commands a caller can issue that do not fetch. *)
Inductive Command :=
| SetSearchText (v : string)
| SetSelectedLeague (v : LeagueFilter)
| SetSelectedDivisionID (v : option Z)
| SetSortOption (v : SortOption)
| SetShowFavoritesOnly (v : bool)
| SetFavorites (v : gset Z)
| ToggleFavorite (team : TeamStanding.t)
| ClearFilters.

Definition run (c : Command) (st : State) : State :=
  match c with
  | SetSearchText v => set_searchText v st
  | SetSelectedLeague v => set_selectedLeague v st
  | SetSelectedDivisionID v => set_selectedDivisionID v st
  | SetSortOption v => set_sortOption v st
  | SetShowFavoritesOnly v => set_showFavoritesOnly v st
  | SetFavorites v => set_favorites v st
  | ToggleFavorite team => toggleFavorite team st
  | ClearFilters => clearFilters st
  end.

End Spec.

(* ===================================================================== *)
(** ** Concrete inputs *)
(* ===================================================================== *)

Module Examples.
Import StandingsViewModel.

(** A view model holding the sample sections, everything else at its
    defaults. *)
Definition sampleState : State :=
  applyFilters (with_sections StandingsSection.sample (initial 2024)).


(** The sample state with the American League East selected. *)
Definition alEastSelected : State := set_selectedDivisionID (Some 201) sampleState.

(** A session whose every request fails in the transport. *)
Definition offline : StandingsService.URLSession :=
  fun _ => StandingsService.Throws "The Internet connection appears to be offline.".

(** A JSON team record with the given winning-percentage text and, when
    given, a games-back text. *)
Definition teamJson (pct : string) (gamesBack : option string) : json :=
  JObject
    ([ ("team", JObject [("id", JNumber 147%Q); ("name", JString "New York Yankees");
                         ("abbreviation", JString "NYY")]);
       ("divisionRank", JString "1");
       ("wins", JNumber 62%Q);
       ("losses", JNumber 30%Q);
       ("winningPercentage", JString pct) ]
     ++ match gamesBack with
        | Some g => [("gamesBack", JString g)]
        | None => []
        end)%list.

(** A JSON team record without its [wins]. *)
Definition teamJsonWithoutWins : json :=
  JObject
    [ ("team", JObject [("id", JNumber 110%Q); ("name", JString "Baltimore Orioles")]);
      ("losses", JNumber 35%Q);
      ("winningPercentage", JString ".624") ].

(** A response body with one division block holding the given teams. *)
Definition bodyJson (teams : list json) : json :=
  JObject
    [ ("records",
       JArray
         [ JObject
             [ ("teamRecords", JArray teams);
               ("division", JObject [("id", JNumber 201%Q);
                                     ("name", JString "American League East")]);
               ("league", JObject [("id", JNumber 103%Q);
                                   ("name", JString "American League")]);
               ("season", JString "2025") ] ]) ].

(** A session that answers every request with status 200 and the body. *)
Definition serving (body : json) : StandingsService.URLSession :=
  fun _ => StandingsService.Response (Some 200) (Some body).

(** The raw team record [teamJson pct gamesBack] decodes to. *)
Definition teamRecordOf (pct : string) (gamesBack : option string) : TeamRecord.t :=
  TeamRecord.mk
    (TeamInfo.mk 147 "New York Yankees" None None None None (Some "NYY") None)
    None (Some "1") None None None 62 30 pct gamesBack None None None None
    None None None None.

(** A view model after a first load of the season 2025 that succeeded: it
    holds the one section it fetched. *)
Definition loadedState : State :=
  default (initial 2025)
    (loadStandings 2025 (serving (bodyJson [teamJson ".674" None])) false
       (initial 2025)).







End Examples.

(* ===================================================================== *)
(** ** Stable sorting *)
(* ===================================================================== *)


Lemma Forall_insert_by {A} (lt : A -> A -> bool) (P : A -> Prop) (x : A)
    (l : list A) :
  P x -> Forall P l -> Forall P (insert_by lt x l).
Proof.
  intros Hx. induction l as [|y r IH]; intros Hl; simpl.
  - constructor; [exact Hx | constructor].
  - inversion Hl; subst. destruct (lt y x).
    + constructor; [assumption | apply IH; assumption].
    + constructor; [exact Hx | assumption].
Qed.

Lemma Forall_sorted_by {A} (lt : A -> A -> bool) (P : A -> Prop) (l : list A) :
  Forall P l -> Forall P (sorted_by lt l).
Proof.
  induction 1 as [|x r Hx Hr IH]; simpl; [constructor|].
  apply Forall_insert_by; assumption.
Qed.




(** Inserting under the pinned order into a partitioned list inserts into
    the group of the element, whatever the order inside the groups. *)
Lemma insert_by_pinned {A} (lt : A -> A -> bool) (fav : A -> bool) (x : A)
    (F N : list A) :
  Forall (fun z => fav z = true) F ->
  Forall (fun z => fav z = false) N ->
  insert_by (pinned fav lt) x (F ++ N) =
  if fav x then (insert_by lt x F ++ N)%list
  else (F ++ insert_by lt x N)%list.
Proof.
  intros HF HN. induction HF as [|f F' Hf HF' IH]; simpl.
  - destruct (fav x) eqn:Hx.
    + destruct N as [|n N']; [reflexivity|].
      inversion HN; subst. simpl. unfold pinned at 1.
      rewrite Hx. replace (fav n) with false by (symmetry; assumption).
      reflexivity.
    + clear -HN Hx. induction HN as [|n N' Hn HN' IH]; [reflexivity|].
      simpl. unfold pinned at 1. rewrite Hx, Hn. simpl.
      destruct (lt n x); [rewrite IH|]; reflexivity.
  - unfold pinned at 1. rewrite Hf. destruct (fav x) eqn:Hx; simpl.
    + destruct (lt f x); [rewrite IH|]; reflexivity.
    + rewrite IH. reflexivity.
Qed.

(** Sorting under the pinned order puts the favorites first, whatever the
    order inside the groups is. *)
Lemma sorted_by_pinned_split {A} (lt : A -> A -> bool) (fav : A -> bool)
    (l : list A) :
  exists F N,
    sorted_by (pinned fav lt) l = (F ++ N)%list
    /\ Forall (fun z => fav z = true) F
    /\ Forall (fun z => fav z = false) N.
Proof.
  induction l as [|x r (F & N & E & HF & HN)]; simpl.
  - exists [], []. repeat split; constructor.
  - rewrite E, insert_by_pinned by assumption.
    destruct (fav x) eqn:Hx.
    + exists (insert_by lt x F), N. split; [reflexivity|].
      split; [apply Forall_insert_by|]; assumption.
    + exists F, (insert_by lt x N). split; [reflexivity|].
      split; [|apply Forall_insert_by]; assumption.
Qed.

(** The rest of the theory needs the order to be a strict weak order on the
    elements sorted, which are those that satisfy [P]. *)
Section StableSort.
Context {A : Type} (lt : A -> A -> bool) (P : A -> Prop).
Hypothesis lt_asym : forall a b, P a -> P b -> lt a b = true -> lt b a = false.
Hypothesis lt_negtrans :
  forall a b c, P a -> P b -> P c ->
    lt a b = false -> lt b c = false -> lt a c = false.

Lemma lt_irrefl (a : A) : P a -> lt a a = false.
Proof.
  intros Ha. destruct (lt a a) eqn:E; [|reflexivity].
  pose proof (lt_asym a a Ha Ha E). congruence.
Qed.

Lemma Forall_lt_trans (x y : A) (r : list A) :
  P x -> P y -> Forall P r -> lt y x = false ->
  Forall (fun z => lt z y = false) r -> Forall (fun z => lt z x = false) r.
Proof.
  intros Hx Hy Hr Hyx H. induction H as [|z r' Hz _ IH]; [constructor|].
  inversion Hr; subst.
  constructor; [apply (lt_negtrans z y x); assumption | apply IH; assumption].
Qed.

Lemma in_order_insert_by (x : A) (l : list A) :
  P x -> Forall P l -> in_order lt l -> in_order lt (insert_by lt x l).
Proof.
  intros Hx. induction l as [|y r IH]; simpl.
  - intros _ _. split; [constructor | exact I].
  - intros HP [Hy Hr]. inversion HP as [|? ? Py Pr]; subst.
    destruct (lt y x) eqn:Hyx; simpl.
    + split; [|apply IH; assumption].
      apply Forall_insert_by; [apply lt_asym; assumption | exact Hy].
    + split; [|split; assumption].
      constructor; [exact Hyx|]. apply (Forall_lt_trans x y); assumption.
Qed.

Lemma in_order_sorted_by (l : list A) :
  Forall P l -> in_order lt (sorted_by lt l).
Proof.
  induction 1 as [|x r Hx Hr IH]; simpl; [exact I|].
  apply in_order_insert_by; [assumption | apply Forall_sorted_by; assumption|].
  exact IH.
Qed.




Lemma pinned_asym (fav : A -> bool) (a b : A) :
  P a -> P b -> pinned fav lt a b = true -> pinned fav lt b a = false.
Proof.
  intros Ha Hb. unfold pinned.
  destruct (fav a), (fav b); simpl; auto; discriminate.
Qed.

Lemma pinned_negtrans (fav : A -> bool) (a b c : A) :
  P a -> P b -> P c ->
  pinned fav lt a b = false -> pinned fav lt b c = false ->
  pinned fav lt a c = false.
Proof.
  intros Ha Hb Hc. unfold pinned.
  destruct (fav a), (fav b), (fav c); simpl; eauto; discriminate.
Qed.

End StableSort.

(* ===================================================================== *)
(** ** Comparisons of doubles *)
(* ===================================================================== *)

Lemma Qltb_spec (a b : Q) : reflect (a < b)%Q (Num.Qltb a b).
Proof.
  unfold Num.Qltb. destruct (Qle_bool b a) eqn:E; simpl; constructor.
  - apply Qle_bool_iff in E. lra.
  - assert (Hn : ~ (b <= a)%Q) by (rewrite <- Qle_bool_iff, E; discriminate).
    destruct (Qlt_le_dec a b); [assumption | contradiction].
Qed.

Lemma Qeqb_spec (a b : Q) : reflect (a == b)%Q (Qeq_bool a b).
Proof.
  destruct (Qeq_bool a b) eqn:E; constructor.
  - now apply Qeq_bool_iff.
  - now apply Qeq_bool_neq.
Qed.

Lemma Qleb_spec (a b : Q) : reflect (a <= b)%Q (Qle_bool a b).
Proof.
  destruct (Qle_bool a b) eqn:E; constructor.
  - now apply Qle_bool_iff.
  - rewrite <- Qle_bool_iff, E. discriminate.
Qed.

Ltac reflect_comparisons :=
  repeat match goal with
  | |- context [Qeq_bool ?a ?b] => destruct (Qeqb_spec a b)
  | |- context [Num.Qltb ?a ?b] => destruct (Qltb_spec a b)
  | |- context [Qle_bool ?a ?b] => destruct (Qleb_spec a b)
  | |- context [Z.eqb ?a ?b] => destruct (Z.eqb_spec a b)
  | |- context [Z.ltb ?a ?b] => destruct (Z.ltb_spec a b)
  end.

Ltac order_crush :=
  reflect_comparisons; intros;
  try discriminate; try reflexivity; exfalso; first [lia | lra].

(** Case analysis on the doubles of a goal, then on the comparisons of the
    rationals and integers that remain. *)
Ltac double_crush :=
  repeat match goal with
  | x : Double.t |- _ => destruct x as [?| |[]|]
  end;
  simpl; try discriminate; try reflexivity; order_crush.

Lemma Double_eqb_sym (x y : Double.t) : Double.eqb x y = Double.eqb y x.
Proof.
  destruct x as [?| |[]|], y as [?| |[]|]; simpl; try reflexivity;
    reflect_comparisons; try reflexivity; exfalso; lra.
Qed.



Lemma Double_leb_ltb (x y : Double.t) :
  Double.leb y x = true -> Double.ltb x y = false.
Proof. double_crush. Qed.

(** The comparison the two double-keyed comparators make: the primary
    metric descending, then the rank ascending. *)
Lemma double_key_asym (x y : Double.t) (rx ry : Z) :
  (if Double.eqb x y then rx <? ry else Double.ltb y x) = true ->
  (if Double.eqb y x then ry <? rx else Double.ltb x y) = false.
Proof. double_crush. Qed.

Lemma double_key_negtrans (x y z : Double.t) (rx ry rz : Z) :
  Double.isNaN x = false -> Double.isNaN y = false -> Double.isNaN z = false ->
  (if Double.eqb x y then rx <? ry else Double.ltb y x) = false ->
  (if Double.eqb y z then ry <? rz else Double.ltb z y) = false ->
  (if Double.eqb x z then rx <? rz else Double.ltb z x) = false.
Proof. double_crush. Qed.

(* ===================================================================== *)
(** ** The comparators are strict weak orders on numbers *)
(* ===================================================================== *)

Lemma comparator_asym (opt : StandingsViewModel.SortOption) (a b : TeamStanding.t) :
  StandingsViewModel.comparator opt a b = true ->
  StandingsViewModel.comparator opt b a = false.
Proof.
  destruct opt; unfold StandingsViewModel.comparator;
    try apply double_key_asym; order_crush.
Qed.

Lemma comparable_not_NaN (x : Double.t) :
  negb (Double.isNaN x) = true -> Double.isNaN x = false.
Proof. now destruct (Double.isNaN x). Qed.

Lemma comparator_negtrans (opt : StandingsViewModel.SortOption)
    (a b c : TeamStanding.t) :
  Spec.comparable opt a = true -> Spec.comparable opt b = true ->
  Spec.comparable opt c = true ->
  StandingsViewModel.comparator opt a b = false ->
  StandingsViewModel.comparator opt b c = false ->
  StandingsViewModel.comparator opt a c = false.
Proof.
  destruct opt; unfold StandingsViewModel.comparator, Spec.comparable;
    intros Ha Hb Hc;
    try (apply double_key_negtrans; apply comparable_not_NaN; assumption);
    order_crush.
Qed.

(* ===================================================================== *)
(** ** The recompute pipeline *)
(* ===================================================================== *)

Lemma applyFilters_sections (st : StandingsViewModel.State) :
  StandingsViewModel.sections (StandingsViewModel.applyFilters st) =
  StandingsViewModel.sections st.
Proof. reflexivity. Qed.

Lemma leagueSections_subset (league : StandingsViewModel.LeagueFilter)
    (secs : list StandingsSection.t) (s : StandingsSection.t) :
  s ∈ StandingsViewModel.leagueSections league secs -> s ∈ secs.
Proof.
  rewrite !list_elem_of_In. destruct league; simpl; [tauto| |];
    rewrite filter_In; tauto.
Qed.

Lemma divisionSections_subset (sel : option Z) (secs : list StandingsSection.t)
    (s : StandingsSection.t) :
  s ∈ StandingsViewModel.divisionSections sel secs -> s ∈ secs.
Proof.
  rewrite !list_elem_of_In. destruct sel; simpl; [|tauto].
  rewrite filter_In; tauto.
Qed.

(** Every section of the filtered view comes from a source section, with
    its teams filtered and sorted. *)
Lemma filteredSections_origin (st : StandingsViewModel.State)
    (s' : StandingsSection.t) :
  s' ∈ StandingsViewModel.filteredSections (StandingsViewModel.applyFilters st) ->
  exists s, s ∈ StandingsViewModel.sections st /\
    StandingsViewModel.filterSection st s = Some s'.
Proof.
  unfold StandingsViewModel.applyFilters. simpl.
  rewrite list_elem_of_omap. intros (s & Hs & Hf).
  exists s. split; [|exact Hf].
  eapply leagueSections_subset, divisionSections_subset, Hs.
Qed.

Lemma filterSection_Some (st : StandingsViewModel.State)
    (s s' : StandingsSection.t) :
  StandingsViewModel.filterSection st s = Some s' ->
  StandingsSection.teams s' =
    StandingsViewModel.sort st
      (StandingsViewModel.filterTeams st (StandingsSection.teams s))
  /\ StandingsSection.teams s' <> []
  /\ s' = StandingsSection.with_teams s (StandingsSection.teams s').
Proof.
  unfold StandingsViewModel.filterSection.
  destruct (StandingsViewModel.sort st _) as [|t ts] eqn:E; [discriminate|].
  intros [= <-]. simpl. repeat split. discriminate.
Qed.

Lemma insert_by_Permutation {A} (lt : A -> A -> bool) (x : A) (l : list A) :
  insert_by lt x l ≡ₚ x :: l.
Proof.
  induction l as [|y r IH]; simpl; [reflexivity|].
  destruct (lt y x); [|reflexivity].
  rewrite IH. apply Permutation_swap.
Qed.

Lemma sorted_by_Permutation {A} (lt : A -> A -> bool) (l : list A) :
  sorted_by lt l ≡ₚ l.
Proof.
  induction l as [|x r IH]; simpl; [reflexivity|].
  rewrite insert_by_Permutation, IH. reflexivity.
Qed.

Lemma prioritized_asym (favs : gset Z) (opt : StandingsViewModel.SortOption)
    (a b : TeamStanding.t) :
  StandingsViewModel.prioritized favs (StandingsViewModel.comparator opt) a b = true ->
  StandingsViewModel.prioritized favs (StandingsViewModel.comparator opt) b a = false.
Proof.
  apply (pinned_asym (StandingsViewModel.comparator opt) (fun _ => True)
           (fun a b _ _ => comparator_asym opt a b)
           (StandingsViewModel.isFavorite favs)); exact I.
Qed.

Lemma prioritized_negtrans (favs : gset Z) (opt : StandingsViewModel.SortOption)
    (a b c : TeamStanding.t) :
  Spec.comparable opt a = true -> Spec.comparable opt b = true ->
  Spec.comparable opt c = true ->
  StandingsViewModel.prioritized favs (StandingsViewModel.comparator opt) a b = false ->
  StandingsViewModel.prioritized favs (StandingsViewModel.comparator opt) b c = false ->
  StandingsViewModel.prioritized favs (StandingsViewModel.comparator opt) a c = false.
Proof.
  apply (pinned_negtrans (StandingsViewModel.comparator opt)
           (fun t => Spec.comparable opt t = true)
           (comparator_negtrans opt) (StandingsViewModel.isFavorite favs)).
Qed.


(** Whatever the teams, [sort(teams:)] returns the favorites, then the
    others. *)
Lemma sort_favorites_first (st : StandingsViewModel.State)
    (teams : list TeamStanding.t) :
  exists F N,
    StandingsViewModel.sort st teams = (F ++ N)%list
    /\ Forall (fun t => StandingsViewModel.isFavorite
                          (StandingsViewModel.favorites st) t = true) F
    /\ Forall (fun t => StandingsViewModel.isFavorite
                          (StandingsViewModel.favorites st) t = false) N.
Proof. apply sorted_by_pinned_split. Qed.


Lemma sort_in_order (st : StandingsViewModel.State) (teams : list TeamStanding.t) :
  Forall (fun t => Spec.comparable (StandingsViewModel.sortOption st) t = true)
    teams ->
  in_order
    (StandingsViewModel.prioritized (StandingsViewModel.favorites st)
       (StandingsViewModel.comparator (StandingsViewModel.sortOption st)))
    (StandingsViewModel.sort st teams).
Proof.
  intros H. unfold StandingsViewModel.sort.
  apply (in_order_sorted_by _
           (fun t => Spec.comparable (StandingsViewModel.sortOption st) t = true));
    [| |exact H].
  - intros a b _ _. apply prioritized_asym.
  - apply prioritized_negtrans.
Qed.

Lemma sort_comparable (st : StandingsViewModel.State) (teams : list TeamStanding.t)
    (P : TeamStanding.t -> Prop) :
  Forall P (StandingsViewModel.sort st teams) <-> Forall P teams.
Proof.
  unfold StandingsViewModel.sort. now rewrite sorted_by_Permutation.
Qed.




(* ===================================================================== *)
(** ** Tie-breaks and stability *)
(* ===================================================================== *)

Lemma primaryEqual_sym (opt : StandingsViewModel.SortOption) (a b : TeamStanding.t) :
  Spec.primaryEqual opt a b = true -> Spec.primaryEqual opt b a = true.
Proof.
  destruct opt; unfold Spec.primaryEqual; rewrite 1?Double_eqb_sym;
    try (intros H; exact H); order_crush.
Qed.




Lemma fold_digits_nonneg (ds : list Z) (acc : Z) :
  0 <= acc -> Forall (fun d => 0 <= d) ds ->
  0 <= fold_left (fun a d => a * 10 + d) ds acc.
Proof.
  revert acc. induction ds as [|d r IH]; simpl; intros acc Hacc Hd;
    [exact Hacc|].
  inversion Hd; subst. apply IH; [lia | assumption].
Qed.

Lemma digits_value_nonneg (ds : list Z) :
  Forall (fun d => 0 <= d) ds -> 0 <= Num.digits_value ds.
Proof.
  intros H. unfold Num.digits_value. apply fold_digits_nonneg; [lia | exact H].
Qed.

Lemma span_digits_nonneg (s : string) (ds : list Z) (rest : string) :
  Num.span_digits s = (ds, rest) -> Forall (fun d => 0 <= d) ds.
Proof.
  revert ds rest. induction s as [|c r IH]; simpl; intros ds rest.
  - intros [= <- <-]. constructor.
  - unfold Num.digit_of. destruct (Str.is_digit c) eqn:Hc.
    + destruct (Num.span_digits r) as [ds' rest'] eqn:E.
      intros [= <- <-]. constructor; [|eapply IH; reflexivity].
      unfold Str.is_digit in Hc. apply andb_true_iff in Hc. lia.
    + intros [= <- <-]. constructor.
Qed.








(* ===================================================================== *)
(** ** League and division filters *)
(* ===================================================================== *)

(** C5: when the league filter is set to a league under which the selected
    division is not available, the selected division is cleared and the
    filtered view is the recompute with no division selected; after any
    league change a division that stays selected is available under the new
    league. *)
Theorem C5_league_change_clears_unavailable_division
    (st : StandingsViewModel.State) (league : StandingsViewModel.LeagueFilter) :
  (forall d,
     StandingsViewModel.selectedDivisionID st = Some d ->
     d ∉ StandingsViewModel.availableDivisionIDs st league ->
     let st' := StandingsViewModel.set_selectedLeague league st in
     StandingsViewModel.selectedLeague st' = league
     /\ StandingsViewModel.selectedDivisionID st' = None
     /\ st' = StandingsViewModel.applyFilters
                (StandingsViewModel.with_selectedDivisionID None
                   (StandingsViewModel.with_selectedLeague league st)))
  /\ (forall d,
        StandingsViewModel.selectedDivisionID
          (StandingsViewModel.set_selectedLeague league st) = Some d ->
        d ∈ StandingsViewModel.availableDivisionIDs
              (StandingsViewModel.set_selectedLeague league st) league).
Proof.
  split.
  - intros d Hd Hn st'. subst st'. unfold StandingsViewModel.set_selectedLeague.
    simpl. rewrite Hd.
    change (StandingsViewModel.availableDivisionIDs
              (StandingsViewModel.with_selectedLeague league st) league)
      with (StandingsViewModel.availableDivisionIDs st league).
    rewrite (bool_decide_eq_false_2 _ Hn). simpl. repeat split.
  - intros d. unfold StandingsViewModel.set_selectedLeague. simpl.
    destruct (StandingsViewModel.selectedDivisionID st) as [d0|] eqn:Hd0;
      [|simpl; rewrite Hd0; discriminate].
    change (StandingsViewModel.availableDivisionIDs
              (StandingsViewModel.with_selectedLeague league st) league)
      with (StandingsViewModel.availableDivisionIDs st league).
    destruct (bool_decide (d0 ∈ StandingsViewModel.availableDivisionIDs st league))
      eqn:Hb; simpl.
    + rewrite Hd0. intros [= <-]. apply bool_decide_eq_true_1 in Hb. exact Hb.
    + discriminate.
Qed.

(** The witness of C5: with the American League East selected, switching
    the league filter to the National League clears the division. *)
Lemma C5_league_change_clears_unavailable_division_witness :
  StandingsViewModel.selectedDivisionID Examples.alEastSelected = Some 201
  /\ StandingsViewModel.selectedDivisionID
       (StandingsViewModel.set_selectedLeague StandingsViewModel.national
          Examples.alEastSelected) = None.
Proof.
  split; [reflexivity|].
  destruct (C5_league_change_clears_unavailable_division Examples.alEastSelected
              StandingsViewModel.national) as [H _].
  destruct (H 201) as (_ & H2 & _); [reflexivity | | exact H2].
  apply (bool_decide_eq_false_1 _). vm_compute. reflexivity.
Defined.

(* ===================================================================== *)
(** ** Pruning and the source of truth *)
(* ===================================================================== *)

Lemma insert_by_nonempty {A} (lt : A -> A -> bool) (x : A) (l : list A) :
  insert_by lt x l <> [].
Proof. destruct l as [|y r]; simpl; [|destruct (lt y x)]; discriminate. Qed.

Lemma sorted_by_nil_iff {A} (lt : A -> A -> bool) (l : list A) :
  sorted_by lt l = [] <-> l = [].
Proof.
  destruct l as [|x r]; simpl; [tauto|].
  split; [|discriminate]. intros H. now apply insert_by_nonempty in H.
Qed.

Lemma filterSection_None (st : StandingsViewModel.State) (s : StandingsSection.t) :
  StandingsViewModel.filterSection st s = None <->
  StandingsViewModel.filterTeams st (StandingsSection.teams s) = [].
Proof.
  unfold StandingsViewModel.filterSection, StandingsViewModel.sort.
  rewrite <- (sorted_by_nil_iff
                (StandingsViewModel.prioritized (StandingsViewModel.favorites st)
                   (StandingsViewModel.comparator (StandingsViewModel.sortOption st)))).
  destruct (sorted_by _ _); split; congruence.
Qed.

Lemma filteredSections_nonempty (st : StandingsViewModel.State) :
  Forall (fun s => StandingsSection.teams s <> [])
    (StandingsViewModel.filteredSections (StandingsViewModel.applyFilters st)).
Proof.
  apply Forall_forall. intros s' Hs'.
  destruct (filteredSections_origin st s' Hs') as (s & _ & Hf).
  apply filterSection_Some in Hf. tauto.
Qed.

(** Every command ends in a recompute over the same source sections, and
    leaves the load machinery alone. *)
Lemma run_recomputes (c : Spec.Command) (st : StandingsViewModel.State) :
  exists st0,
    Spec.run c st = StandingsViewModel.applyFilters st0
    /\ StandingsViewModel.sections st0 = StandingsViewModel.sections st
    /\ StandingsViewModel.loadTasks st0 = StandingsViewModel.loadTasks st
    /\ StandingsViewModel.season st0 = StandingsViewModel.season st.
Proof.
  destruct c; simpl;
    unfold StandingsViewModel.clearFilters, StandingsViewModel.toggleFavorite,
      StandingsViewModel.set_selectedLeague;
    repeat match goal with
    | |- context [bool_decide ?P] => destruct (bool_decide P)
    | |- context [match ?x with Some _ => _ | None => _ end] => destruct x
    end;
    eexists; (split; [reflexivity|]); repeat split.
Qed.

(** C6: after a recompute no section of the filtered view is empty: the
    view is the retained source sections mapped through the team filter and
    sort, and a section is dropped exactly when the filter leaves it no team;
    the recompute and every filter, sort and favorite command leave the
    source sections unchanged. *)
Theorem C6_no_empty_filtered_section_and_sections_unchanged
    (st : StandingsViewModel.State) :
  Forall (fun s => StandingsSection.teams s <> [])
    (StandingsViewModel.filteredSections (StandingsViewModel.applyFilters st))
  /\ StandingsViewModel.filteredSections (StandingsViewModel.applyFilters st)
     = omap (StandingsViewModel.filterSection st)
         (StandingsViewModel.divisionSections
            (StandingsViewModel.selectedDivisionID st)
            (StandingsViewModel.leagueSections
               (StandingsViewModel.selectedLeague st)
               (StandingsViewModel.sections st)))
  /\ (forall s,
        StandingsViewModel.filterSection st s = None <->
        StandingsViewModel.filterTeams st (StandingsSection.teams s) = [])
  /\ StandingsViewModel.sections (StandingsViewModel.applyFilters st)
     = StandingsViewModel.sections st
  /\ (forall c,
        StandingsViewModel.sections (Spec.run c st)
        = StandingsViewModel.sections st
        /\ Forall (fun s => StandingsSection.teams s <> [])
             (StandingsViewModel.filteredSections (Spec.run c st))).
Proof.
  split; [apply filteredSections_nonempty|].
  split; [reflexivity|].
  split; [apply filterSection_None|].
  split; [reflexivity|].
  intros c. destruct (run_recomputes c st) as (st0 & -> & Hs & _).
  split; [exact Hs | apply filteredSections_nonempty].
Qed.

(** C10: [clearFilters] resets the search text, the league filter, the
    selected division, the sort option and the favorites-only flag, and
    leaves the favorites, the source sections, the season, the loading flag,
    the error message and the spawned load tasks as they were: nothing is
    fetched. *)
Theorem C10_clearFilters_resets_filters_only (st : StandingsViewModel.State) :
  let st' := StandingsViewModel.clearFilters st in
  StandingsViewModel.searchText st' = ""
  /\ StandingsViewModel.selectedLeague st' = StandingsViewModel.all
  /\ StandingsViewModel.selectedDivisionID st' = None
  /\ StandingsViewModel.sortOption st' = StandingsViewModel.divisionRank
  /\ StandingsViewModel.showFavoritesOnly st' = false
  /\ StandingsViewModel.favorites st' = StandingsViewModel.favorites st
  /\ StandingsViewModel.sections st' = StandingsViewModel.sections st
  /\ StandingsViewModel.season st' = StandingsViewModel.season st
  /\ StandingsViewModel.loadTasks st' = StandingsViewModel.loadTasks st
  /\ StandingsViewModel.isLoading st' = StandingsViewModel.isLoading st
  /\ StandingsViewModel.errorMessage st' = StandingsViewModel.errorMessage st
  /\ st' = StandingsViewModel.applyFilters
             (StandingsViewModel.mk (StandingsViewModel.sections st)
                (StandingsViewModel.filteredSections st)
                (StandingsViewModel.isLoading st)
                (StandingsViewModel.errorMessage st)
                "" StandingsViewModel.all None StandingsViewModel.divisionRank
                false (StandingsViewModel.favorites st)
                (StandingsViewModel.season st)
                (StandingsViewModel.loadTasks st)).
Proof.
  unfold StandingsViewModel.clearFilters, StandingsViewModel.set_selectedLeague.
  simpl.
  destruct (StandingsViewModel.selectedDivisionID st) as [d|]; simpl;
    [destruct (bool_decide _); simpl|]; repeat split.
Qed.

(* ===================================================================== *)
(** ** Aggregates *)
(* ===================================================================== *)

Lemma max_from_In {A} (lt : A -> A -> bool) (l : list A) (x : A) :
  In (max_from lt x l) (x :: l).
Proof.
  revert x. induction l as [|e r IH]; intros x; simpl; [left; reflexivity|].
  destruct (IH (if lt x e then e else x)) as [Hin|Hin]; [|right; right; exact Hin].
  rewrite <- Hin. destruct (lt x e); [right; left | left]; reflexivity.
Qed.


Section MaxBy.
Context {A : Type} (lt : A -> A -> bool) (P : A -> Prop).
Hypothesis lt_asym : forall a b, P a -> P b -> lt a b = true -> lt b a = false.
Hypothesis lt_negtrans :
  forall a b c, P a -> P b -> P c ->
    lt a b = false -> lt b c = false -> lt a c = false.

Lemma max_from_spec (l : list A) (x : A) :
  Forall P (x :: l) ->
  forall u, In u (x :: l) -> lt (max_from lt x l) u = false.
Proof.
  revert x. induction l as [|e r IH]; intros x HP; simpl.
  - inversion HP; subst. intros u [<-|[]]. apply (lt_irrefl lt P lt_asym).
    assumption.
  - inversion HP as [|? ? Px HP']; subst. inversion HP' as [|? ? Pe Pr]; subst.
    set (x' := if lt x e then e else x).
    assert (HP'' : Forall P (x' :: r))
      by (constructor; [subst x'; destruct (lt x e); assumption | exact Pr]).
    pose proof (IH x' HP'') as Hmax.
    assert (Pm : P (max_from lt x' r)).
    { rewrite List.Forall_forall in HP''. apply HP'', max_from_In. }
    assert (Hm : lt (max_from lt x' r) x' = false)
      by (apply Hmax; left; reflexivity).
    intros u [<-|[<-|Hu]].
    + subst x'. destruct (lt x e) eqn:E; [|exact Hm].
      apply (lt_negtrans _ e x); try assumption. apply lt_asym; assumption.
    + subst x'. destruct (lt x e) eqn:E; [exact Hm|].
      apply (lt_negtrans _ x e); assumption.
    + apply Hmax. right. exact Hu.
Qed.

Lemma max_by_spec (l : list A) :
  Forall P l ->
  match max_by lt l with
  | Some m => In m l /\ forall u, In u l -> lt m u = false
  | None => l = []
  end.
Proof.
  destruct l as [|x r]; simpl; [reflexivity|]. intros HP.
  split; [apply max_from_In | apply max_from_spec, HP].
Qed.
End MaxBy.

Lemma Forall_True {A} (l : list A) : Forall (fun _ => True) l.
Proof. induction l; constructor; [exact I | assumption]. Qed.





(* ===================================================================== *)
(** ** Loading *)
(* ===================================================================== *)

(** C1, as the code has it: when a load that does fetch fails, the engine
    replaces the sections it held by the built-in sample sections, recomputes
    the filtered view from them under the unchanged filter state, surfaces
    the error as a non-fatal message and stops loading. *)
Theorem C1_fetch_failure_falls_back_to_sample
    (currentSeason : Z) (session : StandingsService.URLSession) (force : bool)
    (st : StandingsViewModel.State) (error : StandingsService.Error) :
  StandingsViewModel.isLoading st = false ->
  force = true \/ StandingsViewModel.sections st = [] ->
  StandingsService.fetchStandings session (StandingsViewModel.season st)
    StandingsService.defaultLeagueIds = inl error ->
  exists st',
    StandingsViewModel.loadStandings currentSeason session force st = Some st'
    /\ StandingsViewModel.sections st' = StandingsSection.sample
    /\ StandingsViewModel.filteredSections st'
       = StandingsViewModel.filteredSections
           (StandingsViewModel.applyFilters
              (StandingsViewModel.with_sections StandingsSection.sample st))
    /\ StandingsViewModel.errorMessage st'
       = Some (StandingsViewModel.userFriendlyDescription error)
    /\ StandingsViewModel.isLoading st' = false
    /\ StandingsViewModel.searchText st' = StandingsViewModel.searchText st
    /\ StandingsViewModel.selectedLeague st' = StandingsViewModel.selectedLeague st
    /\ StandingsViewModel.selectedDivisionID st'
       = StandingsViewModel.selectedDivisionID st
    /\ StandingsViewModel.sortOption st' = StandingsViewModel.sortOption st
    /\ StandingsViewModel.showFavoritesOnly st'
       = StandingsViewModel.showFavoritesOnly st
    /\ StandingsViewModel.favorites st' = StandingsViewModel.favorites st.
Proof.
  intros Hload Hforce Hfetch. unfold StandingsViewModel.loadStandings.
  rewrite Hload.
  assert (Hguard : negb force
                   && negb (bool_decide (StandingsViewModel.sections st = []))
                   = false).
  { destruct Hforce as [-> | ->]; [reflexivity|].
    rewrite bool_decide_eq_true_2 by reflexivity. apply andb_false_r. }
  rewrite Hguard. simpl. rewrite Hfetch.
  eexists. split; [reflexivity|]. simpl. repeat split.
Qed.

(** The witness of C1: a refresh of the loaded state while offline. *)
Lemma C1_fetch_failure_falls_back_to_sample_witness :
  exists st',
    StandingsViewModel.refresh 2025 Examples.offline Examples.loadedState
    = Some st'
    /\ StandingsViewModel.sections st' = StandingsSection.sample
    /\ StandingsViewModel.errorMessage st'
       = Some "The Internet connection appears to be offline.".
Proof.
  destruct (C1_fetch_failure_falls_back_to_sample 2025 Examples.offline true
              Examples.loadedState
              (StandingsService.Session
                 "The Internet connection appears to be offline."))
    as (st' & H1 & H2 & _ & H4 & _);
    [reflexivity | left; reflexivity | reflexivity |].
  exists st'. repeat split; assumption.
Defined.

(** C1 fails as stated: the first load of season 2025 succeeds and the
    engine holds the section it fetched; a refresh then fails, and afterwards
    the engine holds the two sample sections of 2024 instead: the fetched
    section is gone. *)
Lemma C1_counterexample :
  exists fetched st',
    StandingsViewModel.loadStandings 2025
      (Examples.serving (Examples.bodyJson [Examples.teamJson ".674" None]))
      false (StandingsViewModel.initial 2025) = Some Examples.loadedState
    /\ StandingsViewModel.sections Examples.loadedState = [fetched]
    /\ StandingsSection.season fetched = 2025
    /\ StandingsViewModel.errorMessage Examples.loadedState = None
    /\ StandingsViewModel.refresh 2025 Examples.offline Examples.loadedState
       = Some st'
    /\ StandingsViewModel.sections st'
       = [StandingsSection.alEast; StandingsSection.nlWest]
    /\ StandingsViewModel.sections st'
       <> StandingsViewModel.sections Examples.loadedState
    /\ fetched ∉ StandingsViewModel.sections st'.
Proof.
  eexists _, _. split; [vm_compute; reflexivity|].
  split; [vm_compute; reflexivity|]. split; [reflexivity|].
  split; [reflexivity|]. split; [vm_compute; reflexivity|].
  split; [reflexivity|]. split.
  - vm_compute. discriminate.
  - rewrite list_elem_of_In. vm_compute. intros [H|[H|[]]]; discriminate H.
Qed.

(* ===================================================================== *)
(** ** Decoding and tolerant parsing *)
(* ===================================================================== *)

Lemma mapM_Some_Forall {A B} (f : A -> option B) (P : A -> Prop)
    (l : list A) (k : list B) :
  (forall x y, f x = Some y -> P x) ->
  mapM f l = Some k -> Forall P l /\ length k = length l.
Proof.
  intros HP H. apply mapM_Some in H.
  induction H as [|x y l' k' Hxy _ [IH1 IH2]]; simpl.
  - split; [constructor | reflexivity].
  - split; [constructor; [eapply HP, Hxy | exact IH1] | now rewrite IH2].
Qed.

Lemma lookup_cons_ne (k k' : string) (v : json) (o : Decoder.object) :
  k <> k' -> Decoder.lookup k' ((k, v) :: o) = Decoder.lookup k' o.
Proof.
  intros H. unfold Decoder.lookup. simpl.
  destruct (String.eqb_spec k k'); [contradiction | reflexivity].
Qed.

Lemma lookup_cons_eq (k : string) (v : json) (o : Decoder.object) :
  Decoder.lookup k ((k, v) :: o) = Some v.
Proof. unfold Decoder.lookup. simpl. now rewrite String.eqb_refl. Qed.

Lemma decode_cons_ne {A} (d : json -> option A) (k k' : string) (v : json)
    (o : Decoder.object) :
  k <> k' -> Decoder.decode d k' ((k, v) :: o) = Decoder.decode d k' o.
Proof. intros H. unfold Decoder.decode. now rewrite lookup_cons_ne. Qed.

Lemma decodeIfPresent_cons_ne {A} (d : json -> option A) (k k' : string)
    (v : json) (o : Decoder.object) :
  k <> k' ->
  Decoder.decodeIfPresent d k' ((k, v) :: o) = Decoder.decodeIfPresent d k' o.
Proof. intros H. unfold Decoder.decodeIfPresent. now rewrite lookup_cons_ne. Qed.

(** The step of a proof that a chain of decoded fields succeeds exactly
    when each field does: the next field of the chain, then the case where
    it fails. *)
Ltac field_fails :=
  split;
  [ intros [? ?]; discriminate
  | intros; repeat match goal with H : _ /\ _ |- _ => destruct H end;
    match goal with H : is_Some None |- _ => destruct H; discriminate end ].

Ltac next_field t :=
  destruct t; simpl; [|field_fails].

Lemma teamInfo_fields (o : Decoder.object) :
  is_Some (Decoder.teamInfo (JObject o)) <-> Spec.teamInfoFieldsDecode o.
Proof.
  unfold Decoder.teamInfo, Spec.teamInfoFieldsDecode. simpl.
  next_field (Decoder.decode Decoder.decodeInt "id" o).
  next_field (Decoder.decode Decoder.decodeString "name" o).
  next_field (Decoder.decodeIfPresent Decoder.decodeString "teamName" o).
  next_field (Decoder.decodeIfPresent Decoder.decodeString "shortName" o).
  next_field (Decoder.decodeIfPresent Decoder.decodeString "clubName" o).
  next_field (Decoder.decodeIfPresent Decoder.decodeString "locationName" o).
  next_field (Decoder.decodeIfPresent Decoder.decodeString "abbreviation" o).
  next_field (Decoder.decodeIfPresent Decoder.decodeString "fileCode" o).
  split; intros _; repeat split; eexists; reflexivity.
Qed.

Lemma teamRecord_fields (o : Decoder.object) :
  is_Some (Decoder.teamRecord (JObject o)) <-> Spec.teamFieldsDecode o.
Proof.
  unfold Decoder.teamRecord, Spec.teamFieldsDecode. simpl.
  next_field (Decoder.decode Decoder.teamInfo "team" o).
  next_field (Decoder.decodeIfPresent Decoder.streak "streak" o).
  next_field (Decoder.decodeIfPresent Decoder.decodeString "divisionRank" o).
  next_field (Decoder.decodeIfPresent Decoder.decodeString "leagueRank" o).
  next_field (Decoder.decodeIfPresent Decoder.decodeString "wildCardRank" o).
  next_field (Decoder.decodeIfPresent Decoder.decodeBool "clinched" o).
  next_field (Decoder.decode Decoder.decodeInt "wins" o).
  next_field (Decoder.decode Decoder.decodeInt "losses" o).
  next_field (Decoder.decode Decoder.decodeString "winningPercentage" o).
  next_field (Decoder.decodeIfPresent Decoder.decodeString "gamesBack" o).
  next_field (Decoder.decodeIfPresent Decoder.decodeInt "runsScored" o).
  next_field (Decoder.decodeIfPresent Decoder.decodeInt "runsAllowed" o).
  next_field (Decoder.decodeIfPresent Decoder.decodeInt "runDifferential" o).
  next_field (Decoder.decodeIfPresent Decoder.decodeString "lastTen" o).
  next_field (Decoder.decodeIfPresent Decoder.split "home" o).
  next_field (Decoder.decodeIfPresent Decoder.split "away" o).
  next_field (Decoder.decodeIfPresent Decoder.split "extraInnings" o).
  next_field (Decoder.decodeIfPresent Decoder.split "oneRun" o).
  split; intros _; repeat split; eexists; reflexivity.
Qed.

Lemma decodeArray_is_Some {A} (d : json -> option A) (k : string)
    (o : Decoder.object) :
  is_Some (Decoder.decode (Decoder.decodeArray d) k o) <->
  exists l, Decoder.lookup k o = Some (JArray l)
            /\ Forall (fun j => is_Some (d j)) l.
Proof.
  unfold Decoder.decode, Decoder.decodeArray.
  destruct (Decoder.lookup k o) as [j|]; simpl.
  - destruct j as [| | | |l|].
    5: { rewrite mapM_is_Some. split.
         - intros H. exists l. split; [reflexivity | exact H].
         - intros (l' & [= <-] & H). exact H. }
    all: split; [intros [? ?]; discriminate | intros (l' & ? & _); discriminate].
  - split; [intros [? ?]; discriminate | intros (l' & ? & _); discriminate].
Qed.

Lemma divisionRecord_fields (o : Decoder.object) :
  is_Some (Decoder.divisionRecord (JObject o)) <-> Spec.divisionFieldsDecode o.
Proof.
  unfold Spec.divisionFieldsDecode.
  rewrite <- (decodeArray_is_Some Decoder.teamRecord "teamRecords" o).
  unfold Decoder.divisionRecord. simpl.
  next_field (Decoder.decode (Decoder.decodeArray Decoder.teamRecord)
                "teamRecords" o).
  next_field (Decoder.decodeIfPresent Decoder.divisionInfo "division" o).
  next_field (Decoder.decodeIfPresent Decoder.leagueInfo "league" o).
  next_field (Decoder.decodeIfPresent Decoder.decodeString "season" o).
  split; intros _; repeat split; eexists; reflexivity.
Qed.

Lemma standingsResponse_fields (o : Decoder.object) :
  is_Some (Decoder.standingsResponse (JObject o)) <->
  exists ds, Decoder.lookup "records" o = Some (JArray ds)
             /\ Forall (fun dj => is_Some (Decoder.divisionRecord dj)) ds.
Proof.
  rewrite <- (decodeArray_is_Some Decoder.divisionRecord "records" o).
  unfold Decoder.standingsResponse. simpl.
  destruct (Decoder.decode (Decoder.decodeArray Decoder.divisionRecord)
              "records" o); simpl;
    split; intros [? ?]; try discriminate; eexists; reflexivity.
Qed.

Lemma teamRecord_lacking (j : json) :
  Spec.lacksRequiredField j -> Decoder.teamRecord j = None.
Proof.
  intros H. destruct (Decoder.teamRecord j) as [t|] eqn:E; [|reflexivity].
  exfalso. destruct j as [| | | | |o]; try discriminate E.
  assert (Hs : is_Some (Decoder.teamRecord (JObject o)))
    by (rewrite E; eexists; reflexivity).
  apply teamRecord_fields in Hs.
  destruct Hs as (H1 & _ & _ & _ & _ & _ & H7 & H8 & H9 & _).
  simpl in H. destruct H as [H|[H|[H|H]]]; rewrite H in *;
    match goal with X : is_Some None |- _ => destruct X; discriminate end.
Qed.

Lemma teamInfo_required (j : json) (t : TeamInfo.t) :
  Decoder.teamInfo j = Some t ->
  exists ot, j = JObject ot
    /\ is_Some (Decoder.decode Decoder.decodeInt "id" ot)
    /\ is_Some (Decoder.decode Decoder.decodeString "name" ot).
Proof.
  intros H. destruct j as [| | | | |ot]; try discriminate H.
  assert (Hs : is_Some (Decoder.teamInfo (JObject ot)))
    by (rewrite H; eexists; reflexivity).
  apply teamInfo_fields in Hs as (H1 & H2 & _).
  exists ot. repeat split; assumption.
Qed.

Lemma teamRecord_required (j : json) (t : TeamRecord.t) :
  Decoder.teamRecord j = Some t -> Spec.requiredTeamFields j.
Proof.
  intros H. destruct j as [| | | | |o]; try discriminate H.
  assert (Hs : is_Some (Decoder.teamRecord (JObject o)))
    by (rewrite H; eexists; reflexivity).
  apply teamRecord_fields in Hs.
  destruct Hs as ([ti Hteam] & _ & _ & _ & _ & _ & H7 & H8 & H9 & _).
  unfold Decoder.decode in Hteam.
  destruct (Decoder.lookup "team" o) as [jt|] eqn:Hl; [|discriminate].
  simpl in Hteam. apply teamInfo_required in Hteam as (ot & -> & Hid & Hname).
  exists o, ot. repeat split; assumption.
Qed.

Lemma divisionRecord_required (j : json) (d : DivisionRecord.t) :
  Decoder.divisionRecord j = Some d ->
  Spec.requiredDivisionFields j.
Proof.
  intros H. destruct j as [| | | | |o]; try discriminate H.
  assert (Hs : is_Some (Decoder.divisionRecord (JObject o)))
    by (rewrite H; eexists; reflexivity).
  apply divisionRecord_fields in Hs as ((ts & Hl & Hts) & _).
  exists o, ts. split; [reflexivity|]. split; [exact Hl|].
  eapply Forall_impl; [exact Hts|]. intros tj [t Ht].
  eapply teamRecord_required, Ht.
Qed.

Lemma standingsResponse_required (j : json) (r : StandingsResponse.t) :
  Decoder.standingsResponse j = Some r ->
  exists o ds,
    j = JObject o
    /\ Decoder.lookup "records" o = Some (JArray ds)
    /\ Forall Spec.requiredDivisionFields ds
    /\ length (StandingsResponse.records r) = length ds.
Proof.
  unfold Decoder.standingsResponse. destruct j as [| | | | |o]; try discriminate.
  simpl. unfold Decoder.decode.
  destruct (Decoder.lookup "records" o) as [jr|] eqn:Hl; [|discriminate].
  simpl. destruct jr as [| | | |ds|]; try discriminate. simpl.
  destruct (mapM Decoder.divisionRecord ds) as [drs|] eqn:Hm; [|discriminate].
  simpl. intros [= <-]. exists o, ds. simpl.
  eapply mapM_Some_Forall in Hm as [Hm Hlen];
    [|intros x y; apply divisionRecord_required].
  split; [reflexivity|]. split; [exact Hl|]. split; assumption.
Qed.

Lemma fetchStandings_decodingFailed_iff (session : StandingsService.URLSession)
    (season : Z) (leagueIds : list Z) :
  StandingsService.fetchStandings session season leagueIds
  = inl (StandingsService.Service StandingsService.decodingFailed)
  <-> exists body,
        session (StandingsService.queryItems season leagueIds)
        = StandingsService.Response (Some 200) body
        /\ body ≫= Decoder.standingsResponse = None.
Proof.
  unfold StandingsService.fetchStandings.
  destruct (session _) as [d|[code|] body].
  - split; [discriminate | intros (b & H & _); discriminate].
  - destruct (Z.eqb_spec code 200) as [->|Hne].
    + destruct (body ≫= Decoder.standingsResponse) eqn:E.
      * split; [discriminate|]. intros (b & [= <-] & Hb). congruence.
      * split; [|reflexivity]. intros _. exists body. split; [reflexivity|exact E].
    + split; [discriminate|]. intros (b & [= -> _] & _). contradiction.
  - split; [discriminate | intros (b & H & _); discriminate].
Qed.

Lemma fetchStandings_success (session : StandingsService.URLSession)
    (season : Z) (leagueIds : list Z) (r : StandingsResponse.t) :
  StandingsService.fetchStandings session season leagueIds = inr r ->
  exists body,
    session (StandingsService.queryItems season leagueIds)
    = StandingsService.Response (Some 200) (Some body)
    /\ Decoder.standingsResponse body = Some r.
Proof.
  unfold StandingsService.fetchStandings.
  destruct (session _) as [d|[code|] body]; try discriminate.
  destruct (Z.eqb_spec code 200) as [->|Hne]; [|discriminate].
  destruct body as [body|]; simpl; [|discriminate].
  destruct (Decoder.standingsResponse body) eqn:E; [|discriminate].
  intros [= <-]. exists body. split; [reflexivity | exact E].
Qed.

(** A body whose records are a list fails to decode as soon as one of its
    division blocks does. *)
Lemma fetchStandings_block_fails (session : StandingsService.URLSession)
    (season : Z) (leagueIds : list Z) (o : Decoder.object) (ds : list json)
    (dj : json) :
  session (StandingsService.queryItems season leagueIds)
  = StandingsService.Response (Some 200) (Some (JObject o)) ->
  Decoder.lookup "records" o = Some (JArray ds) ->
  dj ∈ ds ->
  Decoder.divisionRecord dj = None ->
  StandingsService.fetchStandings session season leagueIds
  = inl (StandingsService.Service StandingsService.decodingFailed).
Proof.
  intros Hs Hl Hin Hd. apply fetchStandings_decodingFailed_iff.
  eexists. split; [exact Hs|]. simpl.
  destruct (Decoder.standingsResponse (JObject o)) as [r|] eqn:E; [|reflexivity].
  exfalso.
  assert (Hok : is_Some (Decoder.standingsResponse (JObject o)))
    by (rewrite E; eexists; reflexivity).
  apply standingsResponse_fields in Hok as (ds' & Hl' & Hall).
  rewrite Hl in Hl'. injection Hl' as <-.
  rewrite Forall_forall in Hall. destruct (Hall dj Hin) as [? H].
  congruence.
Qed.

Lemma divisionRecord_team_fails (od : Decoder.object) (ts : list json)
    (tj : json) :
  Decoder.lookup "teamRecords" od = Some (JArray ts) ->
  tj ∈ ts ->
  Decoder.teamRecord tj = None ->
  Decoder.divisionRecord (JObject od) = None.
Proof.
  intros Hl Hin Ht.
  destruct (Decoder.divisionRecord (JObject od)) as [d|] eqn:E; [|reflexivity].
  exfalso.
  assert (Hok : is_Some (Decoder.divisionRecord (JObject od)))
    by (rewrite E; eexists; reflexivity).
  apply divisionRecord_fields in Hok as ((ts' & Hl' & Hall) & _).
  rewrite Hl in Hl'. injection Hl' as <-.
  rewrite Forall_forall in Hall. destruct (Hall tj Hin) as [? H].
  congruence.
Qed.

Lemma is_Some_Some_iff {A} (x y : A) : is_Some (Some x) <-> is_Some (Some y).
Proof. split; intros _; eexists; reflexivity. Qed.

(** Whether a team record decodes does not depend on the text of its text
    fields. *)
Lemma teamRecord_text_tolerant (k s s' : string) (o : Decoder.object) :
  k ∈ Spec.textKeys ->
  is_Some (Decoder.teamRecord (JObject ((k, JString s) :: o))) <->
  is_Some (Decoder.teamRecord (JObject ((k, JString s') :: o))).
Proof.
  intros Hk. rewrite !teamRecord_fields. unfold Spec.teamFieldsDecode.
  unfold Spec.textKeys in Hk.
  repeat (apply elem_of_cons in Hk as [->|Hk]);
    [| | | | | |apply elem_of_nil in Hk; destruct Hk];
    unfold Decoder.decode, Decoder.decodeIfPresent, Decoder.lookup; simpl;
    first [ rewrite (is_Some_Some_iff (Some s) (Some s'))
          | rewrite (is_Some_Some_iff s s') ];
    reflexivity.
Qed.

Lemma init_teams_ids (currentSeason : Z) (record : DivisionRecord.t)
    (s : StandingsSection.t) :
  StandingsSection.init currentSeason record = Some s ->
  List.map TeamStanding.id (StandingsSection.teams s)
  = List.map (fun r => TeamInfo.id (TeamRecord.team r))
      (DivisionRecord.teamRecords record)
  /\ StandingsSection.teams s
     = List.map (fun r => TeamStanding.init r (DivisionRecord.league record)
                            (DivisionRecord.division record)
                            (StandingsSection.season s))
         (DivisionRecord.teamRecords record).
Proof.
  unfold StandingsSection.init.
  match goal with |- context [mbind _ ?m] => destruct m as [divisionId|] end;
    [|discriminate].
  simpl. intros [= <-]. simpl. split; [|reflexivity].
  rewrite List.map_map. reflexivity.
Qed.

Lemma checked_is_Some (z : Z) :
  is_Some (Num.checked z) <-> Num.Int_min <= z <= Num.Int_max.
Proof.
  unfold Num.checked, Num.in_Int.
  destruct (Z.leb_spec Num.Int_min z), (Z.leb_spec z Num.Int_max); simpl;
    split; try (intros [? ?]; discriminate); try lia; intros _; eexists;
    reflexivity.
Qed.

Lemma checked_Some (z : Z) :
  Num.Int_min <= z <= Num.Int_max -> Num.checked z = Some z.
Proof.
  intros H. unfold Num.checked, Num.in_Int.
  destruct (Z.leb_spec Num.Int_min z), (Z.leb_spec z Num.Int_max); simpl;
    try reflexivity; lia.
Qed.

(** The normalizer traps exactly when a division identifier has to be
    synthesized and [leagueId * 100 + 1] overflows. *)
Lemma init_is_Some (currentSeason : Z) (record : DivisionRecord.t) :
  is_Some (StandingsSection.init currentSeason record) <->
  DivisionRecord.division record <> None
  \/ (Num.Int_min
      <= default 0 (LeagueInfo.id <$> DivisionRecord.league record) * 100
      /\ default 0 (LeagueInfo.id <$> DivisionRecord.league record) * 100 + 1
         <= Num.Int_max).
Proof.
  unfold StandingsSection.init.
  destruct (DivisionRecord.division record) as [d|]; simpl.
  - split; [intros _; left; discriminate | intros _; eexists; reflexivity].
  - set (lid := default 0 (LeagueInfo.id <$> DivisionRecord.league record)).
    split.
    + intros [s Hs]. right.
      destruct (Num.checked (lid * 100)) as [m|] eqn:E1; [|discriminate].
      assert (H1 : is_Some (Num.checked (lid * 100)))
        by (rewrite E1; eexists; reflexivity).
      apply checked_is_Some in H1.
      unfold Num.checked in E1. destruct (Num.in_Int (lid * 100)); [|discriminate].
      injection E1 as <-. simpl in Hs.
      destruct (Num.checked (lid * 100 + 1)) as [m|] eqn:E2; [|discriminate].
      assert (H2 : is_Some (Num.checked (lid * 100 + 1)))
        by (rewrite E2; eexists; reflexivity).
      apply checked_is_Some in H2. lia.
    + intros [H|[H1 H2]]; [contradiction|].
      assert (Hmin : Num.Int_min = - 9223372036854775808) by reflexivity.
      assert (Hmax : Num.Int_max = 9223372036854775807) by reflexivity.
      rewrite (checked_Some (lid * 100)) by lia. simpl.
      rewrite (checked_Some (lid * 100 + 1)) by lia. simpl.
      eexists; reflexivity.
Qed.

(** C2, as the code has it: the fetch fails with the decoding error exactly
    when the status is 200 and the body does not decode as a whole.  A body
    decodes exactly when its records are a list of division blocks that
    decode; a division block, when its team records are a list of team
    records that decode and its optional fields decode; a team record, when
    each of its fields decodes, its team (with identifier and name), wins,
    losses and winning percentage being required.  So the fetch fails when
    the records container is absent or not a list, and also when, below it,
    a division block does not decode or a team record lacks a required
    field.  What is tolerated is the text of the text fields: it never
    decides whether a team record decodes; and the normalizer yields one
    team per decoded team record, trapping exactly when a division
    identifier has to be synthesized and [leagueId * 100 + 1] overflows. *)
Theorem C2_decoding_is_all_or_nothing
    (session : StandingsService.URLSession) (season : Z) (leagueIds : list Z) :
  (StandingsService.fetchStandings session season leagueIds
   = inl (StandingsService.Service StandingsService.decodingFailed)
   <-> exists body,
         session (StandingsService.queryItems season leagueIds)
         = StandingsService.Response (Some 200) body
         /\ body ≫= Decoder.standingsResponse = None)
  /\ (forall o,
        is_Some (Decoder.standingsResponse (JObject o)) <->
        exists ds, Decoder.lookup "records" o = Some (JArray ds)
                   /\ Forall (fun dj => is_Some (Decoder.divisionRecord dj)) ds)
  /\ (forall o,
        is_Some (Decoder.divisionRecord (JObject o)) <->
        Spec.divisionFieldsDecode o)
  /\ (forall o,
        is_Some (Decoder.teamRecord (JObject o)) <-> Spec.teamFieldsDecode o)
  /\ (forall o,
        is_Some (Decoder.teamInfo (JObject o)) <-> Spec.teamInfoFieldsDecode o)
  /\ (forall o,
        session (StandingsService.queryItems season leagueIds)
        = StandingsService.Response (Some 200) (Some (JObject o)) ->
        (forall ds, Decoder.lookup "records" o <> Some (JArray ds)) ->
        StandingsService.fetchStandings session season leagueIds
        = inl (StandingsService.Service StandingsService.decodingFailed))
  /\ (forall o ds dj,
        session (StandingsService.queryItems season leagueIds)
        = StandingsService.Response (Some 200) (Some (JObject o)) ->
        Decoder.lookup "records" o = Some (JArray ds) ->
        dj ∈ ds ->
        Decoder.divisionRecord dj = None ->
        StandingsService.fetchStandings session season leagueIds
        = inl (StandingsService.Service StandingsService.decodingFailed))
  /\ (forall o ds od ts tj,
        session (StandingsService.queryItems season leagueIds)
        = StandingsService.Response (Some 200) (Some (JObject o)) ->
        Decoder.lookup "records" o = Some (JArray ds) ->
        JObject od ∈ ds ->
        Decoder.lookup "teamRecords" od = Some (JArray ts) ->
        tj ∈ ts ->
        Spec.lacksRequiredField tj ->
        StandingsService.fetchStandings session season leagueIds
        = inl (StandingsService.Service StandingsService.decodingFailed))
  /\ (forall r,
        StandingsService.fetchStandings session season leagueIds = inr r ->
        exists o ds,
          session (StandingsService.queryItems season leagueIds)
          = StandingsService.Response (Some 200) (Some (JObject o))
          /\ Decoder.lookup "records" o = Some (JArray ds)
          /\ Forall Spec.requiredDivisionFields ds
          /\ length (StandingsResponse.records r) = length ds)
  /\ (forall k s s' o,
        k ∈ Spec.textKeys ->
        is_Some (Decoder.teamRecord (JObject ((k, JString s) :: o))) <->
        is_Some (Decoder.teamRecord (JObject ((k, JString s') :: o))))
  /\ (forall pct gamesBack,
        StandingsService.fetchStandings
          (Examples.serving (Examples.bodyJson [Examples.teamJson pct gamesBack]))
          season leagueIds
        = inr (StandingsResponse.mk
                 [DivisionRecord.mk [Examples.teamRecordOf pct gamesBack]
                    (Some (DivisionInfo.mk 201 "American League East" None None None))
                    (Some (LeagueInfo.mk 103 "American League" None))
                    (Some "2025")]))
  /\ (forall currentSeason record s,
        StandingsSection.init currentSeason record = Some s ->
        List.map TeamStanding.id (StandingsSection.teams s)
        = List.map (fun r => TeamInfo.id (TeamRecord.team r))
            (DivisionRecord.teamRecords record))
  /\ (forall currentSeason record,
        is_Some (StandingsSection.init currentSeason record) <->
        DivisionRecord.division record <> None
        \/ (Num.Int_min
            <= default 0 (LeagueInfo.id <$> DivisionRecord.league record) * 100
            /\ default 0 (LeagueInfo.id <$> DivisionRecord.league record) * 100
               + 1 <= Num.Int_max)).
Proof.
  split; [apply fetchStandings_decodingFailed_iff|].
  split; [apply standingsResponse_fields|].
  split; [apply divisionRecord_fields|].
  split; [apply teamRecord_fields|].
  split; [apply teamInfo_fields|].
  split; [|split; [|split; [|split; [|split; [|split; [|split]]]]]].
  - intros o Hs Hrec. apply fetchStandings_decodingFailed_iff.
    eexists. split; [exact Hs|]. simpl.
    destruct (Decoder.standingsResponse (JObject o)) as [r|] eqn:E;
      [|reflexivity].
    exfalso.
    assert (Hok : is_Some (Decoder.standingsResponse (JObject o)))
      by (rewrite E; eexists; reflexivity).
    apply standingsResponse_fields in Hok as (ds & Hl & _).
    exact (Hrec ds Hl).
  - intros o ds dj. apply fetchStandings_block_fails.
  - intros o ds od ts tj Hs Hl Hin Hts Htj Hlack.
    apply (fetchStandings_block_fails session season leagueIds o ds (JObject od));
      try assumption.
    apply (divisionRecord_team_fails od ts tj); try assumption.
    apply teamRecord_lacking, Hlack.
  - intros r Hr. apply fetchStandings_success in Hr as (body & Hs & Hd).
    apply standingsResponse_required in Hd as (o & ds & -> & H1 & H2 & H3).
    exists o, ds. repeat split; assumption.
  - apply teamRecord_text_tolerant.
  - intros pct gamesBack. destruct gamesBack; reflexivity.
  - intros cs record s H. apply init_teams_ids in H. tauto.
  - intros cs record. apply init_is_Some.
Qed.

(** The witness of C2: a body whose records are not a list, a body with a
    team record without its wins, and the normalization of a division
    record without division descriptor. *)
Lemma C2_decoding_is_all_or_nothing_witness :
  StandingsService.fetchStandings
    (Examples.serving (JObject [("records", JString "none")])) 2024 [103; 104]
  = inl (StandingsService.Service StandingsService.decodingFailed)
  /\ StandingsService.fetchStandings
       (Examples.serving
          (Examples.bodyJson
             [Examples.teamJson ".674" None; Examples.teamJsonWithoutWins]))
       2024 [103; 104]
     = inl (StandingsService.Service StandingsService.decodingFailed)
  /\ is_Some (StandingsSection.init 2024
                (DivisionRecord.mk [Examples.teamRecordOf "" None] None
                   (Some (LeagueInfo.mk 103 "American League" None)) None)).
Proof.
  split; [|split].
  - destruct (C2_decoding_is_all_or_nothing
                (Examples.serving (JObject [("records", JString "none")]))
                2024 [103; 104]) as (_ & _ & _ & _ & _ & H & _).
    apply (H [("records", JString "none")]); [reflexivity|].
    intros ds. simpl. discriminate.
  - destruct (C2_decoding_is_all_or_nothing
                (Examples.serving
                   (Examples.bodyJson
                      [Examples.teamJson ".674" None; Examples.teamJsonWithoutWins]))
                2024 [103; 104]) as (_ & _ & _ & _ & _ & _ & _ & H & _).
    eapply (H _ _ _ _ Examples.teamJsonWithoutWins);
      [reflexivity | reflexivity | left | reflexivity
      | right; left | right; left; reflexivity].
  - destruct (C2_decoding_is_all_or_nothing
                (Examples.serving (JObject [("records", JString "none")]))
                2024 [103; 104])
      as (_ & _ & _ & _ & _ & _ & _ & _ & _ & _ & _ & _ & H).
    apply H. right. vm_compute. split; discriminate.
Defined.

(** C2 fails as stated: the records container is present and is a list,
    one of its two team records lacks [wins], and the whole fetch fails with
    the decoding error; without that team record the same body is fetched. *)
Lemma C2_counterexample :
  (exists ds,
     Decoder.lookup "records"
       [("records", JArray ds)] = Some (JArray ds)
     /\ Examples.bodyJson [Examples.teamJson ".674" None; Examples.teamJsonWithoutWins]
        = JObject [("records", JArray ds)])
  /\ StandingsService.fetchStandings
       (Examples.serving
          (Examples.bodyJson
             [Examples.teamJson ".674" None; Examples.teamJsonWithoutWins]))
       2024 [103; 104]
     = inl (StandingsService.Service StandingsService.decodingFailed)
  /\ (exists r,
        StandingsService.fetchStandings
          (Examples.serving (Examples.bodyJson [Examples.teamJson ".674" None]))
          2024 [103; 104]
        = inr r).
Proof.
  split; [eexists; split; reflexivity|].
  split; [reflexivity|]. eexists. reflexivity.
Qed.

Lemma gamesBackText_init (record : TeamRecord.t) (league : option LeagueInfo.t)
    (division : option DivisionInfo.t) (season : Z) :
  TeamStanding.gamesBackText (TeamStanding.init record league division season)
  = match Double_init (TeamRecord.gamesBack record) with
    | Some gamesBackValue =>
        if Double.eqb gamesBackValue Double.zero then Str.emDash
        else Double.formatFixed 1 gamesBackValue ++ " GB"
    | None => default Str.emDash (TeamRecord.gamesBack record)
    end.
Proof. reflexivity. Qed.

Lemma winningPercentage_init (record : TeamRecord.t) (league : option LeagueInfo.t)
    (division : option DivisionInfo.t) (season : Z) :
  TeamStanding.winningPercentage (TeamStanding.init record league division season)
  = default Double.zero (Double.parse (TeamRecord.winningPercentage record)).
Proof. reflexivity. Qed.

(** C8: the tolerant parser yields the double 0.674 for "0.674", the double
    0.654 for ".654" and the double 1.0, which is the number 1, for "1", as
    does the standard parser applied to the winning-percentage text; a team
    record whose winning percentage is the empty string is normalized without
    error to a team of percentage 0, which is in its section; end to end, a
    body with such a team is fetched and loaded without an error message, and
    the team is in the source sections and in the filtered view. *)
Theorem C8_tolerant_percentage_parser :
  Double_init (Some "0.674") = Some (Double.of_Q 0.674)
  /\ Double_init (Some ".654") = Some (Double.of_Q 0.654)
  /\ Double_init (Some "1") = Some (Double.of_Q 1.0)
  /\ Double.of_Q 1.0 = Double.Fin 1
  /\ Double.parse "0.674" = Some (Double.of_Q 0.674)
  /\ Double.parse ".654" = Some (Double.of_Q 0.654)
  /\ Double.parse "1" = Some (Double.of_Q 1.0)
  /\ (forall record league division season,
        TeamRecord.winningPercentage record = "" ->
        TeamStanding.winningPercentage
          (TeamStanding.init record league division season) = Double.zero)
  /\ (forall currentSeason divisionRecord record s,
        TeamRecord.winningPercentage record = "" ->
        record ∈ DivisionRecord.teamRecords divisionRecord ->
        StandingsSection.init currentSeason divisionRecord = Some s ->
        exists team,
          team ∈ StandingsSection.teams s
          /\ TeamStanding.id team = TeamInfo.id (TeamRecord.team record)
          /\ TeamStanding.winningPercentage team = Double.zero)
  /\ (exists st' s team,
        StandingsViewModel.loadStandings 2024
          (Examples.serving (Examples.bodyJson [Examples.teamJson "" None]))
          true (StandingsViewModel.initial 2024) = Some st'
        /\ StandingsViewModel.errorMessage st' = None
        /\ StandingsViewModel.sections st' = [s]
        /\ StandingsViewModel.filteredSections st' = [s]
        /\ StandingsSection.teams s = [team]
        /\ TeamStanding.id team = 147
        /\ TeamStanding.winningPercentage team = Double.zero).
Proof.
  do 7 (split; [vm_compute; reflexivity|]).
  split; [|split].
  - intros record league division season H.
    rewrite winningPercentage_init, H. reflexivity.
  - intros cs drec record s Hpct Hin Hs.
    apply init_teams_ids in Hs as [_ Hs].
    exists (TeamStanding.init record (DivisionRecord.league drec)
              (DivisionRecord.division drec) (StandingsSection.season s)).
    split; [|split].
    + rewrite Hs. apply list_elem_of_In.
      apply (in_map (fun r => TeamStanding.init r (DivisionRecord.league drec)
                                (DivisionRecord.division drec)
                                (StandingsSection.season s))).
      apply list_elem_of_In, Hin.
    + reflexivity.
    + rewrite winningPercentage_init, Hpct. reflexivity.
  - eexists _, _, _. split; [vm_compute; reflexivity|].
    repeat split.
Qed.

(** The witness of C8: the raw record with an empty winning percentage, in a
    division record of its own. *)
Lemma C8_tolerant_percentage_parser_witness :
  TeamStanding.winningPercentage
    (TeamStanding.init (Examples.teamRecordOf "" None) None None 2024)
  = Double.zero
  /\ exists s team,
       StandingsSection.init 2024
         (DivisionRecord.mk [Examples.teamRecordOf "" None] None None None)
       = Some s
       /\ team ∈ StandingsSection.teams s
       /\ TeamStanding.winningPercentage team = Double.zero.
Proof.
  destruct C8_tolerant_percentage_parser as (_ & _ & _ & _ & _ & _ & _ & H1 & H2 & _).
  split; [apply H1; reflexivity|].
  destruct (H2 2024 (DivisionRecord.mk [Examples.teamRecordOf "" None] None None None)
              (Examples.teamRecordOf "" None)
              (default StandingsSection.alEast
                 (StandingsSection.init 2024
                    (DivisionRecord.mk [Examples.teamRecordOf "" None]
                       None None None))))
    as (team & Hin & _ & Hpct);
    [reflexivity | apply list_elem_of_In; left; reflexivity | reflexivity |].
  eexists _, team. split; [reflexivity|]. split; assumption.
Defined.

(* ===================================================================== *)
(** ** Games back *)
(* ===================================================================== *)

(** C9, as the code has it: a games-back of "0" and a missing games-back
    render as the em-dash, "4.0" renders as "4.0 GB", an em-dash text renders
    as itself, the em-dash; a hyphen, like every games-back text the tolerant
    parser rejects, is rendered verbatim, so it shows as "-" and not as the
    em-dash. *)
Theorem C9_gamesBack_display_text (record : TeamRecord.t)
    (league : option LeagueInfo.t) (division : option DivisionInfo.t)
    (season : Z) :
  let text :=
    TeamStanding.gamesBackText (TeamStanding.init record league division season) in
  (TeamRecord.gamesBack record = Some "0" -> text = Str.emDash)
  /\ (TeamRecord.gamesBack record = None -> text = Str.emDash)
  /\ (TeamRecord.gamesBack record = Some "4.0" -> text = "4.0 GB")
  /\ (TeamRecord.gamesBack record = Some Str.emDash -> text = Str.emDash)
  /\ (TeamRecord.gamesBack record = Some "-" -> text = "-")
  /\ (forall g,
        TeamRecord.gamesBack record = Some g ->
        Double_init (Some g) = None -> text = g).
Proof.
  intros text. subst text. rewrite gamesBackText_init.
  repeat split.
  1-5: intros ->; reflexivity.
  intros g -> ->. reflexivity.
Qed.

(** The witness of C9, on raw records with each games-back text. *)
Lemma C9_gamesBack_display_text_witness :
  TeamStanding.gamesBackText
    (TeamStanding.init (Examples.teamRecordOf ".674" (Some "0")) None None 2024)
  = Str.emDash
  /\ TeamStanding.gamesBackText
       (TeamStanding.init (Examples.teamRecordOf ".674" None) None None 2024)
     = Str.emDash
  /\ TeamStanding.gamesBackText
       (TeamStanding.init (Examples.teamRecordOf ".674" (Some "4.0")) None None 2024)
     = "4.0 GB"
  /\ TeamStanding.gamesBackText
       (TeamStanding.init (Examples.teamRecordOf ".674" (Some Str.emDash)) None None 2024)
     = Str.emDash
  /\ TeamStanding.gamesBackText
       (TeamStanding.init (Examples.teamRecordOf ".674" (Some "-")) None None 2024)
     = "-"
  /\ TeamStanding.gamesBackText
       (TeamStanding.init (Examples.teamRecordOf ".674" (Some "TBD")) None None 2024)
     = "TBD".
Proof.
  split; [|split; [|split; [|split; [|split]]]].
  - destruct (C9_gamesBack_display_text
                (Examples.teamRecordOf ".674" (Some "0")) None None 2024)
      as (H & _).
    apply H. reflexivity.
  - destruct (C9_gamesBack_display_text
                (Examples.teamRecordOf ".674" None) None None 2024)
      as (_ & H & _).
    apply H. reflexivity.
  - destruct (C9_gamesBack_display_text
                (Examples.teamRecordOf ".674" (Some "4.0")) None None 2024)
      as (_ & _ & H & _).
    apply H. reflexivity.
  - destruct (C9_gamesBack_display_text
                (Examples.teamRecordOf ".674" (Some Str.emDash)) None None 2024)
      as (_ & _ & _ & H & _).
    apply H. reflexivity.
  - destruct (C9_gamesBack_display_text
                (Examples.teamRecordOf ".674" (Some "-")) None None 2024)
      as (_ & _ & _ & _ & H & _).
    apply H. reflexivity.
  - destruct (C9_gamesBack_display_text
                (Examples.teamRecordOf ".674" (Some "TBD")) None None 2024)
      as (_ & _ & _ & _ & _ & H).
    apply H; reflexivity.
Defined.

(** C9 fails as stated: a hyphen games-back text is rendered as the hyphen,
    which is not the em-dash sentinel. *)
Lemma C9_counterexample :
  TeamStanding.gamesBackText
    (TeamStanding.init (Examples.teamRecordOf ".674" (Some "-")) None None 2024)
  = "-"
  /\ TeamStanding.gamesBackText
       (TeamStanding.init (Examples.teamRecordOf ".674" (Some "-")) None None 2024)
     <> Str.emDash.
Proof.
  split; [reflexivity|]. vm_compute. discriminate.
Qed.

(* ===================================================================== *)
(** ** Further properties of the ranking engine *)
(* ===================================================================== *)

(** X1: each of the six comparators, and the favorites-first comparator built
    on it, is irreflexive and asymmetric on all teams, and negatively
    transitive on the teams whose sort metric is a number: a strict weak
    order, which is what [sorted(by:)] requires of its argument, on those
    teams; under the four options with an integer metric these are all the
    teams. *)
Theorem X1_comparators_are_strict_weak_orders
    (favs : gset Z) (opt : StandingsViewModel.SortOption) :
  let cmp := StandingsViewModel.comparator opt in
  let pri := StandingsViewModel.prioritized favs cmp in
  let number t := Spec.comparable opt t = true in
  (forall a, cmp a a = false)
  /\ (forall a b, cmp a b = true -> cmp b a = false)
  /\ (forall a b c,
        number a -> number b -> number c ->
        cmp a b = false -> cmp b c = false -> cmp a c = false)
  /\ (forall a, pri a a = false)
  /\ (forall a b, pri a b = true -> pri b a = false)
  /\ (forall a b c,
        number a -> number b -> number c ->
        pri a b = false -> pri b c = false -> pri a c = false)
  /\ (opt <> StandingsViewModel.winningPercentage ->
      opt <> StandingsViewModel.lastTen ->
      forall t, number t).
Proof.
  intros cmp pri number. subst cmp pri number. cbv beta. repeat split.
  - intros a.
    apply (lt_irrefl _ (fun _ => True) (fun a b _ _ => comparator_asym opt a b)).
    exact I.
  - apply comparator_asym.
  - apply comparator_negtrans.
  - intros a.
    apply (lt_irrefl _ (fun _ => True)
             (fun a b _ _ => prioritized_asym favs opt a b)).
    exact I.
  - apply prioritized_asym.
  - apply prioritized_negtrans.
  - intros H1 H2 t. destruct opt; try reflexivity; contradiction.
Qed.

(** The witness of X1 on three sample teams under the winning-percentage
    order. *)
Lemma X1_comparators_are_strict_weak_orders_witness :
  StandingsViewModel.comparator StandingsViewModel.winningPercentage
    TeamStanding.orioles TeamStanding.yankees = false
  /\ StandingsViewModel.comparator StandingsViewModel.winningPercentage
       TeamStanding.redSox TeamStanding.yankees = false.
Proof.
  destruct (X1_comparators_are_strict_weak_orders ∅
              StandingsViewModel.winningPercentage) as (_ & H & Ht & _).
  split; [apply H; reflexivity|].
  apply (Ht TeamStanding.redSox TeamStanding.orioles TeamStanding.yankees);
    reflexivity.
Defined.

(** X2: [sort(teams:)] returns a permutation of its argument, no team lost
    and none duplicated; and when the sort metric of the teams is a number,
    the result is in order: no team is strictly before an earlier one under
    the favorites-first comparator. *)
Theorem X2_sort_is_an_ordered_permutation
    (st : StandingsViewModel.State) (teams : list TeamStanding.t) :
  StandingsViewModel.sort st teams ≡ₚ teams
  /\ length (StandingsViewModel.sort st teams) = length teams
  /\ (Forall
        (fun t => Spec.comparable (StandingsViewModel.sortOption st) t = true)
        teams ->
      in_order
        (StandingsViewModel.prioritized (StandingsViewModel.favorites st)
           (StandingsViewModel.comparator (StandingsViewModel.sortOption st)))
        (StandingsViewModel.sort st teams)).
Proof.
  split; [apply sorted_by_Permutation|].
  split; [apply Permutation_length, sorted_by_Permutation|].
  apply sort_in_order.
Qed.

(** The witness of X2: the American League East of the sample, sorted by
    winning percentage. *)
Lemma X2_sort_is_an_ordered_permutation_witness :
  in_order
    (StandingsViewModel.prioritized ∅
       (StandingsViewModel.comparator StandingsViewModel.winningPercentage))
    (StandingsViewModel.sort
       (StandingsViewModel.set_sortOption StandingsViewModel.winningPercentage
          Examples.sampleState)
       (StandingsSection.teams StandingsSection.alEast)).
Proof.
  apply (X2_sort_is_an_ordered_permutation
           (StandingsViewModel.set_sortOption StandingsViewModel.winningPercentage
              Examples.sampleState)
           (StandingsSection.teams StandingsSection.alEast)).
  repeat constructor.
Defined.

Lemma filterTeams_elem (st : StandingsViewModel.State)
    (teams : list TeamStanding.t) (t : TeamStanding.t) :
  t ∈ StandingsViewModel.filterTeams st teams <->
  t ∈ teams
  /\ (StandingsViewModel.showFavoritesOnly st = true ->
      StandingsViewModel.isFavorite (StandingsViewModel.favorites st) t = true)
  /\ (Str.isEmpty (StandingsViewModel.searchText st) = false ->
      Str.contains (TeamStanding.searchableText t)
        (Str.lowercased (StandingsViewModel.searchText st)) = true).
Proof.
  unfold StandingsViewModel.filterTeams.
  destruct (StandingsViewModel.showFavoritesOnly st),
    (Str.isEmpty (StandingsViewModel.searchText st)); simpl;
    rewrite !list_elem_of_In, ?filter_In, ?filter_In; intuition congruence.
Qed.

Lemma sort_elem (st : StandingsViewModel.State) (teams : list TeamStanding.t)
    (t : TeamStanding.t) :
  t ∈ StandingsViewModel.sort st teams <-> t ∈ teams.
Proof.
  unfold StandingsViewModel.sort. now rewrite sorted_by_Permutation.
Qed.

(** Every section of the filtered view, with the source section it was made
    from. *)
Lemma filteredSections_source (st : StandingsViewModel.State)
    (s' : StandingsSection.t) :
  s' ∈ StandingsViewModel.filteredSections (StandingsViewModel.applyFilters st) <->
  exists s,
    s ∈ StandingsViewModel.sections st
    /\ match StandingsViewModel.selectedLeague st with
       | StandingsViewModel.all => True
       | StandingsViewModel.american => StandingsSection.leagueAbbreviation s = "AL"
       | StandingsViewModel.national => StandingsSection.leagueAbbreviation s = "NL"
       end
    /\ match StandingsViewModel.selectedDivisionID st with
       | Some d => StandingsSection.divisionID s = d
       | None => True
       end
    /\ StandingsViewModel.filterSection st s = Some s'.
Proof.
  unfold StandingsViewModel.applyFilters. simpl. rewrite list_elem_of_omap.
  split; intros (s & Hs & Hf); exists s.
  - revert Hs. unfold StandingsViewModel.divisionSections,
      StandingsViewModel.leagueSections.
    rewrite !list_elem_of_In.
    destruct (StandingsViewModel.selectedDivisionID st),
      (StandingsViewModel.selectedLeague st);
      rewrite ?filter_In, ?filter_In, ?Z.eqb_eq, ?String.eqb_eq; tauto.
  - destruct Hf as (Hl & Hd & Hf). split; [|exact Hf].
    revert Hs Hl Hd. unfold StandingsViewModel.divisionSections,
      StandingsViewModel.leagueSections.
    rewrite !list_elem_of_In.
    destruct (StandingsViewModel.selectedDivisionID st),
      (StandingsViewModel.selectedLeague st);
      rewrite ?filter_In, ?filter_In, ?Z.eqb_eq, ?String.eqb_eq; tauto.
Qed.

Lemma filterSection_identity (st : StandingsViewModel.State)
    (s s' : StandingsSection.t) :
  StandingsViewModel.filterSection st s = Some s' ->
  StandingsSection.id s' = StandingsSection.id s
  /\ StandingsSection.divisionID s' = StandingsSection.divisionID s
  /\ StandingsSection.leagueID s' = StandingsSection.leagueID s
  /\ StandingsSection.leagueName s' = StandingsSection.leagueName s
  /\ StandingsSection.leagueAbbreviation s' = StandingsSection.leagueAbbreviation s
  /\ StandingsSection.title s' = StandingsSection.title s
  /\ StandingsSection.subtitle s' = StandingsSection.subtitle s
  /\ StandingsSection.season s' = StandingsSection.season s.
Proof.
  intros H. apply filterSection_Some in H as (_ & _ & ->). simpl. repeat split.
Qed.

(** X3: every section of the filtered view is a source section with its
    descriptive fields unchanged and its teams replaced by a permutation of
    those of its teams that pass the team filter; nothing is invented. *)
Theorem X3_filtered_sections_come_from_source (st : StandingsViewModel.State) :
  Forall
    (fun s' =>
       exists s,
         s ∈ StandingsViewModel.sections st
         /\ s' = StandingsSection.with_teams s (StandingsSection.teams s')
         /\ StandingsSection.teams s'
            ≡ₚ StandingsViewModel.filterTeams st (StandingsSection.teams s)
         /\ (forall t, t ∈ StandingsSection.teams s' -> t ∈ StandingsSection.teams s))
    (StandingsViewModel.filteredSections (StandingsViewModel.applyFilters st)).
Proof.
  apply Forall_forall. intros s' Hs'.
  apply filteredSections_source in Hs' as (s & Hs & _ & _ & Hf).
  apply filterSection_Some in Hf as (Ht & _ & Hw).
  exists s. split; [exact Hs|]. split; [exact Hw|].
  assert (Hp : StandingsSection.teams s'
               ≡ₚ StandingsViewModel.filterTeams st (StandingsSection.teams s)).
  { rewrite Ht. unfold StandingsViewModel.sort. apply sorted_by_Permutation. }
  split; [exact Hp|].
  intros t Hin. rewrite Hp in Hin. apply filterTeams_elem in Hin. tauto.
Qed.

(** X4: under the American League filter every section of the filtered view
    has the league abbreviation "AL", under the National League filter "NL";
    and when a division is selected every section of the filtered view is
    that division. *)
Theorem X4_league_and_division_filters_are_sound (st : StandingsViewModel.State) :
  Forall
    (fun s' =>
       match StandingsViewModel.selectedLeague st with
       | StandingsViewModel.all => True
       | StandingsViewModel.american => StandingsSection.leagueAbbreviation s' = "AL"
       | StandingsViewModel.national => StandingsSection.leagueAbbreviation s' = "NL"
       end
       /\ match StandingsViewModel.selectedDivisionID st with
          | Some d => StandingsSection.divisionID s' = d
          | None => True
          end)
    (StandingsViewModel.filteredSections (StandingsViewModel.applyFilters st)).
Proof.
  apply Forall_forall. intros s' Hs'.
  apply filteredSections_source in Hs' as (s & _ & Hl & Hd & Hf).
  apply filterSection_identity in Hf as (_ & -> & _ & _ & -> & _).
  split; assumption.
Qed.

(** X5: every team of the filtered view passes the team filters: it is a
    favorite when only favorites are shown, and when the search text is not
    empty its searchable text contains the lowercased search text. *)
Theorem X5_team_filters_are_sound (st : StandingsViewModel.State) :
  Forall
    (fun s' =>
       Forall
         (fun t =>
            (StandingsViewModel.showFavoritesOnly st = true ->
             TeamStanding.id t ∈ StandingsViewModel.favorites st)
            /\ (StandingsViewModel.searchText st <> "" ->
                Str.contains (TeamStanding.searchableText t)
                  (Str.lowercased (StandingsViewModel.searchText st)) = true))
         (StandingsSection.teams s'))
    (StandingsViewModel.filteredSections (StandingsViewModel.applyFilters st)).
Proof.
  apply Forall_forall. intros s' Hs'.
  apply filteredSections_source in Hs' as (s & _ & _ & _ & Hf).
  apply filterSection_Some in Hf as (Ht & _ & _).
  apply Forall_forall. intros t Hin. rewrite Ht in Hin.
  apply sort_elem, filterTeams_elem in Hin as (_ & Hfav & Hsearch). split.
  - intros H. apply Hfav in H. unfold StandingsViewModel.isFavorite in H.
    now apply bool_decide_eq_true_1 in H.
  - intros H. apply Hsearch.
    destruct (StandingsViewModel.searchText st); [contradiction | reflexivity].
Qed.

(** The witness of X5: the sample state searched for "york" with only
    favorites shown and the Yankees favorited shows the Yankees alone. *)
Lemma X5_team_filters_are_sound_witness :
  let st := StandingsViewModel.set_searchText "York"
              (StandingsViewModel.set_showFavoritesOnly true
                 (StandingsViewModel.toggleFavorite TeamStanding.yankees
                    Examples.sampleState)) in
  List.map (fun s => List.map TeamStanding.abbreviation (StandingsSection.teams s))
    (StandingsViewModel.filteredSections st) = [["NYY"]]
  /\ Forall
       (fun s' =>
          Forall (fun t => TeamStanding.id t ∈ StandingsViewModel.favorites st)
            (StandingsSection.teams s'))
       (StandingsViewModel.filteredSections st).
Proof.
  intros st. split; [vm_compute; reflexivity|].
  pose proof (X5_team_filters_are_sound st) as H.
  eapply Forall_impl; [exact H|]. intros s' Hs'. simpl in Hs'.
  eapply Forall_impl; [exact Hs'|]. intros t [Ht _]. apply Ht. reflexivity.
Defined.

Lemma lower_upper_char (c : ascii) :
  Str.lower_char (Str.upper_char c) = Str.lower_char c.
Proof. destruct c as [[] [] [] [] [] [] [] []]; reflexivity. Qed.

Lemma lowercased_uppercased (s : string) :
  Str.lowercased (Str.uppercased s) = Str.lowercased s.
Proof.
  induction s as [|c r IH]; simpl; [reflexivity|].
  unfold Str.lowercased, Str.uppercased in *. simpl.
  now rewrite lower_upper_char, IH.
Qed.

Lemma lower_lower_char (c : ascii) :
  Str.lower_char (Str.lower_char c) = Str.lower_char c.
Proof. destruct c as [[] [] [] [] [] [] [] []]; reflexivity. Qed.

Lemma lowercased_idem (s : string) :
  Str.lowercased (Str.lowercased s) = Str.lowercased s.
Proof.
  induction s as [|c r IH]; simpl; [reflexivity|].
  unfold Str.lowercased in *. simpl. now rewrite lower_lower_char, IH.
Qed.

(** X6: the search ignores the case of an ASCII query: the query, its
    uppercased form and its lowercased form give the same filtered view. *)
Theorem X6_search_is_case_insensitive (st : StandingsViewModel.State) (query : string) :
  Spec.isASCII query = true ->
  StandingsViewModel.filteredSections
    (StandingsViewModel.set_searchText (Str.uppercased query) st)
  = StandingsViewModel.filteredSections
      (StandingsViewModel.set_searchText query st)
  /\ StandingsViewModel.filteredSections
       (StandingsViewModel.set_searchText (Str.lowercased query) st)
     = StandingsViewModel.filteredSections
         (StandingsViewModel.set_searchText query st).
Proof.
  intros _.
  assert (G : forall q q',
            Str.lowercased q' = Str.lowercased q ->
            Str.isEmpty q' = Str.isEmpty q ->
            StandingsViewModel.filteredSections
              (StandingsViewModel.set_searchText q' st)
            = StandingsViewModel.filteredSections
                (StandingsViewModel.set_searchText q st)).
  { intros q q' Hl He.
    unfold StandingsViewModel.set_searchText, StandingsViewModel.applyFilters.
    simpl. apply list_omap_ext.
    apply Forall2_same_length_lookup. split; [reflexivity|].
    intros i x y Hx Hy. assert (x = y) as -> by congruence.
    unfold StandingsViewModel.filterSection, StandingsViewModel.filterTeams,
      StandingsViewModel.sort. simpl. rewrite Hl, He. reflexivity. }
  split; apply G.
  - apply lowercased_uppercased.
  - destruct query; reflexivity.
  - apply lowercased_idem.
  - destruct query; reflexivity.
Qed.

(** The witness of X6: the sample searched for "YORK" and for "York". *)
Lemma X6_search_is_case_insensitive_witness :
  StandingsViewModel.filteredSections
    (StandingsViewModel.set_searchText "YORK" Examples.sampleState)
  = StandingsViewModel.filteredSections
      (StandingsViewModel.set_searchText "York" Examples.sampleState).
Proof.
  apply (X6_search_is_case_insensitive Examples.sampleState "York"). reflexivity.
Defined.

Lemma filter_none {A} (p : A -> bool) (l : list A) :
  (forall x, In x l -> p x = false) -> List.filter p l = [].
Proof.
  induction l as [|x r IH]; simpl; intros H; [reflexivity|].
  rewrite (H x) by (left; reflexivity). apply IH. intros y Hy. apply H. now right.
Qed.

(** X7: a division can be shown only if it is available: when the selected
    division is not among [availableDivisionIDs(for:)] of the selected
    league, the filtered view is empty. *)
Theorem X7_unavailable_division_gives_empty_view
    (st : StandingsViewModel.State) (d : Z) :
  StandingsViewModel.selectedDivisionID st = Some d ->
  d ∉ StandingsViewModel.availableDivisionIDs st (StandingsViewModel.selectedLeague st) ->
  StandingsViewModel.filteredSections (StandingsViewModel.applyFilters st) = [].
Proof.
  intros Hd Hn. unfold StandingsViewModel.applyFilters. simpl. rewrite Hd.
  unfold StandingsViewModel.divisionSections. rewrite filter_none; [reflexivity|].
  intros s Hs. apply Z.eqb_neq. intros <-. apply Hn.
  unfold StandingsViewModel.availableDivisionIDs.
  apply elem_of_list_to_set, list_elem_of_In, in_map, Hs.
Qed.

(** The witness of X7: the National League filter set while the American
    League East stays selected, without the league setter's clearing. *)
Lemma X7_unavailable_division_gives_empty_view_witness :
  StandingsViewModel.filteredSections
    (StandingsViewModel.applyFilters
       (StandingsViewModel.with_selectedLeague StandingsViewModel.national
          Examples.alEastSelected)) = [].
Proof.
  apply (X7_unavailable_division_gives_empty_view _ 201); [reflexivity|].
  apply (bool_decide_eq_false_1 _). vm_compute. reflexivity.
Defined.

(** X8: in every section of the filtered view that shows a favorite team,
    the first team is a favorite, whatever the sort option. *)
Theorem X8_first_team_is_a_favorite (st : StandingsViewModel.State) :
  Forall
    (fun s' =>
       (exists t, t ∈ StandingsSection.teams s'
                  /\ TeamStanding.id t ∈ StandingsViewModel.favorites st) ->
       exists first rest,
         StandingsSection.teams s' = first :: rest
         /\ TeamStanding.id first ∈ StandingsViewModel.favorites st)
    (StandingsViewModel.filteredSections (StandingsViewModel.applyFilters st)).
Proof.
  apply Forall_forall. intros s' Hs' (t & Hin & Hfav).
  apply filteredSections_source in Hs' as (s & _ & _ & _ & Hf).
  apply filterSection_Some in Hf as (Ht & _ & _).
  destruct (sort_favorites_first st
              (StandingsViewModel.filterTeams st (StandingsSection.teams s)))
    as (F & N & E & HF & HN).
  rewrite Ht, E in Hin |- *.
  set (fav := StandingsViewModel.isFavorite (StandingsViewModel.favorites st)) in *.
  assert (Hft : fav t = true) by (apply bool_decide_eq_true_2, Hfav).
  assert (HinF : t ∈ F).
  { apply elem_of_app in Hin as [Hin|Hin]; [exact Hin|].
    rewrite Forall_forall in HN. rewrite (HN t Hin) in Hft. discriminate. }
  destruct F as [|first rest]; [inversion HinF|].
  exists first, (rest ++ N)%list. split; [reflexivity|].
  inversion HF as [|? ? Hfirst _]; subst.
  now apply bool_decide_eq_true_1 in Hfirst.
Qed.

(** The witness of X8: with Boston, last of its division, favorited, Boston
    is first in the American League East. *)
Lemma X8_first_team_is_a_favorite_witness :
  let st := StandingsViewModel.toggleFavorite TeamStanding.redSox
              Examples.sampleState in
  List.map (fun s => List.map TeamStanding.abbreviation (StandingsSection.teams s))
    (StandingsViewModel.filteredSections st)
  = [["BOS"; "NYY"; "BAL"; "TB"; "TOR"]; ["LAD"; "SD"; "SF"; "ARI"; "COL"]]
  /\ exists s' first rest,
       StandingsViewModel.filteredSections st !! 0%nat = Some s'
       /\ StandingsSection.teams s' = first :: rest
       /\ TeamStanding.id first ∈ StandingsViewModel.favorites st.
Proof.
  intros st. split; [vm_compute; reflexivity|].
  pose proof (X8_first_team_is_a_favorite st) as H.
  change (StandingsViewModel.filteredSections (StandingsViewModel.applyFilters st))
    with (StandingsViewModel.filteredSections st) in H.
  destruct (StandingsViewModel.filteredSections st) as [|s' ss] eqn:E;
    [vm_compute in E; discriminate|].
  inversion H as [|? ? Hs' _]; subst.
  destruct Hs' as (first & rest & H1 & H2).
  - exists TeamStanding.redSox. split.
    + assert (E0 : StandingsViewModel.filteredSections st !! 0%nat = Some s')
        by (rewrite E; reflexivity).
      vm_compute in E0. injection E0 as <-. apply list_elem_of_In. simpl. tauto.
    + apply (bool_decide_eq_true_1 _). vm_compute. reflexivity.
  - exists s', first, rest. repeat split; assumption.
Defined.

#[local] Set Warnings "-clear-no-such-hyp".

Lemma favorites_set_favorites (v : gset Z) (st : StandingsViewModel.State) :
  StandingsViewModel.favorites (StandingsViewModel.set_favorites v st) = v.
Proof. reflexivity. Qed.

Lemma set_favorites_twice (v w : gset Z) (st : StandingsViewModel.State) :
  w = StandingsViewModel.favorites st ->
  StandingsViewModel.set_favorites w (StandingsViewModel.set_favorites v st)
  = StandingsViewModel.applyFilters st.
Proof. intros ->. reflexivity. Qed.

(** X9: [toggleFavorite(for:)] flips the membership of the team and of no
    other; toggling the same team twice restores the favorites, and the
    resulting state is the recompute of the original one. *)
Theorem X9_toggleFavorite_flips_and_is_an_involution
    (st : StandingsViewModel.State) (team : TeamStanding.t) :
  (TeamStanding.id team
     ∈ StandingsViewModel.favorites (StandingsViewModel.toggleFavorite team st)
   <-> TeamStanding.id team ∉ StandingsViewModel.favorites st)
  /\ (forall other,
        other <> TeamStanding.id team ->
        (other ∈ StandingsViewModel.favorites
                   (StandingsViewModel.toggleFavorite team st)
         <-> other ∈ StandingsViewModel.favorites st))
  /\ StandingsViewModel.toggleFavorite team
       (StandingsViewModel.toggleFavorite team st)
     = StandingsViewModel.applyFilters st.
Proof.
  set (x := TeamStanding.id team). set (F := StandingsViewModel.favorites st).
  destruct (decide (x ∈ F)) as [Hin|Hout].
  - assert (E1 : StandingsViewModel.toggleFavorite team st
                 = StandingsViewModel.set_favorites (F ∖ {[x]}) st).
    { unfold StandingsViewModel.toggleFavorite. fold x F.
      now rewrite bool_decide_eq_true_2. }
    rewrite E1, favorites_set_favorites.
    split; [set_solver|]. split; [set_solver|].
    unfold StandingsViewModel.toggleFavorite at 1.
    rewrite favorites_set_favorites. fold x.
    rewrite bool_decide_eq_false_2 by set_solver.
    apply set_favorites_twice. fold F. apply set_eq. intros y.
    rewrite elem_of_union, elem_of_difference, elem_of_singleton.
    destruct (decide (y = x)) as [->|]; tauto.
  - assert (E1 : StandingsViewModel.toggleFavorite team st
                 = StandingsViewModel.set_favorites (F ∪ {[x]}) st).
    { unfold StandingsViewModel.toggleFavorite. fold x F.
      now rewrite bool_decide_eq_false_2. }
    rewrite E1, favorites_set_favorites.
    split; [set_solver|]. split; [set_solver|].
    unfold StandingsViewModel.toggleFavorite at 1.
    rewrite favorites_set_favorites. fold x.
    rewrite bool_decide_eq_true_2 by set_solver.
    apply set_favorites_twice. fold F. apply set_eq. intros y.
    rewrite elem_of_difference, elem_of_union, elem_of_singleton.
    destruct (decide (y = x)) as [->|]; tauto.
Qed.

(** The witness of X9: favoriting Boston leaves the Yankees as they were. *)
Lemma X9_toggleFavorite_flips_and_is_an_involution_witness :
  147 ∈ StandingsViewModel.favorites
          (StandingsViewModel.toggleFavorite TeamStanding.redSox
             (StandingsViewModel.toggleFavorite TeamStanding.yankees
                Examples.sampleState)).
Proof.
  destruct (X9_toggleFavorite_flips_and_is_an_involution
              (StandingsViewModel.toggleFavorite TeamStanding.yankees
                 Examples.sampleState) TeamStanding.redSox) as (_ & H & _).
  apply H; [discriminate|].
  apply (bool_decide_eq_true_1 _). vm_compute. reflexivity.
Defined.

Lemma filterTeams_inactive (st : StandingsViewModel.State)
    (teams : list TeamStanding.t) :
  StandingsViewModel.showFavoritesOnly st = false ->
  StandingsViewModel.searchText st = "" ->
  StandingsViewModel.filterTeams st teams = teams.
Proof.
  intros Hf Hs. unfold StandingsViewModel.filterTeams. now rewrite Hf, Hs.
Qed.

Lemma clearFilters_shape (st : StandingsViewModel.State) :
  StandingsViewModel.searchText (StandingsViewModel.clearFilters st) = ""
  /\ StandingsViewModel.selectedLeague (StandingsViewModel.clearFilters st)
     = StandingsViewModel.all
  /\ StandingsViewModel.selectedDivisionID (StandingsViewModel.clearFilters st)
     = None
  /\ StandingsViewModel.showFavoritesOnly (StandingsViewModel.clearFilters st)
     = false
  /\ StandingsViewModel.sortOption (StandingsViewModel.clearFilters st)
     = StandingsViewModel.divisionRank.
Proof.
  unfold StandingsViewModel.clearFilters, StandingsViewModel.set_selectedLeague.
  simpl.
  destruct (StandingsViewModel.selectedDivisionID st) as [d|]; simpl;
    [destruct (bool_decide _); simpl|]; repeat split.
Qed.

(** X10: after [clearFilters()] the dashboard's [filtersActive] is false,
    and whenever [filtersActive] is false the recompute shows every source
    section that has a team, with all of its teams. *)
Theorem X10_inactive_filters_show_everything (st : StandingsViewModel.State) :
  Views.filtersActive (StandingsViewModel.clearFilters st) = false
  /\ (Views.filtersActive st = false ->
      forall s,
        s ∈ StandingsViewModel.sections st ->
        StandingsSection.teams s <> [] ->
        exists s',
          s' ∈ StandingsViewModel.filteredSections
                 (StandingsViewModel.applyFilters st)
          /\ StandingsSection.id s' = StandingsSection.id s
          /\ StandingsSection.teams s' ≡ₚ StandingsSection.teams s).
Proof.
  split.
  - destruct (clearFilters_shape st) as (H1 & H2 & H3 & H4 & H5).
    unfold Views.filtersActive. rewrite H1, H2, H3, H4, H5. reflexivity.
  - unfold Views.filtersActive. intros H s Hs Hne.
    destruct (Str.isEmpty (StandingsViewModel.searchText st)) eqn:Hq;
      [|discriminate].
    destruct (StandingsViewModel.selectedLeague st) eqn:Hl; try discriminate.
    destruct (StandingsViewModel.selectedDivisionID st) eqn:Hd; [discriminate|].
    destruct (StandingsViewModel.showFavoritesOnly st) eqn:Hf; [discriminate|].
    clear H.
    assert (Hq' : StandingsViewModel.searchText st = "")
      by (destruct (StandingsViewModel.searchText st); [reflexivity|discriminate]).
    destruct (StandingsViewModel.filterSection st s) as [s'|] eqn:E.
    + exists s'. split.
      * apply filteredSections_source. exists s. rewrite Hl, Hd. auto.
      * pose proof (filterSection_identity _ _ _ E) as (Hid & _).
        apply filterSection_Some in E as (Ht & _ & _).
        split; [exact Hid|]. rewrite Ht, filterTeams_inactive by assumption.
        unfold StandingsViewModel.sort. apply sorted_by_Permutation.
    + apply filterSection_None in E.
      rewrite filterTeams_inactive in E by assumption. contradiction.
Qed.

(* ===================================================================== *)
(** ** Further properties of the aggregates, the loading and the fetch *)
(* ===================================================================== *)

(** X11: the hottest-streak aggregate is a team of the unfiltered set whose
    streak count no team exceeds, whether its streak is one of wins or of
    losses; the best run-differential aggregate is a team whose run
    differential, counted as the least integer when absent, no team exceeds;
    both are absent exactly when there is no team. *)
Theorem X11_streak_and_run_differential_aggregates (st : StandingsViewModel.State) :
  match StandingsViewModel.hottestStreakTeam st with
  | Some best =>
      best ∈ StandingsViewModel.aggregatedTeams st
      /\ forall u, u ∈ StandingsViewModel.aggregatedTeams st ->
           TeamStanding.streakCount u <= TeamStanding.streakCount best
  | None => StandingsViewModel.aggregatedTeams st = []
  end
  /\ match StandingsViewModel.bestRunDifferentialTeam st with
     | Some best =>
         best ∈ StandingsViewModel.aggregatedTeams st
         /\ forall u, u ∈ StandingsViewModel.aggregatedTeams st ->
              default Num.Int_min (TeamStanding.runDifferential u)
              <= default Num.Int_min (TeamStanding.runDifferential best)
     | None => StandingsViewModel.aggregatedTeams st = []
     end.
Proof.
  split.
  - unfold StandingsViewModel.hottestStreakTeam.
    pose proof (max_by_spec
                  (fun a b => TeamStanding.streakCount a <? TeamStanding.streakCount b))
      as H.
    specialize (H (fun _ => True)
                  ltac:(intros a b _ _; cbv beta; order_crush)
                  ltac:(intros a b c _ _ _; cbv beta; order_crush)
                  (StandingsViewModel.aggregatedTeams st) (Forall_True _)).
    destruct (max_by _ _) as [best|]; [|exact H].
    destruct H as [Hin Hmax]. split; [apply list_elem_of_In; exact Hin|].
    intros u Hu. apply list_elem_of_In, Hmax in Hu.
    apply Z.ltb_ge in Hu. exact Hu.
  - unfold StandingsViewModel.bestRunDifferentialTeam.
    pose proof (max_by_spec
                  (fun a b => default Num.Int_min (TeamStanding.runDifferential a)
                              <? default Num.Int_min (TeamStanding.runDifferential b)))
      as H.
    specialize (H (fun _ => True)
                  ltac:(intros a b _ _; cbv beta; order_crush)
                  ltac:(intros a b c _ _ _; cbv beta; order_crush)
                  (StandingsViewModel.aggregatedTeams st) (Forall_True _)).
    destruct (max_by _ _) as [best|]; [|exact H].
    destruct H as [Hin Hmax]. split; [apply list_elem_of_In; exact Hin|].
    intros u Hu. apply list_elem_of_In, Hmax in Hu.
    apply Z.ltb_ge in Hu. exact Hu.
Qed.

(** X12: a load that finds the view model loading, or that is not forced and
    finds sections already held, returns without fetching: the state is
    unchanged whatever the session would have delivered. *)
Theorem X12_guarded_load_does_nothing
    (currentSeason : Z) (session : StandingsService.URLSession) (force : bool)
    (st : StandingsViewModel.State) :
  StandingsViewModel.isLoading st = true
  \/ (force = false /\ StandingsViewModel.sections st <> []) ->
  StandingsViewModel.loadStandings currentSeason session force st = Some st.
Proof.
  unfold StandingsViewModel.loadStandings. intros [H|[-> H]].
  - now rewrite H.
  - destruct (StandingsViewModel.isLoading st); [reflexivity|].
    now rewrite bool_decide_eq_false_2.
Qed.

(** The witness of X12: an unforced load of the loaded state while offline
    leaves it as it is, with no error message. *)
Lemma X12_guarded_load_does_nothing_witness :
  StandingsViewModel.loadStandings 2025 Examples.offline false Examples.loadedState
  = Some Examples.loadedState.
Proof.
  apply X12_guarded_load_does_nothing. right. split; [reflexivity|].
  vm_compute. discriminate.
Defined.

(** X13: when the fetch succeeds and no section traps, the load replaces the
    sections by one section per division record, in the order of the
    response, clears the error message and the loading flag, recomputes the
    filtered view, and keeps the filter, sort and favorite state. *)
Theorem X13_successful_load_replaces_sections
    (currentSeason : Z) (session : StandingsService.URLSession) (force : bool)
    (st : StandingsViewModel.State) (response : StandingsResponse.t)
    (mapped : list StandingsSection.t) :
  StandingsViewModel.isLoading st = false ->
  force = true \/ StandingsViewModel.sections st = [] ->
  StandingsService.fetchStandings session (StandingsViewModel.season st)
    StandingsService.defaultLeagueIds = inr response ->
  mapM (StandingsSection.init currentSeason) (StandingsResponse.records response)
  = Some mapped ->
  exists st',
    StandingsViewModel.loadStandings currentSeason session force st = Some st'
    /\ StandingsViewModel.sections st' = mapped
    /\ length (StandingsViewModel.sections st')
       = length (StandingsResponse.records response)
    /\ StandingsViewModel.errorMessage st' = None
    /\ StandingsViewModel.isLoading st' = false
    /\ StandingsViewModel.filteredSections st'
       = StandingsViewModel.filteredSections
           (StandingsViewModel.applyFilters
              (StandingsViewModel.with_sections mapped st))
    /\ StandingsViewModel.searchText st' = StandingsViewModel.searchText st
    /\ StandingsViewModel.selectedLeague st' = StandingsViewModel.selectedLeague st
    /\ StandingsViewModel.selectedDivisionID st'
       = StandingsViewModel.selectedDivisionID st
    /\ StandingsViewModel.sortOption st' = StandingsViewModel.sortOption st
    /\ StandingsViewModel.showFavoritesOnly st'
       = StandingsViewModel.showFavoritesOnly st
    /\ StandingsViewModel.favorites st' = StandingsViewModel.favorites st
    /\ StandingsViewModel.season st' = StandingsViewModel.season st.
Proof.
  intros Hload Hforce Hfetch Hmap. unfold StandingsViewModel.loadStandings.
  rewrite Hload.
  assert (Hguard : negb force
                   && negb (bool_decide (StandingsViewModel.sections st = []))
                   = false).
  { destruct Hforce as [-> | ->]; [reflexivity|].
    rewrite bool_decide_eq_true_2 by reflexivity. apply andb_false_r. }
  rewrite Hguard. simpl. rewrite Hfetch, Hmap. simpl.
  eexists. split; [reflexivity|]. simpl. repeat split.
  apply mapM_Some, Forall2_length in Hmap. symmetry. exact Hmap.
Qed.

(** The witness of X13: the first load of the season 2025. *)
Lemma X13_successful_load_replaces_sections_witness :
  exists st',
    StandingsViewModel.loadStandings 2025
      (Examples.serving (Examples.bodyJson [Examples.teamJson ".674" None]))
      false (StandingsViewModel.initial 2025) = Some st'
    /\ length (StandingsViewModel.sections st') = 1%nat
    /\ StandingsViewModel.errorMessage st' = None.
Proof.
  destruct (X13_successful_load_replaces_sections 2025
              (Examples.serving (Examples.bodyJson [Examples.teamJson ".674" None]))
              false (StandingsViewModel.initial 2025)
              (StandingsResponse.mk
                 [DivisionRecord.mk [Examples.teamRecordOf ".674" None]
                    (Some (DivisionInfo.mk 201 "American League East" None None None))
                    (Some (LeagueInfo.mk 103 "American League" None))
                    (Some "2025")])
              (StandingsViewModel.sections Examples.loadedState))
    as (st' & H1 & _ & H3 & H4 & _);
    [reflexivity | right; reflexivity | reflexivity | vm_compute; reflexivity |].
  exists st'. repeat split; assumption.
Defined.

(** X14: the outcomes of [fetchStandings] are classified by the delivery
    alone: a thrown transport error is passed on with its description; a
    response that is not an HTTP response or whose status is not 200 fails
    with [invalidResponse] whatever its body; a 200 response fails with
    [decodingFailed] exactly when its body does not decode, and otherwise
    yields the decoded response. *)
Theorem X14_fetch_outcomes_are_classified
    (session : StandingsService.URLSession) (season : Z) (leagueIds : list Z) :
  match session (StandingsService.queryItems season leagueIds) with
  | StandingsService.Throws d =>
      StandingsService.fetchStandings session season leagueIds
      = inl (StandingsService.Session d)
  | StandingsService.Response None _ =>
      StandingsService.fetchStandings session season leagueIds
      = inl (StandingsService.Service StandingsService.invalidResponse)
  | StandingsService.Response (Some code) body =>
      if decide (code = 200)
      then match body ≫= Decoder.standingsResponse with
           | Some r =>
               StandingsService.fetchStandings session season leagueIds = inr r
           | None =>
               StandingsService.fetchStandings session season leagueIds
               = inl (StandingsService.Service StandingsService.decodingFailed)
           end
      else StandingsService.fetchStandings session season leagueIds
           = inl (StandingsService.Service StandingsService.invalidResponse)
  end.
Proof.
  unfold StandingsService.fetchStandings.
  destruct (session _) as [d|[code|] body]; try reflexivity.
  destruct (decide (code = 200)) as [->|Hne].
  - simpl. destruct (body ≫= Decoder.standingsResponse); reflexivity.
  - apply Z.eqb_neq in Hne. now rewrite Hne.
Qed.

(* ===================================================================== *)
(** ** Further properties of the decoder and the normalizer *)
(* ===================================================================== *)

(** X16: the decoder ignores the fields it does not know: a team record, a
    division block or a response with one more field, under a key the
    decoder does not read, decodes to the same value, or fails the same. *)
Theorem X16_unknown_fields_are_ignored (k : string) (v : json) (o : Decoder.object) :
  (k ∉ Spec.teamRecordKeys ->
   Decoder.teamRecord (JObject ((k, v) :: o)) = Decoder.teamRecord (JObject o))
  /\ (k ∉ Spec.divisionRecordKeys ->
      Decoder.divisionRecord (JObject ((k, v) :: o))
      = Decoder.divisionRecord (JObject o))
  /\ (k <> "records" ->
      Decoder.standingsResponse (JObject ((k, v) :: o))
      = Decoder.standingsResponse (JObject o)).
Proof.
  split; [|split].
  - intros H. unfold Decoder.teamRecord. simpl.
    rewrite !decode_cons_ne, !decodeIfPresent_cons_ne; first reflexivity.
    all: intros ->; apply H; apply (bool_decide_eq_true_1 _); vm_compute;
      reflexivity.
  - intros H. unfold Decoder.divisionRecord. simpl.
    rewrite !decode_cons_ne, !decodeIfPresent_cons_ne; first reflexivity.
    all: intros ->; apply H; apply (bool_decide_eq_true_1 _); vm_compute;
      reflexivity.
  - intros H. unfold Decoder.standingsResponse. simpl.
    rewrite decode_cons_ne by exact H. reflexivity.
Qed.

(** The witness of X16: a team record with a field the decoder does not
    know. *)
Lemma X16_unknown_fields_are_ignored_witness :
  Decoder.teamRecord
    (JObject [("sportRank", JString "4");
              ("team", JObject [("id", JNumber 147%Q);
                                ("name", JString "New York Yankees")]);
              ("wins", JNumber 62%Q); ("losses", JNumber 30%Q);
              ("winningPercentage", JString ".674")])
  = Decoder.teamRecord
      (JObject [("team", JObject [("id", JNumber 147%Q);
                                  ("name", JString "New York Yankees")]);
                ("wins", JNumber 62%Q); ("losses", JNumber 30%Q);
                ("winningPercentage", JString ".674")]).
Proof.
  apply X16_unknown_fields_are_ignored.
  apply (bool_decide_eq_false_1 _). vm_compute. reflexivity.
Defined.

Lemma mem_char_rev_onto (c : ascii) (s acc : string) :
  Str.mem_char c (Str.rev_onto s acc) = Str.mem_char c s || Str.mem_char c acc.
Proof.
  revert acc. induction s as [|d r IH]; intros acc; simpl; [reflexivity|].
  rewrite IH. simpl. destruct (Ascii.eqb c d), (Str.mem_char c r); reflexivity.
Qed.

(** The components of a split do not contain the separator. *)
Lemma split_go_no_separator (sep : ascii) (s cur : string) :
  Str.mem_char sep cur = false ->
  Forall (fun part => Str.mem_char sep part = false) (Str.split_go sep cur s).
Proof.
  revert cur. induction s as [|c r IH]; intros cur Hcur; simpl.
  - destruct (Str.isEmpty cur); constructor; [|constructor].
    unfold Str.reversed. rewrite mem_char_rev_onto, Hcur. reflexivity.
  - destruct (Ascii.eqb c sep) eqn:E.
    + destruct (Str.isEmpty cur); [apply IH; reflexivity|].
      constructor; [|apply IH; reflexivity].
      unfold Str.reversed. rewrite mem_char_rev_onto, Hcur. reflexivity.
    + apply IH. simpl. rewrite Hcur.
      rewrite Ascii.eqb_sym, E. reflexivity.
Qed.

(* ===================================================================== *)
(** ** Rounding to binary64 *)
(* ===================================================================== *)

Lemma pow2_Qpower (k : Z) : (Num.pow2 k == 2 ^ k)%Q.
Proof.
  unfold Num.pow2. destruct (Z.leb_spec 0 k) as [H|H].
  - exact (Zpower_Qpower 2 k H).
  - replace k with (- - k) at 2 by lia. rewrite Qpower_opp.
    assert (E : (inject_Z (2 ^ (- k)) == 2 ^ (- k))%Q)
      by (apply (Zpower_Qpower 2); lia).
    rewrite <- E.
    assert (Hp : 0 < 2 ^ (- k)) by (apply Z.pow_pos_nonneg; lia).
    destruct (2 ^ (- k)) as [|p|p]; try lia. reflexivity.
Qed.

Lemma pow2_pos (k : Z) : (0 < Num.pow2 k)%Q.
Proof. rewrite pow2_Qpower. apply Qpower_0_lt. reflexivity. Qed.

Lemma pow2_add (a b : Z) : (Num.pow2 (a + b) == Num.pow2 a * Num.pow2 b)%Q.
Proof. rewrite !pow2_Qpower. apply Qpower_plus. discriminate. Qed.

Lemma pow2_le (a b : Z) : a <= b -> (Num.pow2 a <= Num.pow2 b)%Q.
Proof.
  intros H. rewrite !pow2_Qpower. apply Qpower_le_compat_l; [exact H|].
  discriminate.
Qed.

Lemma pow2_lt_inv (a b : Z) : (Num.pow2 a < Num.pow2 b)%Q -> a < b.
Proof.
  rewrite !pow2_Qpower. intros H. eapply Qpower_lt_compat_l_inv; [exact H|].
  reflexivity.
Qed.

Lemma pow2_nonneg_Z (k : Z) : 0 <= k -> Num.pow2 k = inject_Z (2 ^ k).
Proof.
  intros H. unfold Num.pow2. destruct (Z.leb_spec 0 k); [reflexivity | lia].
Qed.

(** The binary exponent brackets a positive rational. *)
Lemma flog2_spec (q : Q) :
  (0 < q)%Q ->
  (Num.pow2 (Double.flog2 q) <= q /\ q < Num.pow2 (Double.flog2 q + 1))%Q.
Proof.
  intros Hq. 
  assert (Hn : 0 < Qnum q) by (unfold Qlt in Hq; simpl in Hq; lia).
  unfold Double.flog2.
  set (a := Z.log2 (Qnum q)). set (b := Z.log2 (Zpos (Qden q))).
  destruct (Z.log2_spec (Qnum q) Hn) as [Ha1 Ha2].
  destruct (Z.log2_spec (Zpos (Qden q)) eq_refl) as [Hb1 Hb2].
  fold a in Ha1, Ha2. fold b in Hb1, Hb2.
  assert (Ha0 : 0 <= a) by apply Z.log2_nonneg.
  assert (Hb0 : 0 <= b) by apply Z.log2_nonneg.
  assert (Hq' : (q * inject_Z (Zpos (Qden q)) == inject_Z (Qnum q))%Q)
    by (destruct q; unfold Qeq; simpl; lia).
  assert (Pd : (0 < inject_Z (Zpos (Qden q)))%Q) by reflexivity.
  rewrite Zle_Qle in Ha1, Hb1. rewrite Zlt_Qlt in Ha2, Hb2.
  rewrite <- !pow2_nonneg_Z in Ha1, Ha2, Hb1, Hb2 by lia.
  assert (Lo : (Num.pow2 (a - b - 1) <= q)%Q).
  { pose proof (pow2_add (a - b - 1) (Z.succ b)) as E.
    replace (a - b - 1 + Z.succ b) with a in E by lia.
    pose proof (pow2_pos (a - b - 1)).
    revert E Hq' Ha1 Hb2 Pd Hq H.
    generalize (Num.pow2 (a - b - 1)) (Num.pow2 a) (Num.pow2 (Z.succ b))
      (inject_Z (Zpos (Qden q))) (inject_Z (Qnum q)).
    intros lo A B D N. intros. nra. }
  assert (Hi : (q < Num.pow2 (a - b + 1))%Q).
  { pose proof (pow2_add (a - b + 1) b) as E.
    replace (a - b + 1 + b) with (Z.succ a) in E by lia.
    pose proof (pow2_pos (a - b + 1)).
    revert E Hq' Ha2 Hb1 Pd Hq H.
    generalize (Num.pow2 (a - b + 1)) (Num.pow2 (Z.succ a)) (Num.pow2 b)
      (inject_Z (Zpos (Qden q))) (inject_Z (Qnum q)).
    intros hi A B D N. intros. nra. }
  destruct (Qle_bool (Num.pow2 (a - b)) q) eqn:T.
  - apply Qle_bool_iff in T. split; assumption.
  - replace (a - b - 1 + 1) with (a - b) by lia. split; [exact Lo|].
    destruct (Qlt_le_dec q (Num.pow2 (a - b))) as [L|L]; [exact L|].
    apply Qle_bool_iff in L. congruence.
Qed.

Lemma flog2_unique (q : Q) (e : Z) :
  (Num.pow2 e <= q)%Q -> (q < Num.pow2 (e + 1))%Q -> Double.flog2 q = e.
Proof.
  intros H1 H2.
  assert (Hq : (0 < q)%Q) by (pose proof (pow2_pos e); lra).
  destruct (flog2_spec q Hq) as [S1 S2].
  assert (Double.flog2 q < e + 1) by (apply pow2_lt_inv; lra).
  assert (e < Double.flog2 q + 1) by (apply pow2_lt_inv; lra).
  lia.
Qed.

Lemma flog2_mono (x y : Q) :
  (0 < x)%Q -> (x <= y)%Q -> Double.flog2 x <= Double.flog2 y.
Proof.
  intros Hx Hxy.
  destruct (flog2_spec x Hx) as [S1 _].
  destruct (flog2_spec y ltac:(lra)) as [_ S2].
  assert (Double.flog2 x < Double.flog2 y + 1) by (apply pow2_lt_inv; lra).
  lia.
Qed.

Lemma round_half_even_Z (n : Z) : Num.round_half_even (inject_Z n) = n.
Proof.
  unfold Num.round_half_even. simpl. rewrite Z.div_1_r, Z.mod_1_r. reflexivity.
Qed.

Lemma round_half_even_mono (x y : Q) :
  (x <= y)%Q -> Num.round_half_even x <= Num.round_half_even y.
Proof.
  intros Hxy. pose proof (Qfloor_resp_le x y Hxy) as Hfl.
  destruct x as [nx dx], y as [ny dy]. unfold Qle in Hxy.
  unfold Qfloor in Hfl. unfold Num.round_half_even. cbn [Qnum Qden] in *.
  pose proof (Z.div_mod nx (Zpos dx) ltac:(lia)) as Ex.
  pose proof (Z.div_mod ny (Zpos dy) ltac:(lia)) as Ey.
  pose proof (Z.mod_pos_bound nx (Zpos dx) ltac:(lia)) as Bx.
  pose proof (Z.mod_pos_bound ny (Zpos dy) ltac:(lia)) as By.
  set (fx := nx / Zpos dx) in *. set (fy := ny / Zpos dy) in *.
  set (rx := nx mod Zpos dx) in *. set (ry := ny mod Zpos dy) in *.
  set (Dx := Zpos dx) in *. set (Dy := Zpos dy) in *.
  assert (HDx : 0 < Dx) by (subst Dx; lia).
  assert (HDy : 0 < Dy) by (subst Dy; lia).
  clearbody fx fy rx ry Dx Dy.
  destruct (Z.eq_dec fx fy) as [->|Hne].
  - assert (Hr : rx * Dy <= ry * Dx) by nia.
    destruct (Z.ltb_spec (2 * rx) Dx), (Z.ltb_spec Dx (2 * rx)),
      (Z.ltb_spec (2 * ry) Dy), (Z.ltb_spec Dy (2 * ry));
      destruct (Z.even fy); try lia; exfalso; nia.
  - destruct (Z.ltb_spec (2 * rx) Dx), (Z.ltb_spec Dx (2 * rx)),
      (Z.ltb_spec (2 * ry) Dy), (Z.ltb_spec Dy (2 * ry));
      destruct (Z.even fx), (Z.even fy); lia.
Qed.

Lemma round_half_even_comp (x y : Q) :
  (x == y)%Q -> Num.round_half_even x = Num.round_half_even y.
Proof.
  intros H. apply Z.le_antisymm; apply round_half_even_mono; rewrite H;
    apply Qle_refl.
Qed.

Lemma round_half_even_ge (n : Z) (q : Q) :
  (inject_Z n <= q)%Q -> n <= Num.round_half_even q.
Proof.
  intros H. rewrite <- (round_half_even_Z n). now apply round_half_even_mono.
Qed.

Lemma round_half_even_le (n : Z) (q : Q) :
  (q <= inject_Z n)%Q -> Num.round_half_even q <= n.
Proof.
  intros H. rewrite <- (round_half_even_Z n). now apply round_half_even_mono.
Qed.

Lemma pow2_cancel (k : Z) : (Num.pow2 k * Num.pow2 (- k) == 1)%Q.
Proof. rewrite <- pow2_add. replace (k + - k) with 0 by lia. reflexivity. Qed.

Lemma round_pos_nonneg (x : Q) : (0 <= x)%Q -> (0 <= Double.round_pos x)%Q.
Proof.
  intros Hx. unfold Double.round_pos.
  set (k := Z.max (Double.flog2 x) (-1022) - 52).
  pose proof (pow2_pos k). pose proof (pow2_pos (- k)).
  assert (0 <= Num.round_half_even (x * Num.pow2 (- k))).
  { apply round_half_even_ge. change (inject_Z 0) with 0%Q. nra. }
  assert (0 <= inject_Z (Num.round_half_even (x * Num.pow2 (- k))))%Q
    by (change 0%Q with (inject_Z 0); rewrite <- Zle_Qle; assumption).
  nra.
Qed.

(** A positive rational rounds to at most the power of two above it. *)
Lemma round_pos_upper (x : Q) (e : Z) :
  (0 < x)%Q -> (x <= Num.pow2 (e + 1))%Q -> -1022 <= e ->
  Double.flog2 x <= e ->
  (Double.round_pos x <= Num.pow2 (e + 1))%Q.
Proof.
  intros Hx Hxe He Hf. unfold Double.round_pos.
  set (e' := Z.max (Double.flog2 x) (-1022)). set (k := e' - 52).
  assert (He' : e' <= e) by lia.
  destruct (flog2_spec x Hx) as [_ S2].
  assert (Hx' : (x <= Num.pow2 (e' + 1))%Q).
  { apply Qlt_le_weak. eapply Qlt_le_trans; [exact S2|]. apply pow2_le. lia. }
  pose proof (pow2_cancel k) as C. pose proof (pow2_pos k) as Pk.
  pose proof (pow2_pos (- k)) as Pk'.
  pose proof (pow2_add 53 k) as E. replace (53 + k) with (e' + 1) in E by lia.
  rewrite (pow2_nonneg_Z 53) in E by lia.
  assert (Hm : Num.round_half_even (x * Num.pow2 (- k)) <= 2 ^ 53).
  { apply round_half_even_le.
    revert C Pk Pk' E Hx'. generalize (Num.pow2 (e' + 1)) (Num.pow2 k)
      (Num.pow2 (- k)) (inject_Z (2 ^ 53)). intros T P P' B. intros. nra. }
  rewrite Zle_Qle in Hm.
  eapply Qle_trans; [|apply (pow2_le (e' + 1) (e + 1)); lia].
  revert Hm E Pk. generalize (inject_Z (Num.round_half_even (x * Num.pow2 (- k))))
    (Num.pow2 (e' + 1)) (Num.pow2 k) (inject_Z (2 ^ 53)).
  intros M T P B. intros. nra.
Qed.

(** A positive normal rational rounds to at least the power of two below
    it. *)
Lemma round_pos_lower (x : Q) :
  (0 < x)%Q -> -1022 <= Double.flog2 x ->
  (Num.pow2 (Double.flog2 x) <= Double.round_pos x)%Q.
Proof.
  intros Hx Hf. unfold Double.round_pos.
  rewrite Z.max_l by lia.
  set (e := Double.flog2 x) in *. set (k := e - 52).
  destruct (flog2_spec x Hx) as [S1 _]. fold e in S1.
  pose proof (pow2_cancel k) as C. pose proof (pow2_pos k) as Pk.
  pose proof (pow2_pos (- k)) as Pk'.
  pose proof (pow2_add 52 k) as E. replace (52 + k) with e in E by lia.
  rewrite (pow2_nonneg_Z 52) in E by lia.
  assert (Hm : 2 ^ 52 <= Num.round_half_even (x * Num.pow2 (- k))).
  { apply round_half_even_ge.
    revert C Pk Pk' E S1. generalize (Num.pow2 e) (Num.pow2 k)
      (Num.pow2 (- k)) (inject_Z (2 ^ 52)). intros T P P' B. intros. nra. }
  rewrite Zle_Qle in Hm.
  revert Hm E Pk. generalize (inject_Z (Num.round_half_even (x * Num.pow2 (- k))))
    (Num.pow2 e) (Num.pow2 k) (inject_Z (2 ^ 52)).
  intros M T P B. intros. nra.
Qed.

Lemma round_pos_mono (x y : Q) :
  (0 < x)%Q -> (x <= y)%Q -> (Double.round_pos x <= Double.round_pos y)%Q.
Proof.
  intros Hx Hxy. assert (Hy : (0 < y)%Q) by lra.
  pose proof (flog2_mono x y Hx Hxy) as Hf.
  destruct (Z.eq_dec (Z.max (Double.flog2 x) (-1022))
                     (Z.max (Double.flog2 y) (-1022))) as [E|E].
  - unfold Double.round_pos. rewrite E.
    set (k := Z.max (Double.flog2 y) (-1022) - 52).
    pose proof (pow2_pos k) as Pk. pose proof (pow2_pos (- k)) as Pk'.
    assert (Hm : Num.round_half_even (x * Num.pow2 (- k))
                 <= Num.round_half_even (y * Num.pow2 (- k))).
    { apply round_half_even_mono. nra. }
    rewrite Zle_Qle in Hm. nra.
  - assert (Hlt : Z.max (Double.flog2 x) (-1022) < Double.flog2 y) by lia.
    destruct (flog2_spec x Hx) as [_ S2].
    eapply Qle_trans;
      [apply (round_pos_upper x (Z.max (Double.flog2 x) (-1022)) Hx);
       [|lia|lia]|].
    + apply Qlt_le_weak. eapply Qlt_le_trans; [exact S2|]. apply pow2_le. lia.
    + eapply Qle_trans; [|apply (round_pos_lower y Hy); lia].
      apply pow2_le. lia.
Qed.

Lemma round_pos_comp (x y : Q) :
  (0 < x)%Q -> (x == y)%Q -> (Double.round_pos x == Double.round_pos y)%Q.
Proof.
  intros Hx H. apply Qle_antisym; apply round_pos_mono; lra.
Qed.

(** The values of the binary64 grid are left as they are. *)
Lemma round_pos_fix (m k : Z) :
  0 < m < 2 ^ 53 -> -1074 <= k ->
  (Double.round_pos (inject_Z m * Num.pow2 k) == inject_Z m * Num.pow2 k)%Q.
Proof.
  intros Hm Hk. set (v := (inject_Z m * Num.pow2 k)%Q).
  pose proof (pow2_pos k) as Pk.
  assert (Hm1 : (1 <= inject_Z m)%Q)
    by (change 1%Q with (inject_Z 1); rewrite <- Zle_Qle; lia).
  assert (Hm2 : (inject_Z m < inject_Z (2 ^ 53))%Q)
    by (rewrite <- Zlt_Qlt; lia).
  assert (Hv : (0 < v)%Q) by (subst v; nra).
  assert (Hf : Double.flog2 v <= k + 52).
  { destruct (flog2_spec v Hv) as [S1 _].
    assert (Double.flog2 v < k + 53); [|lia].
    apply pow2_lt_inv. eapply Qle_lt_trans; [exact S1|].
    pose proof (pow2_add 53 k) as E. replace (53 + k) with (k + 53) in E by lia.
    rewrite E, (pow2_nonneg_Z 53) by lia. subst v. nra. }
  unfold Double.round_pos. fold v.
  set (k' := Z.max (Double.flog2 v) (-1022) - 52).
  assert (Hk' : k' <= k) by lia.
  assert (Ei : (v * Num.pow2 (- k') == inject_Z (m * 2 ^ (k - k')))%Q).
  { subst v. rewrite inject_Z_mult, <- (pow2_nonneg_Z (k - k')) by lia.
    replace (k - k') with (k + - k') by lia. rewrite pow2_add. ring. }
  rewrite (round_half_even_comp _ _ Ei), round_half_even_Z.
  rewrite inject_Z_mult, <- (pow2_nonneg_Z (k - k')) by lia.
  subst v. rewrite <- Qmult_assoc, <- pow2_add.
  replace (k - k' + k') with k by lia. reflexivity.
Qed.

(** What a positive rational rounds to is zero or on the grid. *)
Lemma round_pos_grid (x : Q) :
  (0 < x)%Q -> (0 < Double.round_pos x)%Q ->
  exists m k,
    0 < m < 2 ^ 53 /\ -1074 <= k
    /\ (Double.round_pos x == inject_Z m * Num.pow2 k)%Q.
Proof.
  intros Hx Hr.
  set (e := Z.max (Double.flog2 x) (-1022)). set (k := e - 52).
  set (m := Num.round_half_even (x * Num.pow2 (- k))).
  assert (E : Double.round_pos x = (inject_Z m * Num.pow2 k)%Q) by reflexivity.
  pose proof (pow2_pos k) as Pk.
  assert (Hm0 : 0 < m).
  { rewrite E in Hr. destruct (Z.lt_ge_cases 0 m) as [H|H]; [exact H|].
    rewrite Zle_Qle in H. change (inject_Z 0) with 0%Q in H. nra. }
  assert (Hm : m <= 2 ^ 53).
  { destruct (flog2_spec x Hx) as [_ S2].
    pose proof (round_pos_upper x e Hx) as U.
    assert (Hxe : (x <= Num.pow2 (e + 1))%Q).
    { apply Qlt_le_weak. eapply Qlt_le_trans; [exact S2|]. apply pow2_le. lia. }
    specialize (U Hxe ltac:(lia) ltac:(lia)). rewrite E in U.
    pose proof (pow2_add 53 k) as A. replace (53 + k) with (e + 1) in A by lia.
    rewrite A, (pow2_nonneg_Z 53) in U by lia.
    destruct (Z.le_gt_cases m (2 ^ 53)) as [H|H]; [exact H|].
    rewrite Zlt_Qlt in H. nra. }
  destruct (Z.eq_dec m (2 ^ 53)) as [Em|Ne].
  - exists (2 ^ 52), (k + 1). split; [lia|]. split; [lia|].
    rewrite E, Em, pow2_add.
    change (Num.pow2 1) with 2%Q. 
    change (inject_Z (2 ^ 53)) with (inject_Z (2 ^ 52) * 2)%Q at 1. ring.
  - exists m, k. split; [lia|]. split; [lia|]. rewrite E. reflexivity.
Qed.

Lemma round_pos_idem (x : Q) :
  (0 < x)%Q -> (0 < Double.round_pos x)%Q ->
  (Double.round_pos (Double.round_pos x) == Double.round_pos x)%Q.
Proof.
  intros Hx Hr. destruct (round_pos_grid x Hx Hr) as (m & k & Hm & Hk & E).
  rewrite (round_pos_comp _ _ Hr E), E. apply round_pos_fix; assumption.
Qed.

(** The conversion of a positive rational. *)
Lemma of_Q_pos (q : Q) :
  (0 < q)%Q ->
  (Double.of_Q q = Double.Inf false /\ (Num.pow2 1024 <= Double.round_pos q)%Q)
  \/ Double.of_Q q = Double.Fin 0
  \/ exists a, Double.of_Q q = Double.Fin a
               /\ (a == Double.round_pos q)%Q /\ (0 < a)%Q.
Proof.
  intros Hq. unfold Double.of_Q.
  destruct (Qeqb_spec q 0) as [E|_]; [lra|].
  destruct (Qltb_spec q 0) as [L|_]; [lra|].
  destruct (Qleb_spec (Num.pow2 1024) (Double.round_pos q)) as [O|_];
    [left; split; [reflexivity | exact O]|].
  right. destruct (Qeqb_spec (Double.round_pos q) 0) as [Z|NZ];
    [left; reflexivity|].
  right. exists (Qred (Double.round_pos q)). split; [reflexivity|].
  split; [apply Qred_correct|]. rewrite Qred_correct.
  pose proof (round_pos_nonneg q ltac:(lra)). lra.
Qed.

Lemma scale10_nonneg (m k : Z) : 0 <= m -> (0 <= Num.scale10 m k)%Q.
Proof.
  intros H. unfold Num.scale10, Qle. destruct (0 <=? k); simpl; nia.
Qed.

Lemma parse_unsigned_decimal_nonneg (s : string) (v : Q) :
  Num.parse_unsigned_decimal s = Some v -> (0 <= v)%Q.
Proof.
  unfold Num.parse_unsigned_decimal.
  destruct (Num.span_digits s) as [ip r1] eqn:E1.
  set (rest := match r1 with
               | String "."%char r => Num.span_digits r
               | _ => ([], r1)
               end).
  assert (Hrest : Forall (fun d => 0 <= d) (fst rest)).
  { subst rest. destruct r1 as [|c r]; [constructor|].
    destruct (Ascii.eqb_spec c "."%char) as [->|Hne].
    - destruct (Num.span_digits r) as [fp r2] eqn:E2. simpl.
      eapply span_digits_nonneg, E2.
    - destruct c as [[] [] [] [] [] [] [] []]; try constructor.
      contradiction Hne. reflexivity. }
  destruct rest as [fp r2]. simpl in Hrest.
  assert (Hip : Forall (fun d => 0 <= d) ip) by (eapply span_digits_nonneg, E1).
  destruct (ip ++ fp)%list as [|d ds] eqn:E; [discriminate|].
  destruct (Num.parse_exponent _ r2) as [e|]; [|discriminate].
  simpl. intros [= <-]. apply scale10_nonneg, digits_value_nonneg.
  rewrite <- E. apply Forall_app. split; assumption.
Qed.

Lemma fold_hex_nonneg (ds : list Z) (acc : Z) :
  0 <= acc -> Forall (fun d => 0 <= d) ds ->
  0 <= fold_left (fun a d => a * 16 + d) ds acc.
Proof.
  revert acc. induction ds as [|d r IH]; simpl; intros acc Hacc Hd;
    [exact Hacc|].
  inversion Hd; subst. apply IH; [lia | assumption].
Qed.

Lemma hex_digit_of_nonneg (c : ascii) (d : Z) :
  Num.hex_digit_of c = Some d -> 0 <= d.
Proof.
  unfold Num.hex_digit_of.
  repeat match goal with
  | |- context [?a && ?b] => destruct (a && b) eqn:?
  end; intros [= <-];
  repeat match goal with
  | H : _ && _ = true |- _ => apply andb_true_iff in H as [?%Z.leb_le ?%Z.leb_le]
  end; lia.
Qed.

Lemma span_hex_nonneg (s : string) (ds : list Z) (rest : string) :
  Num.span_hex s = (ds, rest) -> Forall (fun d => 0 <= d) ds.
Proof.
  revert ds rest. induction s as [|c r IH]; simpl; intros ds rest.
  - intros [= <- <-]. constructor.
  - destruct (Num.hex_digit_of c) as [d|] eqn:Hc.
    + destruct (Num.span_hex r) as [ds' rest'] eqn:E.
      intros [= <- <-]. constructor; [|eapply IH; reflexivity].
      eapply hex_digit_of_nonneg, Hc.
    + intros [= <- <-]. constructor.
Qed.

Lemma parse_unsigned_hex_nonneg (s : string) (v : Q) :
  Num.parse_unsigned_hex s = Some v -> (0 <= v)%Q.
Proof.
  unfold Num.parse_unsigned_hex.
  destruct (Num.span_hex s) as [ip r1] eqn:E1.
  set (rest := match r1 with
               | String "."%char r => Num.span_hex r
               | _ => ([], r1)
               end).
  assert (Hrest : Forall (fun d => 0 <= d) (fst rest)).
  { subst rest. destruct r1 as [|c r]; [constructor|].
    destruct (Ascii.eqb_spec c "."%char) as [->|Hne].
    - destruct (Num.span_hex r) as [fp r2] eqn:E2. simpl.
      eapply span_hex_nonneg, E2.
    - destruct c as [[] [] [] [] [] [] [] []]; try constructor.
      contradiction Hne. reflexivity. }
  destruct rest as [fp r2]. simpl in Hrest.
  assert (Hip : Forall (fun d => 0 <= d) ip) by (eapply span_hex_nonneg, E1).
  destruct (ip ++ fp)%list as [|d ds] eqn:E; [discriminate|].
  destruct (Num.parse_exponent _ r2) as [e|]; [|discriminate].
  simpl. intros [= <-].
  assert (H : 0 <= Num.hex_digits_value (d :: ds)).
  { unfold Num.hex_digits_value. apply fold_hex_nonneg; [lia|].
    rewrite <- E. apply Forall_app. split; assumption. }
  rewrite Zle_Qle in H. change (inject_Z 0) with 0%Q in H.
  pose proof (pow2_pos (e - 4 * Z.of_nat (length fp))). nra.
Qed.

(** What the standard parser reads from a text without a minus sign: NaN,
    positive infinity, positive zero, or a positive value of the binary64
    grid. *)
Lemma parse_unsigned (text : string) (w : Double.t) :
  Str.mem_char "-" text = false ->
  Double.parse text = Some w ->
  w = Double.NaN \/ w = Double.Inf false \/ w = Double.Fin 0
  \/ exists a, w = Double.Fin a /\ (0 < a)%Q
               /\ (Double.round_pos a == a)%Q.
Proof.
  intros Hs. unfold Double.parse.
  set (sb := match text with
             | String "-"%char r => (true, r)
             | String "+"%char r => (false, r)
             | _ => (false, text)
             end).
  assert (Hneg : fst sb = false).
  { subst sb. destruct text as [|c r]; [reflexivity|].
    destruct c as [[] [] [] [] [] [] [] []]; try reflexivity.
    simpl in Hs. discriminate. }
  destruct sb as [negative body]. simpl in Hneg. subst negative.
  destruct (_ || _); [intros [= <-]; right; left; reflexivity|].
  destruct (Double.is_nan_text _); [intros [= <-]; left; reflexivity|].
  set (m := match body with
            | String "0"%char (String x r) =>
                if Ascii.eqb x "x"%char || Ascii.eqb x "X"%char
                then Num.parse_unsigned_hex r
                else Num.parse_unsigned_decimal body
            | _ => Num.parse_unsigned_decimal body
            end).
  assert (Hm : forall v, m = Some v -> (0 <= v)%Q).
  { intros v. subst m.
    assert (D : Num.parse_unsigned_decimal body = Some v -> (0 <= v)%Q)
      by apply parse_unsigned_decimal_nonneg.
    destruct body as [|c0 rest]; [exact D|].
    destruct (Ascii.eqb_spec c0 "0"%char) as [->|Hne].
    - destruct rest as [|x r]; [exact D|].
      destruct (_ || _); [apply parse_unsigned_hex_nonneg | exact D].
    - destruct c0 as [[] [] [] [] [] [] [] []]; try exact D.
      contradiction Hne. reflexivity. }
  destruct m as [v|]; [|discriminate]. simpl.
  specialize (Hm v eq_refl).
  destruct (Qeqb_spec v 0) as [Z|NZ]; intros [= <-];
    [right; right; left; reflexivity|].
  assert (Hv : (0 < v)%Q) by lra.
  destruct (of_Q_pos v Hv) as [[-> _]|[->|(a & -> & Ea & Ha)]].
  - right; left; reflexivity.
  - right; right; left; reflexivity.
  - right; right; right. exists a. split; [reflexivity|]. split; [exact Ha|].
    assert (Hr : (0 < Double.round_pos v)%Q) by lra.
    rewrite (round_pos_comp a _ Ha Ea), Ea. apply round_pos_idem; assumption.
Qed.

Lemma round_pos_1 : (Double.round_pos 1 == 1)%Q.
Proof. vm_compute. reflexivity. Qed.

(** The rate of two values read from texts without a minus sign. *)
Lemma rate_cases (w l : Double.t) :
  (w = Double.NaN \/ w = Double.Inf false \/ w = Double.Fin 0
   \/ exists a, w = Double.Fin a /\ (0 < a)%Q /\ (Double.round_pos a == a)%Q) ->
  (l = Double.NaN \/ l = Double.Inf false \/ l = Double.Fin 0
   \/ exists b, l = Double.Fin b /\ (0 < b)%Q /\ (Double.round_pos b == b)%Q) ->
  let r := if Double.ltb Double.zero (Double.add w l)
           then Double.div w (Double.add w l) else Double.zero in
  (r = Double.NaN /\ w = Double.Inf false /\ Double.isNaN l = false)
  \/ exists q, r = Double.Fin q /\ (0 <= q)%Q /\ (q <= 1)%Q.
Proof.
  assert (Z0 : exists q, Double.zero = Double.Fin q /\ (0 <= q)%Q /\ (q <= 1)%Q)
    by (exists 0%Q; repeat split; discriminate).
  assert (Fin_rate : forall a b,
            (0 <= a)%Q -> (a == 0 \/ Double.round_pos a == a)%Q -> (0 <= b)%Q ->
            let r := if Double.ltb Double.zero (Double.add (Double.Fin a) (Double.Fin b))
                     then Double.div (Double.Fin a)
                            (Double.add (Double.Fin a) (Double.Fin b))
                     else Double.zero in
            exists q, r = Double.Fin q /\ (0 <= q)%Q /\ (q <= 1)%Q).
  { intros a b Ha Hga Hb. cbn [Double.add Double.value].
    destruct (Qeq_dec (a + b) 0) as [E|NE].
    - unfold Double.of_Q. destruct (Qeqb_spec (a + b) 0); [|contradiction].
      simpl. exact Z0.
    - assert (Hab : (0 < a + b)%Q) by lra.
      destruct (of_Q_pos (a + b) Hab) as [[-> _]|[->|(t & -> & Et & Ht)]].
      + simpl. destruct (Qltb_spec a 0); [lra|]. exact Z0.
      + simpl. exact Z0.
      + cbn [Double.ltb Double.zero Double.value].
        destruct (Qltb_spec 0 t); [|lra].
        cbn [Double.div Double.value Double.signbit].
        destruct (Qeqb_spec t 0); [lra|].
        destruct (Qeqb_spec a 0) as [Ea|Na].
        * destruct (Qltb_spec a 0); [lra|]. destruct (Qltb_spec t 0); [lra|].
          exact Z0.
        * assert (Ha' : (0 < a)%Q) by lra.
          destruct Hga as [Hga|Hga]; [contradiction|].
          assert (Hat : (a <= t)%Q).
          { pose proof (round_pos_mono a (a + b) Ha' ltac:(lra)). lra. }
          assert (Hq : (0 < a / t)%Q) by (apply Qlt_shift_div_l; lra).
          assert (Hq1 : (a / t <= 1)%Q) by (apply Qle_shift_div_r; lra).
          pose proof (round_pos_mono (a / t) 1 Hq Hq1) as M.
          rewrite round_pos_1 in M.
          destruct (of_Q_pos (a / t) Hq) as [[_ O]|[->|(r & -> & Er & Hr)]].
          -- exfalso. assert (P : (1 < Num.pow2 1024)%Q) by reflexivity. lra.
          -- exact Z0.
          -- exists r. split; [reflexivity|]. split; lra. }
  intros Hw Hl r. subst r.
  destruct Hw as [->|[->|[->|(a & -> & Ha & Hga)]]].
  - right. simpl. exact Z0.
  - destruct Hl as [->|[->|[->|(b & -> & Hb & Hgb)]]].
    + right. simpl. exact Z0.
    + left. simpl. repeat split.
    + left. simpl. repeat split.
    + left. simpl. repeat split.
  - right. destruct Hl as [->|[->|[->|(b & -> & Hb & Hgb)]]].
    + simpl. exact Z0.
    + simpl. exact Z0.
    + apply Fin_rate; [lra | left; reflexivity | lra].
    + apply Fin_rate; [lra | left; reflexivity | lra].
  - right. destruct Hl as [->|[->|[->|(b & -> & Hb & Hgb)]]].
    + simpl. exact Z0.
    + simpl. destruct (Qltb_spec a 0); [lra|]. exact Z0.
    + apply Fin_rate; [lra | right; exact Hga | lra].
    + apply Fin_rate; [lra | right; exact Hga | lra].
Qed.

(** X17: the last-ten win rate is a number between 0 and 1, or NaN; it is
    NaN only when the text before the hyphen reads as infinity, and it is 0
    for a text that does not split on the hyphen into exactly two parts. *)
Theorem X17_winRate_is_a_rate (record : string) :
  (TeamStanding.winRate record = Double.NaN
   \/ exists q, TeamStanding.winRate record = Double.Fin q
                /\ (0 <= q)%Q /\ (q <= 1)%Q)
  /\ (TeamStanding.winRate record = Double.NaN ->
      exists wins losses l,
        Str.split "-" record = [wins; losses]
        /\ Double.parse wins = Some (Double.Inf false)
        /\ Double.parse losses = Some l /\ Double.isNaN l = false)
  /\ (length (Str.split "-" record) <> 2%nat ->
      TeamStanding.winRate record = Double.zero).
Proof.
  assert (Z0 : exists q, Double.zero = Double.Fin q /\ (0 <= q)%Q /\ (q <= 1)%Q)
    by (exists 0%Q; repeat split; discriminate).
  unfold TeamStanding.winRate.
  pose proof (split_go_no_separator "-" record "" eq_refl) as Hparts.
  fold (Str.split "-" record) in Hparts.
  destruct (Str.split "-" record) as [|c0 [|c1 [|c2 rest]]];
    try (split; [right; exact Z0|]; split; [discriminate | reflexivity]).
  inversion Hparts as [|? ? H0 Hparts']; subst.
  inversion Hparts' as [|? ? H1 _]; subst.
  destruct (Double.parse c0) as [w|] eqn:Ew;
    [|split; [right; exact Z0|]; split; [discriminate|];
      intros H; exfalso; apply H; reflexivity].
  destruct (Double.parse c1) as [l|] eqn:El;
    [|split; [right; exact Z0|]; split; [discriminate|];
      intros H; exfalso; apply H; reflexivity].
  pose proof (rate_cases w l (parse_unsigned c0 w H0 Ew)
                (parse_unsigned c1 l H1 El)) as R.
  cbv zeta in R. split; [|split].
  - destruct R as [(R & _)|R]; [left; exact R | right; exact R].
  - intros HN. destruct R as [(_ & -> & Hl)|(q & R & _)]; [|congruence].
    exists c0, c1, l. repeat split; assumption.
  - intros H. exfalso. apply H. reflexivity.
Qed.

(** The witness of X17: a record text with three parts. *)
Lemma X17_winRate_is_a_rate_witness :
  TeamStanding.winRate "8-2-1" = Double.zero
  /\ TeamStanding.winRate "8-2" = Double.of_Q 0.8
  /\ TeamStanding.winRate "inf-2" = Double.NaN.
Proof.
  split; [|split; vm_compute; reflexivity].
  apply (X17_winRate_is_a_rate "8-2-1"). vm_compute. discriminate.
Defined.

(** X18: a situational split is built exactly when the raw split carries both
    its wins and its losses; it then carries those counts, and its percentage
    is the tolerant parse of the percentage text, 0 when that is absent or
    does not parse. *)
Theorem X18_recordSplit_needs_wins_and_losses (split : option Split.t) :
  (is_Some (RecordSplit.init split) <->
   exists raw w l,
     split = Some raw /\ Split.wins raw = Some w /\ Split.losses raw = Some l)
  /\ (forall r,
        RecordSplit.init split = Some r ->
        exists raw,
          split = Some raw
          /\ Split.wins raw = Some (RecordSplit.wins r)
          /\ Split.losses raw = Some (RecordSplit.losses r)
          /\ RecordSplit.percentage r
             = default Double.zero (Double_init (Split.pct raw))).
Proof.
  assert (Hnone : forall sp : option Split.t,
            RecordSplit.init sp = None ->
            (forall raw w l, sp = Some raw -> Split.wins raw = Some w ->
                             Split.losses raw = Some l -> False) ->
            (is_Some (RecordSplit.init sp) <->
             exists raw w l,
               sp = Some raw /\ Split.wins raw = Some w /\ Split.losses raw = Some l)
            /\ (forall r,
                  RecordSplit.init sp = Some r ->
                  exists raw,
                    sp = Some raw
                    /\ Split.wins raw = Some (RecordSplit.wins r)
                    /\ Split.losses raw = Some (RecordSplit.losses r)
                    /\ RecordSplit.percentage r
                       = default Double.zero (Double_init (Split.pct raw)))).
  { intros sp Hn Habs. rewrite Hn. split.
    - split; [intros [x Hx]; discriminate|].
      intros (raw & w & l & H1 & H2 & H3). exfalso. eauto.
    - intros r Hr. discriminate. }
  destruct split as [[[w|] [l|] p]|].
  - split.
    + split; [intros _; exists (Split.mk (Some w) (Some l) p), w, l; repeat split|].
      intros _. eexists. reflexivity.
    + intros r [= <-]. exists (Split.mk (Some w) (Some l) p). repeat split.
  - apply Hnone; [reflexivity|]. intros raw w' l' [= <-] _ Hl. discriminate.
  - apply Hnone; [reflexivity|]. intros raw w' l' [= <-] Hw _. discriminate.
  - apply Hnone; [reflexivity|]. intros raw w' l' [= <-] Hw _. discriminate.
  - apply Hnone; [reflexivity|]. intros raw w' l' [=].
Qed.

(** The witness of X18: a raw split with wins, losses and a percentage that
    omits the leading zero. *)
Lemma X18_recordSplit_needs_wins_and_losses_witness :
  RecordSplit.init (Some (Split.mk (Some 35) (Some 14) (Some ".714")))
  = Some (RecordSplit.mk 35 14 (Double.of_Q 0.714))
  /\ RecordSplit.init (Some (Split.mk (Some 35) None (Some ".714"))) = None.
Proof.
  split; [vm_compute; reflexivity|].
  destruct (X18_recordSplit_needs_wins_and_losses
              (Some (Split.mk (Some 35) None (Some ".714")))) as [[H _] _].
  destruct (RecordSplit.init (Some (Split.mk (Some 35) None (Some ".714"))))
    as [r|] eqn:E; [|reflexivity].
  destruct H as (raw & w & l & [= <-] & _ & Hl); [eexists; reflexivity|].
  discriminate Hl.
Defined.

(** X19: when the raw streak has no code but a positive number, the streak
    code the normalizer synthesizes is the text [streakDescription] shows:
    "W" or "L", by the streak type, followed by the number. *)
Theorem X19_synthesized_streak_code_matches_description
    (record : TeamRecord.t) (league : option LeagueInfo.t)
    (division : option DivisionInfo.t) (season : Z)
    (code : option string) (number : Z) (type : option string) :
  TeamRecord.streak record = Some (Streak.mk code (Some number) type) ->
  code = None \/ code = Some "" ->
  0 < number ->
  let team := TeamStanding.init record league division season in
  TeamStanding.streakCount team = number
  /\ TeamStanding.streakCode team = TeamStanding.streakDescription team
  /\ TeamStanding.streakCode team
     = (if TeamStanding.streakIsWin team then "W" else "L") ++ pretty number.
Proof.
  intros Hs Hc Hn team. subst team.
  unfold TeamStanding.streakDescription, TeamStanding.init. simpl.
  rewrite Hs. simpl.
  assert (Hpos : (0 <? number) = true) by (apply Z.ltb_lt; exact Hn).
  destruct Hc as [-> | ->]; simpl; rewrite Hpos;
    destruct type as [ty|]; simpl;
    try destruct (String.eqb (Str.lowercased ty) "wins"); simpl; repeat split.
Qed.

(** The witness of X19: three wins in a row, reported without a code. *)
Lemma X19_synthesized_streak_code_matches_description_witness :
  let record :=
    TeamRecord.mk
      (TeamInfo.mk 147 "New York Yankees" None None None None (Some "NYY") None)
      (Some (Streak.mk None (Some 3) (Some "wins")))
      None None None None 62 30 ".674" None None None None None None None None
      None in
  TeamStanding.streakCode (TeamStanding.init record None None 2024) = "W3"
  /\ TeamStanding.streakDescription (TeamStanding.init record None None 2024) = "W3".
Proof.
  intros record.
  destruct (X19_synthesized_streak_code_matches_description record None None 2024
              None 3 (Some "wins")) as (_ & H2 & H3);
    [reflexivity | left; reflexivity | lia |].
  split; [exact H3 | rewrite <- H2; exact H3].
Defined.

(** X20: every section the normalizer builds has its identifier equal to its
    division identifier; with a division descriptor these are the
    descriptor's, with its name as title; without one the division
    identifier is the league identifier times 100 plus 1 and the title is the
    league name; every team of the section carries the section's season and
    league identifier, and the descriptor's division identifier, which is 0,
    not the section's, when the descriptor is missing. *)
Theorem X20_section_identifiers_are_derived
    (currentSeason : Z) (record : DivisionRecord.t) (s : StandingsSection.t) :
  StandingsSection.init currentSeason record = Some s ->
  StandingsSection.id s = StandingsSection.divisionID s
  /\ match DivisionRecord.division record with
     | Some d =>
         StandingsSection.divisionID s = DivisionInfo.id d
         /\ StandingsSection.title s = DivisionInfo.name d
     | None =>
         StandingsSection.divisionID s = StandingsSection.leagueID s * 100 + 1
         /\ StandingsSection.title s = StandingsSection.leagueName s
     end
  /\ StandingsSection.season s
     = default currentSeason
         (Num.stdInt (default "" (DivisionRecord.season record)))
  /\ Forall
       (fun t =>
          TeamStanding.season t = StandingsSection.season s
          /\ TeamStanding.leagueID t = StandingsSection.leagueID s
          /\ TeamStanding.divisionID t
             = match DivisionRecord.division record with
               | Some _ => StandingsSection.divisionID s
               | None => 0
               end)
       (StandingsSection.teams s).
Proof.
  unfold StandingsSection.init.
  destruct (DivisionRecord.division record) as [d|] eqn:Hd; simpl.
  - intros [= <-]. simpl. repeat split.
    apply Forall_forall. intros t Ht. apply list_elem_of_In, in_map_iff in Ht.
    destruct Ht as (r & <- & _). simpl. repeat split.
  - set (lid := default 0 (LeagueInfo.id <$> DivisionRecord.league record)).
    unfold Num.checked.
    destruct (Num.in_Int (lid * 100)); [|discriminate]. simpl.
    destruct (Num.in_Int (lid * 100 + 1)); [|discriminate]. simpl.
    intros [= <-]. simpl. repeat split.
    apply Forall_forall. intros t Ht. apply list_elem_of_In, in_map_iff in Ht.
    destruct Ht as (r & <- & _). simpl. repeat split.
Qed.

(** The witness of X20: a division record of the American League without a
    division descriptor. *)
Lemma X20_section_identifiers_are_derived_witness :
  exists s,
    StandingsSection.init 2024
      (DivisionRecord.mk [Examples.teamRecordOf ".674" None] None
         (Some (LeagueInfo.mk 103 "American League" None)) None) = Some s
    /\ StandingsSection.divisionID s = 10301
    /\ StandingsSection.title s = "American League"
    /\ List.map TeamStanding.divisionID (StandingsSection.teams s) = [0].
Proof.
  eexists. split; [reflexivity|].
  pose proof (X20_section_identifiers_are_derived 2024
                (DivisionRecord.mk [Examples.teamRecordOf ".674" None] None
                   (Some (LeagueInfo.mk 103 "American League" None)) None)
                _ eq_refl) as (_ & [H1 H2] & _ & H3).
  split; [exact H1|]. split; [exact H2|].
  reflexivity.
Defined.

Lemma hasPrefix_app (q b : string) : Str.hasPrefix q (q ++ b) = true.
Proof.
  induction q as [|c r IH]; simpl; [reflexivity|].
  now rewrite Ascii.eqb_refl, IH.
Qed.

Lemma contains_app (a q b : string) : Str.contains (a ++ q ++ b) q = true.
Proof.
  induction a as [|c r IH]; simpl.
  - destruct (q ++ b) eqn:E; simpl.
    + destruct q; [reflexivity | discriminate].
    + rewrite <- E, hasPrefix_app. reflexivity.
  - rewrite IH. apply orb_true_r.
Qed.

Lemma lowercased_app (a b : string) :
  Str.lowercased (a ++ b) = Str.lowercased a ++ Str.lowercased b.
Proof.
  unfold Str.lowercased. induction a as [|c r IH]; simpl; [reflexivity|].
  now rewrite IH.
Qed.

Lemma caseInsensitiveContains_app (a w b q : string) :
  Str.lowercased w = Str.lowercased q ->
  Str.localizedCaseInsensitiveContains (a ++ w ++ b) q = true.
Proof.
  intros H. unfold Str.localizedCaseInsensitiveContains.
  rewrite !lowercased_app, H. apply contains_app.
Qed.

(** X21: the league abbreviation of a section is the explicit abbreviation
    of the league when there is one; otherwise it is "AL" when the league
    name contains "American" in any letter case, "NL" when it does not but
    contains "National" in any letter case, and a section without league is
    "MLB". *)
Theorem X21_league_abbreviation_is_inferred
    (currentSeason : Z) (record : DivisionRecord.t) (s : StandingsSection.t) :
  StandingsSection.init currentSeason record = Some s ->
  (forall league explicit,
     DivisionRecord.league record = Some league ->
     LeagueInfo.abbreviation league = Some explicit ->
     StandingsSection.leagueAbbreviation s = explicit)
  /\ (forall league before word after,
        DivisionRecord.league record = Some league ->
        LeagueInfo.abbreviation league = None ->
        LeagueInfo.name league = before ++ word ++ after ->
        Str.lowercased word = "american" ->
        StandingsSection.leagueAbbreviation s = "AL")
  /\ (forall league before word after,
        DivisionRecord.league record = Some league ->
        LeagueInfo.abbreviation league = None ->
        LeagueInfo.name league = before ++ word ++ after ->
        Str.lowercased word = "national" ->
        Str.localizedCaseInsensitiveContains (LeagueInfo.name league) "American"
        = false ->
        StandingsSection.leagueAbbreviation s = "NL")
  /\ (DivisionRecord.league record = None ->
      StandingsSection.leagueAbbreviation s = "MLB"
      /\ StandingsSection.leagueName s = "Major League Baseball"
      /\ StandingsSection.leagueID s = 0).
Proof.
  unfold StandingsSection.init.
  match goal with |- context [mbind _ ?m] => destruct m as [divisionId|] end;
    [|discriminate].
  simpl. intros [= <-]. simpl. split; [|split; [|split]].
  - intros league explicit -> Ha. simpl. now rewrite Ha.
  - intros league before word after -> Ha Hn Hw. simpl. rewrite Ha, Hn.
    rewrite caseInsensitiveContains_app by exact Hw. reflexivity.
  - intros league before word after -> Ha Hn Hw Hno. simpl. rewrite Ha.
    rewrite Hno, Hn. rewrite caseInsensitiveContains_app by exact Hw.
    reflexivity.
  - intros ->. simpl. repeat split.
Qed.

(** The witness of X21: a league named in capitals, without abbreviation. *)
Lemma X21_league_abbreviation_is_inferred_witness :
  exists s,
    StandingsSection.init 2024
      (DivisionRecord.mk [] None (Some (LeagueInfo.mk 104 "THE NATIONAL LEAGUE" None))
         None) = Some s
    /\ StandingsSection.leagueAbbreviation s = "NL".
Proof.
  eexists. split; [reflexivity|].
  pose proof (X21_league_abbreviation_is_inferred 2024
                (DivisionRecord.mk [] None
                   (Some (LeagueInfo.mk 104 "THE NATIONAL LEAGUE" None)) None)
                _ eq_refl) as (_ & _ & H & _).
  apply (H (LeagueInfo.mk 104 "THE NATIONAL LEAGUE" None) "THE " "NATIONAL" " LEAGUE");
    reflexivity.
Defined.

(* ===================================================================== *)
(** ** Team palettes and colors *)
(* ===================================================================== *)

Lemma upper_lower_char (c : ascii) :
  Str.upper_char (Str.lower_char c) = Str.upper_char c.
Proof. destruct c as [[] [] [] [] [] [] [] []]; reflexivity. Qed.

Lemma upper_upper_char (c : ascii) :
  Str.upper_char (Str.upper_char c) = Str.upper_char c.
Proof. destruct c as [[] [] [] [] [] [] [] []]; reflexivity. Qed.

Lemma uppercased_lowercased (s : string) :
  Str.uppercased (Str.lowercased s) = Str.uppercased s.
Proof.
  unfold Str.uppercased, Str.lowercased.
  induction s as [|c r IH]; simpl; [reflexivity|].
  now rewrite upper_lower_char, IH.
Qed.

Lemma uppercased_idem (s : string) :
  Str.uppercased (Str.uppercased s) = Str.uppercased s.
Proof.
  unfold Str.uppercased. induction s as [|c r IH]; simpl; [reflexivity|].
  now rewrite upper_upper_char, IH.
Qed.

Lemma palettes_keys :
  Forall (fun p => TeamBranding.abbreviation (snd p) = fst p) TeamBranding.palettes.
Proof. unfold TeamBranding.palettes. repeat constructor. Qed.

(** X15: the palette of a team does not depend on the letter case of its
    abbreviation, and it is either the default palette or the palette filed
    under the uppercased abbreviation, which it names. *)
Theorem X15_palette_lookup_ignores_case (abbreviation : string) :
  TeamBranding.palette (Str.lowercased abbreviation)
  = TeamBranding.palette abbreviation
  /\ TeamBranding.palette (Str.uppercased abbreviation)
     = TeamBranding.palette abbreviation
  /\ (TeamBranding.palette abbreviation = TeamBranding.defaultPalette
      \/ TeamBranding.abbreviation (TeamBranding.palette abbreviation)
         = Str.uppercased abbreviation).
Proof.
  unfold TeamBranding.palette.
  rewrite uppercased_lowercased, uppercased_idem.
  split; [reflexivity|]. split; [reflexivity|].
  destruct (List.find _ TeamBranding.palettes) as [p|] eqn:E; [|left; reflexivity].
  right. apply List.find_some in E as [Hin Hk].
  apply String.eqb_eq in Hk. rewrite <- Hk.
  pose proof palettes_keys as H. rewrite List.Forall_forall in H.
  apply H, Hin.
Qed.

Lemma hex_value_bounds (c : ascii) (d : Z) :
  Color.hex_value c = Some d -> 0 <= d < 16.
Proof.
  unfold Color.hex_value.
  repeat match goal with
  | |- context [?a && ?b] => destruct (a && b) eqn:?
  end; intros [= <-];
  repeat match goal with
  | H : _ && _ = true |- _ => apply andb_true_iff in H as [?%Z.leb_le ?%Z.leb_le]
  end; lia.
Qed.

Lemma hex_value_alnum (c : ascii) (d : Z) :
  Color.hex_value c = Some d -> Color.is_alnum c = true.
Proof.
  unfold Color.hex_value, Color.is_alnum.
  destruct ((48 <=? Str.code c) && (Str.code c <=? 57)) eqn:E1; [reflexivity|].
  destruct ((65 <=? Str.code c) && (Str.code c <=? 70)) eqn:E2.
  - intros _. apply andb_true_iff in E2 as [H1%Z.leb_le H2%Z.leb_le].
    replace ((65 <=? Str.code c) && (Str.code c <=? 90)) with true;
      [reflexivity|].
    symmetry. apply andb_true_iff. split; apply Z.leb_le; lia.
  - destruct ((97 <=? Str.code c) && (Str.code c <=? 102)) eqn:E3; [|discriminate].
    intros _. apply andb_true_iff in E3 as [H1%Z.leb_le H2%Z.leb_le].
    replace ((97 <=? Str.code c) && (Str.code c <=? 122)) with true;
      [apply orb_true_r|].
    symmetry. apply andb_true_iff. split; apply Z.leb_le; lia.
Qed.

Lemma scan_digits_bound (s : string) (acc : Z) (k : nat) :
  0 <= acc < 16 ^ Z.of_nat k ->
  0 <= Color.scan_digits acc s < 16 ^ Z.of_nat (k + String.length s).
Proof.
  revert acc k. induction s as [|c r IH]; intros acc k Hacc; simpl.
  - now rewrite Nat.add_0_r.
  - destruct (Color.hex_value c) as [d|] eqn:Hd.
    + apply hex_value_bounds in Hd.
      replace (k + S (String.length r))%nat with (S k + String.length r)%nat by lia.
      apply IH. rewrite Nat2Z.inj_succ, Z.pow_succ_r by lia.
      unfold Color.UInt64_max. lia.
    + split; [lia|]. eapply Z.lt_le_trans; [apply Hacc|].
      apply Z.pow_le_mono_r; lia.
Qed.

Lemma scan_digits_0_bound (s : string) :
  0 <= Color.scan_digits 0 s < 16 ^ Z.of_nat (String.length s).
Proof. apply (scan_digits_bound s 0 0). simpl. lia. Qed.

Lemma pow16_mono (a b : nat) : (a <= b)%nat -> 16 ^ Z.of_nat a <= 16 ^ Z.of_nat b.
Proof. intros H. apply Z.pow_le_mono_r; lia. Qed.

Lemma scanHexInt64_bound (s : string) :
  0 <= Color.scanHexInt64 s < 16 ^ Z.of_nat (String.length s).
Proof.
  assert (Hpos : forall n : nat, 0 < 16 ^ Z.of_nat n)
    by (intros n; apply Z.pow_pos_nonneg; lia).
  unfold Color.scanHexInt64. destruct s as [|c r]; [simpl; lia|].
  destruct (Ascii.eqb c "0"%char).
  - destruct (Color.starts_with_hex r).
    + pose proof (scan_digits_0_bound r) as H.
      pose proof (pow16_mono (String.length r) (String.length (String c r))) as M.
      simpl in M. simpl String.length. lia.
    + destruct r as [|x r']; [specialize (Hpos (String.length (String c ""))); lia|].
      destruct ((Ascii.eqb x "x"%char || Ascii.eqb x "X"%char)
                && Color.starts_with_hex r').
      * pose proof (scan_digits_0_bound r') as H.
        pose proof (pow16_mono (String.length r')
                      (String.length (String c (String x r')))) as M.
        simpl in M. simpl String.length. lia.
      * specialize (Hpos (String.length (String c (String x r')))). lia.
  - destruct (Color.starts_with_hex (String c r)).
    + apply scan_digits_0_bound.
    + specialize (Hpos (String.length (String c r))). lia.
Qed.

Lemma land_15 (x : Z) : Z.land x 15 = x mod 16.
Proof. change 15 with (Z.ones 4). now rewrite Z.land_ones by lia. Qed.

Lemma land_255 (x : Z) : Z.land x 255 = x mod 256.
Proof. change 255 with (Z.ones 8). now rewrite Z.land_ones by lia. Qed.

Lemma shiftr_div (x : Z) (n : Z) : 0 <= n -> Z.shiftr x n = x / 2 ^ n.
Proof. intros H. now apply Z.shiftr_div_pow2. Qed.

Lemma components_bounds (hex : string) :
  let '(r, g, b) := Color.components hex in
  0 <= r <= 255 /\ 0 <= g <= 255 /\ 0 <= b <= 255.
Proof.
  unfold Color.components.
  pose proof (scanHexInt64_bound (Color.sanitize hex)) as H.
  set (int := Color.scanHexInt64 (Color.sanitize hex)) in *.
  rewrite !land_15, !land_255, !shiftr_div by lia.
  change (2 ^ 4) with 16. change (2 ^ 8) with 256. change (2 ^ 16) with 65536.
  destruct (String.length (Color.sanitize hex)) as [|[|[|[|[|[|[|n]]]]]]];
    try (simpl; lia).
  - change (16 ^ Z.of_nat 3) with 4096 in H. cbv beta iota zeta.
    clearbody int. Z.div_mod_to_equations. lia.
  - change (16 ^ Z.of_nat 6) with 16777216 in H. cbv beta iota zeta.
    clearbody int. Z.div_mod_to_equations. lia.
Qed.

Lemma unit_of_byte (z : Z) :
  0 <= z <= 255 -> (0 <= inject_Z z / 255 /\ inject_Z z / 255 <= 1)%Q.
Proof.
  intros H. split.
  - apply Qle_shift_div_l; [reflexivity|]. unfold Qle. simpl. lia.
  - apply Qle_shift_div_r; [reflexivity|]. unfold Qle. simpl. lia.
Qed.

(** X22: whatever the text, [Color(hex:alpha:)] builds a color whose red,
    green and blue are between 0 and 1, from components between 0 and 255,
    with the opacity it was given; a text that is not three or six
    characters long after trimming gives the fallback color 26, 66, 142. *)
Theorem X22_color_components_are_in_range (hex : string) (alpha : Q) :
  (let '(r, g, b) := Color.components hex in
   0 <= r <= 255 /\ 0 <= g <= 255 /\ 0 <= b <= 255
   /\ Color.red (Color.init hex alpha) = (inject_Z r / 255)%Q
   /\ Color.green (Color.init hex alpha) = (inject_Z g / 255)%Q
   /\ Color.blue (Color.init hex alpha) = (inject_Z b / 255)%Q)
  /\ (0 <= Color.red (Color.init hex alpha) <= 1)%Q
  /\ (0 <= Color.green (Color.init hex alpha) <= 1)%Q
  /\ (0 <= Color.blue (Color.init hex alpha) <= 1)%Q
  /\ Color.opacity (Color.init hex alpha) = alpha
  /\ (String.length (Color.sanitize hex) <> 3%nat ->
      String.length (Color.sanitize hex) <> 6%nat ->
      Color.components hex = (26, 66, 142)).
Proof.
  pose proof (components_bounds hex) as H. unfold Color.init.
  destruct (Color.components hex) as [[r g] b] eqn:E. simpl.
  destruct H as (Hr & Hg & Hb).
  split; [repeat split; lia|].
  split; [apply unit_of_byte, Hr|]. split; [apply unit_of_byte, Hg|].
  split; [apply unit_of_byte, Hb|]. split; [reflexivity|].
  intros H3 H6. rewrite <- E. unfold Color.components.
  destruct (String.length (Color.sanitize hex)) as [|[|[|[|[|[|[|n]]]]]]];
    try reflexivity; contradiction.
Qed.

(** The witness of X22: a color name that is no hexadecimal text. *)
Lemma X22_color_components_are_in_range_witness :
  Color.components "navy" = (26, 66, 142).
Proof.
  apply (X22_color_components_are_in_range "navy" 1%Q); vm_compute; discriminate.
Defined.

Lemma sanitize_hex6 (c1 c2 c3 c4 c5 c6 : ascii) :
  Color.is_alnum c1 = true -> Color.is_alnum c6 = true ->
  Color.sanitize
    (String "#" (String c1 (String c2 (String c3 (String c4 (String c5
       (String c6 "")))))))
  = String c1 (String c2 (String c3 (String c4 (String c5 (String c6 ""))))).
Proof.
  intros H1 H6. unfold Color.sanitize. simpl. rewrite H1. simpl.
  unfold Str.reversed. simpl. rewrite H6. reflexivity.
Qed.

Lemma scan_digits_step (acc : Z) (c : ascii) (d : Z) (r : string) :
  Color.hex_value c = Some d -> 0 <= acc < 16 ^ 15 ->
  Color.scan_digits acc (String c r) = Color.scan_digits (acc * 16 + d) r.
Proof.
  intros Hd Hacc. simpl. rewrite Hd. apply hex_value_bounds in Hd.
  rewrite Z.min_l; [reflexivity|].
  unfold Color.UInt64_max. change (16 ^ 15) with 1152921504606846976 in Hacc.
  change (2 ^ 64) with 18446744073709551616. lia.
Qed.

Lemma hex6_decoded (hex : string) (rgb : Z * Z * Z) :
  Spec.rgbOfHex6 hex = Some rgb -> Color.components hex = rgb.
Proof.
  unfold Spec.rgbOfHex6.
  destruct hex as [|c0 rest]; [discriminate|].
  destruct c0 as [[] [] [] [] [] [] [] []]; try discriminate.
  destruct rest as [|c1 [|c2 [|c3 [|c4 [|c5 [|c6 [|c7 rest]]]]]]];
    try discriminate.
  destruct (Color.hex_value c1) as [d1|] eqn:E1; [|discriminate].
  destruct (Color.hex_value c2) as [d2|] eqn:E2; [|discriminate].
  destruct (Color.hex_value c3) as [d3|] eqn:E3; [|discriminate].
  destruct (Color.hex_value c4) as [d4|] eqn:E4; [|discriminate].
  destruct (Color.hex_value c5) as [d5|] eqn:E5; [|discriminate].
  destruct (Color.hex_value c6) as [d6|] eqn:E6; [|discriminate].
  simpl. intros [= <-]. unfold Color.components.
  change (Ascii.Ascii true true false false false true false false) with "#"%char.
  rewrite sanitize_hex6 by (eapply hex_value_alnum; eassumption).
  pose proof (hex_value_bounds _ _ E1) as B1.
  pose proof (hex_value_bounds _ _ E2) as B2.
  pose proof (hex_value_bounds _ _ E3) as B3.
  pose proof (hex_value_bounds _ _ E4) as B4.
  pose proof (hex_value_bounds _ _ E5) as B5.
  pose proof (hex_value_bounds _ _ E6) as B6.
  assert (P15 : 16 ^ 15 = 1152921504606846976) by reflexivity.
  assert (Hscan : Color.scanHexInt64
                    (String c1 (String c2 (String c3 (String c4 (String c5
                       (String c6 ""))))))
                  = ((((d1 * 16 + d2) * 16 + d3) * 16 + d4) * 16 + d5) * 16 + d6).
  { unfold Color.scanHexInt64.
    destruct (Ascii.eqb_spec c1 "0"%char) as [->|Hne].
    - assert (d1 = 0) as -> by (vm_compute in E1; congruence).
      unfold Color.starts_with_hex. rewrite E2.
      rewrite bool_decide_eq_true_2 by (eexists; reflexivity).
      rewrite (scan_digits_step _ _ _ _ E2) by lia.
      rewrite (scan_digits_step _ _ _ _ E3) by lia.
      rewrite (scan_digits_step _ _ _ _ E4) by lia.
      rewrite (scan_digits_step _ _ _ _ E5) by lia.
      rewrite (scan_digits_step _ _ _ _ E6) by lia.
      simpl. lia.
    - unfold Color.starts_with_hex. rewrite E1.
      rewrite bool_decide_eq_true_2 by (eexists; reflexivity).
      rewrite (scan_digits_step _ _ _ _ E1) by lia.
      rewrite (scan_digits_step _ _ _ _ E2) by lia.
      rewrite (scan_digits_step _ _ _ _ E3) by lia.
      rewrite (scan_digits_step _ _ _ _ E4) by lia.
      rewrite (scan_digits_step _ _ _ _ E5) by lia.
      rewrite (scan_digits_step _ _ _ _ E6) by lia.
      simpl. lia. }
  rewrite Hscan. cbv beta iota zeta. simpl String.length. cbv beta iota.
  rewrite !land_255, !shiftr_div by lia.
  change (2 ^ 8) with 256. change (2 ^ 16) with 65536.
  repeat f_equal; Z.div_mod_to_equations; lia.
Qed.

(** X23: for a text made of "#" and six hexadecimal digits, the components
    [Color(hex:alpha:)] computes are the three bytes the digits denote, and
    the color has each byte over 255. *)
Theorem X23_six_digit_hex_is_decoded (hex : string) (r g b : Z) (alpha : Q) :
  Spec.rgbOfHex6 hex = Some (r, g, b) ->
  Color.components hex = (r, g, b)
  /\ Color.init hex alpha
     = Color.mk (inject_Z r / 255)%Q (inject_Z g / 255)%Q (inject_Z b / 255)%Q
         alpha.
Proof.
  intros H. apply hex6_decoded in H. unfold Color.init. rewrite H.
  split; reflexivity.
Qed.

(** The witness of X23: the primary color of the Yankees. *)
Lemma X23_six_digit_hex_is_decoded_witness :
  Color.components "#0C2340" = (12, 35, 64).
Proof. apply (X23_six_digit_hex_is_decoded "#0C2340" 12 35 64 1%Q). reflexivity. Defined.

Lemma palettes_hex6 :
  Forall
    (fun p =>
       is_Some (Spec.rgbOfHex6 (TeamBranding.primaryHex (snd p)))
       /\ is_Some (Spec.rgbOfHex6 (TeamBranding.secondaryHex (snd p)))
       /\ is_Some (Spec.rgbOfHex6 (TeamBranding.accentHex (snd p))))
    TeamBranding.palettes.
Proof.
  unfold TeamBranding.palettes.
  repeat (constructor; [repeat split; eexists; reflexivity|]). constructor.
Qed.

(** X24: whatever the abbreviation, the three colors of the palette a team
    gets are texts of the form "#RRGGBB": none of them falls back to the
    default color, each is decoded to the bytes it denotes. *)
Theorem X24_palette_colors_are_well_formed (abbreviation : string) :
  let palette := TeamBranding.palette abbreviation in
  Spec.rgbOfHex6 (TeamBranding.primaryHex palette)
  = Some (Color.components (TeamBranding.primaryHex palette))
  /\ Spec.rgbOfHex6 (TeamBranding.secondaryHex palette)
     = Some (Color.components (TeamBranding.secondaryHex palette))
  /\ Spec.rgbOfHex6 (TeamBranding.accentHex palette)
     = Some (Color.components (TeamBranding.accentHex palette)).
Proof.
  intros palette.
  assert (H : is_Some (Spec.rgbOfHex6 (TeamBranding.primaryHex palette))
              /\ is_Some (Spec.rgbOfHex6 (TeamBranding.secondaryHex palette))
              /\ is_Some (Spec.rgbOfHex6 (TeamBranding.accentHex palette))).
  { subst palette. unfold TeamBranding.palette.
    destruct (List.find _ TeamBranding.palettes) as [p|] eqn:E.
    - apply List.find_some in E as [Hin _].
      pose proof palettes_hex6 as H. rewrite List.Forall_forall in H.
      apply H, Hin.
    - repeat split; eexists; reflexivity. }
  destruct H as ([a Ha] & [b Hb] & [c Hc]).
  rewrite Ha, Hb, Hc.
  rewrite (hex6_decoded _ _ Ha), (hex6_decoded _ _ Hb), (hex6_decoded _ _ Hc).
  repeat split.
Qed.

(* ===================================================================== *)
(** ** Division chips and views *)
(* ===================================================================== *)

Lemma uniqueDivisions_fold_inv (Q : Z -> StandingsViewModel.DivisionDescriptor -> Prop)
    (secs : list StandingsSection.t)
    (u : gmap Z StandingsViewModel.DivisionDescriptor) :
  (forall k v, u !! k = Some v -> Q k v) ->
  Forall (fun s =>
            Q (StandingsSection.divisionID s)
              (StandingsViewModel.mkDivisionDescriptor
                 (StandingsSection.divisionID s) (StandingsSection.title s)
                 (StandingsSection.leagueAbbreviation s))) secs ->
  forall k v,
    foldl (fun unique section =>
             <[StandingsSection.divisionID section :=
                 StandingsViewModel.mkDivisionDescriptor
                   (StandingsSection.divisionID section)
                   (StandingsSection.title section)
                   (StandingsSection.leagueAbbreviation section)]> unique)
          u secs !! k = Some v ->
    Q k v.
Proof.
  revert u. induction secs as [|s r IH]; intros u Hu Hs k v; simpl.
  - apply Hu.
  - inversion Hs as [|? ? Hs1 Hs2]; subst. apply IH; [|exact Hs2].
    intros k' v'. rewrite lookup_insert. case_decide as E.
    + subst k'. intros [= <-]. exact Hs1.
    + apply Hu.
Qed.

Lemma uniqueDivisions_fold_dom (secs : list StandingsSection.t)
    (u : gmap Z StandingsViewModel.DivisionDescriptor) :
  dom (foldl (fun unique section =>
                <[StandingsSection.divisionID section :=
                    StandingsViewModel.mkDivisionDescriptor
                      (StandingsSection.divisionID section)
                      (StandingsSection.title section)
                      (StandingsSection.leagueAbbreviation section)]> unique)
             u secs)
  = dom u ∪ list_to_set (List.map StandingsSection.divisionID secs).
Proof.
  revert u. induction secs as [|s r IH]; intros u; simpl.
  - set_solver.
  - rewrite IH, dom_insert_L. set_solver.
Qed.

Lemma descriptor_ids (secs : list StandingsSection.t) :
  List.map StandingsViewModel.descriptorID
    (List.map snd (map_to_list (StandingsViewModel.uniqueDivisions secs)))
  = (map_to_list (StandingsViewModel.uniqueDivisions secs)).*1.
Proof.
  rewrite List.map_map. apply List.map_ext_in. intros [k v] Hin. simpl.
  apply list_elem_of_In, elem_of_map_to_list in Hin.
  revert k v Hin. apply uniqueDivisions_fold_inv.
  - intros k v H. rewrite lookup_empty in H. discriminate.
  - apply Forall_forall. intros s _. reflexivity.
Qed.

Lemma selected_division_stays_available (st : StandingsViewModel.State)
    (league : StandingsViewModel.LeagueFilter) (d : Z) :
  StandingsViewModel.selectedDivisionID
    (StandingsViewModel.set_selectedLeague league st) = Some d ->
  StandingsViewModel.selectedLeague
    (StandingsViewModel.set_selectedLeague league st) = league
  /\ d ∈ StandingsViewModel.availableDivisionIDs
           (StandingsViewModel.set_selectedLeague league st) league.
Proof.
  unfold StandingsViewModel.set_selectedLeague. simpl.
  destruct (StandingsViewModel.selectedDivisionID st) as [d0|] eqn:Hd0;
    [|simpl; rewrite Hd0; discriminate].
  change (StandingsViewModel.availableDivisionIDs
            (StandingsViewModel.with_selectedLeague league st) league)
    with (StandingsViewModel.availableDivisionIDs st league).
  destruct (bool_decide (d0 ∈ StandingsViewModel.availableDivisionIDs st league))
    eqn:Hb; simpl.
  - rewrite Hd0. intros [= <-]. apply bool_decide_eq_true_1 in Hb.
    split; [reflexivity | exact Hb].
  - discriminate.
Qed.

(** X25: the division chips [availableDivisionFilters] offers are, as a set
    of identifiers, exactly [availableDivisionIDs(for:)] of the selected
    league, each identifier once; every chip is made from a source section of
    that league; and after any change of the league filter, a division that
    is still selected has its chip. *)
Theorem X25_division_chips_match_available_divisions (st : StandingsViewModel.State) :
  let chips := StandingsViewModel.availableDivisionFilters st in
  list_to_set (List.map StandingsViewModel.descriptorID chips)
  = StandingsViewModel.availableDivisionIDs st (StandingsViewModel.selectedLeague st)
  /\ NoDup (List.map StandingsViewModel.descriptorID chips)
  /\ Forall
       (fun chip =>
          exists s,
            s ∈ StandingsViewModel.leagueSections
                  (StandingsViewModel.selectedLeague st)
                  (StandingsViewModel.sections st)
            /\ StandingsViewModel.descriptorID chip = StandingsSection.divisionID s
            /\ StandingsViewModel.descriptorName chip = StandingsSection.title s
            /\ StandingsViewModel.descriptorLeagueAbbreviation chip
               = StandingsSection.leagueAbbreviation s)
       chips
  /\ (forall league d,
        StandingsViewModel.selectedDivisionID
          (StandingsViewModel.set_selectedLeague league st) = Some d ->
        d ∈ List.map StandingsViewModel.descriptorID
              (StandingsViewModel.availableDivisionFilters
                 (StandingsViewModel.set_selectedLeague league st))).
Proof.
  assert (Hperm : forall st0,
            List.map StandingsViewModel.descriptorID
              (StandingsViewModel.availableDivisionFilters st0)
            ≡ₚ (map_to_list
                  (StandingsViewModel.uniqueDivisions
                     (StandingsViewModel.leagueSections
                        (StandingsViewModel.selectedLeague st0)
                        (StandingsViewModel.sections st0)))).*1).
  { intros st0. unfold StandingsViewModel.availableDivisionFilters.
    rewrite <- descriptor_ids. apply Permutation_map, sorted_by_Permutation. }
  assert (Hset : forall st0,
            list_to_set (List.map StandingsViewModel.descriptorID
                           (StandingsViewModel.availableDivisionFilters st0))
            = StandingsViewModel.availableDivisionIDs st0
                (StandingsViewModel.selectedLeague st0)).
  { intros st0. rewrite (Hperm st0). unfold StandingsViewModel.availableDivisionIDs.
    apply leibniz_equiv. rewrite <- dom_alt.
    unfold StandingsViewModel.uniqueDivisions.
    rewrite uniqueDivisions_fold_dom. set_solver. }
  intros chips. subst chips. split; [apply Hset|]. split; [|split].
  - rewrite (Hperm st). apply NoDup_fst_map_to_list.
  - apply Forall_forall. intros chip Hchip.
    unfold StandingsViewModel.availableDivisionFilters in Hchip.
    rewrite sorted_by_Permutation in Hchip.
    apply list_elem_of_In, in_map_iff in Hchip as ([k v] & <- & Hin). simpl.
    apply list_elem_of_In, elem_of_map_to_list in Hin.
    revert k v Hin. unfold StandingsViewModel.uniqueDivisions.
    apply (uniqueDivisions_fold_inv
             (fun _ v =>
                exists s,
                  s ∈ StandingsViewModel.leagueSections
                        (StandingsViewModel.selectedLeague st)
                        (StandingsViewModel.sections st)
                  /\ StandingsViewModel.descriptorID v = StandingsSection.divisionID s
                  /\ StandingsViewModel.descriptorName v = StandingsSection.title s
                  /\ StandingsViewModel.descriptorLeagueAbbreviation v
                     = StandingsSection.leagueAbbreviation s)).
    + intros k v H. rewrite lookup_empty in H. discriminate.
    + apply Forall_forall. intros s Hs. exists s. repeat split. exact Hs.
  - intros league d Hd.
    apply (elem_of_list_to_set (C := gset Z)). rewrite Hset.
    destruct (selected_division_stays_available st league d Hd) as [-> H].
    exact H.
Qed.

(** The witness of X25: with the American League East selected, switching to
    the American League keeps the division and its chip is offered. *)
Lemma X25_division_chips_match_available_divisions_witness :
  201 ∈ List.map StandingsViewModel.descriptorID
          (StandingsViewModel.availableDivisionFilters
             (StandingsViewModel.set_selectedLeague StandingsViewModel.american
                Examples.alEastSelected)).
Proof.
  destruct (X25_division_chips_match_available_divisions Examples.alEastSelected)
    as (_ & _ & _ & H).
  apply H. reflexivity.
Defined.

(** X26: for every rank from 0 to 110, and beyond for every rank that does
    not end in 11, 12 or 13, [formattedRank] is the rank followed by its
    English ordinal suffix; an absent rank is shown as the em-dash. *)
Theorem X26_formattedRank_is_the_english_ordinal (rank : Z) :
  0 <= rank ->
  rank <= 110 \/ ~ (11 <= rank mod 100 <= 13) ->
  Views.formattedRank (Some rank) = pretty rank ++ Spec.englishOrdinalSuffix rank.
Proof.
  intros H0 H. unfold Views.formattedRank, Spec.englishOrdinalSuffix.
  rewrite Z.rem_mod_nonneg by lia.
  repeat match goal with
  | |- context [Z.eqb ?a ?b] => destruct (Z.eqb_spec a b)
  | |- context [Z.leb ?a ?b] => destruct (Z.leb_spec a b)
  end; simpl; try reflexivity; exfalso;
  Z.div_mod_to_equations; lia.
Qed.

(** The witness of X26: the twenty-second. *)
Lemma X26_formattedRank_is_the_english_ordinal_witness :
  Views.formattedRank (Some 22) = "22nd".
Proof.
  rewrite (X26_formattedRank_is_the_english_ordinal 22) by lia. reflexivity.
Defined.

(* ===================================================================== *)
(** ** Tolerant parsing and the order of the filtered view *)
(* ===================================================================== *)

Lemma string_app_assoc (a b c : string) : (a ++ b) ++ c = a ++ (b ++ c).
Proof.
  induction a as [|x r IH]; [reflexivity | exact (f_equal (String x) IH)].
Qed.

Lemma string_app_nil_r (a : string) : a ++ "" = a.
Proof.
  induction a as [|x r IH]; [reflexivity | exact (f_equal (String x) IH)].
Qed.

Lemma rev_onto_app (s acc : string) :
  Str.rev_onto s acc = Str.reversed s ++ acc.
Proof.
  unfold Str.reversed. revert acc.
  induction s as [|c r IH]; intros acc; simpl; [reflexivity|].
  rewrite IH, (IH (String c "")), string_app_assoc. reflexivity.
Qed.

Lemma reversed_app (a b : string) :
  Str.reversed (a ++ b) = Str.reversed b ++ Str.reversed a.
Proof.
  induction a as [|c r IH]; simpl.
  - now rewrite string_app_nil_r.
  - unfold Str.reversed at 1 3. simpl.
    rewrite (rev_onto_app (r ++ b)), (rev_onto_app r), IH.
    apply string_app_assoc.
Qed.

Lemma all_in_app (set a b : string) :
  Spec.all_in set (a ++ b) = Spec.all_in set a && Spec.all_in set b.
Proof.
  induction a as [|c r IH]; simpl; [reflexivity|].
  rewrite IH. now rewrite andb_assoc.
Qed.

Lemma all_in_reversed (set s : string) :
  Spec.all_in set (Str.reversed s) = Spec.all_in set s.
Proof.
  induction s as [|c r IH]; [reflexivity|].
  change (String c r) with (String c "" ++ r) at 1.
  rewrite reversed_app, all_in_app, IH. unfold Str.reversed. simpl.
  rewrite andb_true_r. apply andb_comm.
Qed.

Lemma drop_while_in_app (set s r : string) :
  Str.drop_while_in set (s ++ r)
  = if Spec.all_in set s then Str.drop_while_in set r
    else Str.drop_while_in set s ++ r.
Proof.
  induction s as [|c t IH]; simpl; [reflexivity|].
  destruct (Str.mem_char c set); simpl; [exact IH | reflexivity].
Qed.

Lemma drop_while_in_all (set s : string) :
  Spec.all_in set s = true -> Str.drop_while_in set s = "".
Proof.
  induction s as [|c t IH]; simpl; [reflexivity|].
  destruct (Str.mem_char c set); simpl; [exact IH | discriminate].
Qed.

Lemma trimmingCharacters_padding (set l s r : string) :
  Spec.all_in set l = true -> Spec.all_in set r = true ->
  Str.trimmingCharacters set (l ++ s ++ r) = Str.trimmingCharacters set s.
Proof.
  intros Hl Hr. unfold Str.trimmingCharacters.
  rewrite (drop_while_in_app set l), Hl, (drop_while_in_app set s).
  destruct (Spec.all_in set s) eqn:Hs.
  - now rewrite (drop_while_in_all set r), (drop_while_in_all set s).
  - rewrite reversed_app, drop_while_in_app, all_in_reversed, Hr. reflexivity.
Qed.

(** X27: the tolerant parser ignores blanks and percent signs around the
    text: padded on either side with any number of them, a text parses to
    the same result, value or absence. *)
Theorem X27_tolerant_parser_ignores_padding (left text right : string) :
  Spec.all_in " %" left = true ->
  Spec.all_in " %" right = true ->
  Double_init (Some (left ++ text ++ right)) = Double_init (Some text).
Proof.
  intros Hl Hr. unfold Double_init.
  now rewrite trimmingCharacters_padding.
Qed.

(** The witness of X27: a percentage written with its sign and blanks. *)
Lemma X27_tolerant_parser_ignores_padding_witness :
  Double_init (Some " 71.4 %") = Some (Double.of_Q 71.4).
Proof.
  refine (eq_trans
            (X27_tolerant_parser_ignores_padding " " "71.4" " %" eq_refl eq_refl)
            _).
  vm_compute. reflexivity.
Defined.

Lemma in_order_lookup {A} (lt : A -> A -> bool) (l : list A) (i j : nat) (a b : A) :
  in_order lt l -> (i < j)%nat -> l !! i = Some a -> l !! j = Some b ->
  lt b a = false.
Proof.
  revert i j. induction l as [|y r IH]; intros i j Hord Hij Hi Hj;
    [discriminate|].
  destruct Hord as [Hy Hr]. destruct j as [|j]; [lia|]. simpl in Hj.
  destruct i as [|i]; simpl in Hi.
  - injection Hi as ->. rewrite Forall_forall in Hy.
    apply Hy. eapply list_elem_of_lookup_2, Hj.
  - apply (IH i j); [assumption | lia | assumption | assumption].
Qed.

(** X28: in every section of the filtered view whose teams have a number
    as sort metric, a later team is never strictly before an earlier one
    under the favorites-first comparator; so among teams of one favorite
    group the division ranks, absent counted as 0, ascend under the
    division-rank option and the winning percentages descend under the
    winning-percentage option. *)
Theorem X28_filtered_teams_are_in_order (st : StandingsViewModel.State) :
  Forall
    (fun s' =>
       Forall
         (fun t => Spec.comparable (StandingsViewModel.sortOption st) t = true)
         (StandingsSection.teams s') ->
       forall i j a b,
         (i < j)%nat ->
         StandingsSection.teams s' !! i = Some a ->
         StandingsSection.teams s' !! j = Some b ->
         StandingsViewModel.prioritized (StandingsViewModel.favorites st)
           (StandingsViewModel.comparator (StandingsViewModel.sortOption st)) b a
         = false
         /\ (StandingsViewModel.isFavorite (StandingsViewModel.favorites st) a
             = StandingsViewModel.isFavorite (StandingsViewModel.favorites st) b ->
             (StandingsViewModel.sortOption st = StandingsViewModel.divisionRank ->
              StandingsViewModel.rankOrZero a <= StandingsViewModel.rankOrZero b)
             /\ (StandingsViewModel.sortOption st
                 = StandingsViewModel.winningPercentage ->
                 Double.leb (TeamStanding.winningPercentage b)
                            (TeamStanding.winningPercentage a) = true)))
    (StandingsViewModel.filteredSections (StandingsViewModel.applyFilters st)).
Proof.
  apply Forall_forall. intros s' Hs' Hnum i j a b Hij Hi Hj.
  apply filteredSections_source in Hs' as (s & _ & _ & _ & Hf).
  apply filterSection_Some in Hf as (Ht & _ & _).
  assert (Hord : StandingsViewModel.prioritized (StandingsViewModel.favorites st)
                   (StandingsViewModel.comparator (StandingsViewModel.sortOption st))
                   b a = false).
  { eapply in_order_lookup; [|exact Hij|exact Hi|exact Hj].
    rewrite Ht. apply sort_in_order. rewrite Ht in Hnum.
    apply (sort_comparable st), Hnum. }
  split; [exact Hord|]. intros Hfav.
  unfold StandingsViewModel.prioritized in Hord. rewrite Hfav, eqb_reflx in Hord.
  rewrite Forall_forall in Hnum.
  pose proof (Hnum a (list_elem_of_lookup_2 _ _ _ Hi)) as Ha.
  pose proof (Hnum b (list_elem_of_lookup_2 _ _ _ Hj)) as Hb.
  split; intros Hopt; rewrite Hopt in Hord, Ha, Hb;
    unfold StandingsViewModel.comparator in Hord.
  - revert Hord. reflect_comparisons; intros; try discriminate; lia.
  - unfold Spec.comparable in Ha, Hb. revert Ha Hb Hord.
    generalize (StandingsViewModel.rankOrZero a) (StandingsViewModel.rankOrZero b)
               (TeamStanding.winningPercentage a)
               (TeamStanding.winningPercentage b).
    intros ra rb x y. double_crush.
Qed.

(** The witness of X28: the sample sorted by winning percentage, first and
    second team of the first section. *)
Lemma X28_filtered_teams_are_in_order_witness :
  let st := StandingsViewModel.set_sortOption StandingsViewModel.winningPercentage
              Examples.sampleState in
  Double.leb (TeamStanding.winningPercentage TeamStanding.orioles)
             (TeamStanding.winningPercentage TeamStanding.yankees) = true.
Proof.
  intros st.
  pose proof (X28_filtered_teams_are_in_order st) as H.
  change (StandingsViewModel.filteredSections (StandingsViewModel.applyFilters st))
    with (StandingsViewModel.filteredSections st) in H.
  rewrite Forall_forall in H.
  assert (Hin : StandingsSection.with_teams StandingsSection.alEast
                  (StandingsSection.teams StandingsSection.alEast)
                ∈ StandingsViewModel.filteredSections st)
    by (apply list_elem_of_In; vm_compute; tauto).
  destruct (H _ Hin ltac:(repeat constructor) 0%nat 1%nat
              TeamStanding.yankees TeamStanding.orioles)
    as [_ H2]; [lia | reflexivity | reflexivity |].
  apply H2; reflexivity.
Defined.

(** The witness of X3: every team shown for the sample is a team of a sample
    section. *)
Lemma X3_filtered_sections_come_from_source_witness :
  Forall
    (fun s' =>
       exists s,
         s ∈ StandingsSection.sample
         /\ forall t, t ∈ StandingsSection.teams s' -> t ∈ StandingsSection.teams s)
    (StandingsViewModel.filteredSections Examples.sampleState).
Proof.
  pose proof (X3_filtered_sections_come_from_source Examples.sampleState) as H.
  eapply Forall_impl; [exact H|].
  intros s' (s & Hs & _ & _ & Ht). exists s. split; assumption.
Defined.

(** The witness of X10: the sample state has no active filter, and shows the
    American League East in full. *)
Lemma X10_inactive_filters_show_everything_witness :
  exists s',
    s' ∈ StandingsViewModel.filteredSections
           (StandingsViewModel.applyFilters Examples.sampleState)
    /\ StandingsSection.id s' = 201
    /\ StandingsSection.teams s' ≡ₚ StandingsSection.teams StandingsSection.alEast.
Proof.
  destruct (X10_inactive_filters_show_everything Examples.sampleState) as [_ H].
  apply (H eq_refl StandingsSection.alEast).
  - apply list_elem_of_In. left. reflexivity.
  - discriminate.
Defined.
